(** * travel-planner: the POI normalisation rules of the scrapers

    A shallow embedding of the decision logic of
    - [src/data/scrapers/gotokyo_events.py]   (class GoTokyoEventScraper),
    - [src/data/scrapers/tabelog_food.py]     (class TabelogScraper),
    - [src/data/scrapy_scrapers/travel_scrapers/spiders/gotokyo_events.py],
    - [src/data/scrapy_scrapers/travel_scrapers/items.py] and [pipelines.py],
    and the properties the specification states about them.

    Python values are modelled as follows.
    - [str] is a list of Unicode code points (so [len] is [length]);
    - [bytes] is a list of integers in [0, 255];
    - [None] is [None] of an option type; a raised exception is the
      constructor [Raise] of the result type of the function that may
      raise, or [None] where the source turns every exception into [None];
    - a dict with a fixed set of keys is a record.
    What the code obtains from the network and from the HTML parser (the text
    of the elements of a card, the list of anchors and scripts of a page) is
    an argument of the embedded function. *)

From Stdlib Require Import String Ascii ZArith List Bool Lia Permutation.
Import ListNotations.
Open Scope Z_scope.

Set Implicit Arguments.

(* ===================================================================== *)
(** * Python strings *)
(* ===================================================================== *)

Module Py.

(** A Python [str]: the sequence of its code points. *)
Definition str := list Z.

(** A [str] literal written in ASCII. *)
Definition lit (s : string) : str :=
  map (fun a => Z.of_N (N_of_ascii a)) (list_ascii_of_string s).

Definition str_eqb (a b : str) : bool :=
  if list_eq_dec Z.eq_dec a b then true else false.

(** [not s] for a string: the empty string is falsy. *)
Definition falsy (s : str) : bool :=
  match s with [] => true | _ :: _ => false end.

(** [a or b] on strings. *)
Definition or_else (a b : str) : str := if falsy a then b else a.

(** [s.startswith(p)]. *)
Fixpoint startswith (p s : str) : bool :=
  match p, s with
  | [], _ => true
  | _ :: _, [] => false
  | a :: p', b :: s' => (a =? b) && startswith p' s'
  end.

(** [p in s]: substring test. *)
Fixpoint contains (p s : str) : bool :=
  startswith p s ||
  match s with
  | [] => false
  | _ :: s' => contains p s'
  end.

(** [s.endswith(p)]. *)
Definition endswith (p s : str) : bool := startswith (rev p) (rev s).

(** [any(word in text for word in words)]. *)
Definition any_in (words : list str) (text : str) : bool :=
  existsb (fun w => contains w text) words.

(** [str.isspace] on one character, which is also what [\s] of a [str]
    regular expression matches. *)
Definition isspace (c : Z) : bool :=
  ((9 <=? c) && (c <=? 13)) || ((28 <=? c) && (c <=? 32))
  || (c =? 133) || (c =? 160) || (c =? 5760)
  || ((8192 <=? c) && (c <=? 8202))
  || (c =? 8232) || (c =? 8233) || (c =? 8239) || (c =? 8287)
  || (c =? 12288).

Fixpoint lstrip (s : str) : str :=
  match s with
  | [] => []
  | c :: s' => if isspace c then lstrip s' else s
  end.

Definition rstrip (s : str) : str := rev (lstrip (rev s)).

(** [s.strip()]. *)
Definition strip (s : str) : str := rstrip (lstrip s).

(** [s.rfind(c)] for a one-character [c]: the highest index, or -1. *)
Fixpoint rfind_from (c : Z) (s : str) (i acc : Z) : Z :=
  match s with
  | [] => acc
  | x :: s' => rfind_from c s' (i + 1) (if x =? c then i else acc)
  end.

Definition rfind (c : Z) (s : str) : Z := rfind_from c s 0 (-1).

(** [s[:n]] for [n >= 0]. *)
Definition slice_to (n : Z) (s : str) : str := firstn (Z.to_nat n) s.

(** [len(s)]. *)
Definition len (s : str) : Z := Z.of_nat (length s).

(** [sep.join(parts)]. *)
Fixpoint join (sep : str) (parts : list str) : str :=
  match parts with
  | [] => []
  | [p] => p
  | p :: rest => p ++ sep ++ join sep rest
  end.

(** [s.lower()] on ASCII text. Python's [str.lower] follows the Unicode
    case mappings; the embedded functions take it as a parameter, and the
    concrete examples, all of them ASCII or caseless, use this one. *)
Definition ascii_lower (s : str) : str :=
  map (fun c => if (65 <=? c) && (c <=? 90) then c + 32 else c) s.

(** [s.encode('utf-8')]; [None] stands for the [UnicodeEncodeError] that a
    lone surrogate raises. *)
Definition utf8_char (c : Z) : option (list Z) :=
  if c <? 0 then None
  else if c <? 128 then Some [c]
  else if c <? 2048 then
    Some [Z.lor 192 (Z.shiftr c 6); Z.lor 128 (Z.land c 63)]
  else if c <? 65536 then
    if (55296 <=? c) && (c <=? 57343) then None
    else Some [Z.lor 224 (Z.shiftr c 12);
               Z.lor 128 (Z.land (Z.shiftr c 6) 63);
               Z.lor 128 (Z.land c 63)]
  else if c <? 1114112 then
    Some [Z.lor 240 (Z.shiftr c 18);
          Z.lor 128 (Z.land (Z.shiftr c 12) 63);
          Z.lor 128 (Z.land (Z.shiftr c 6) 63);
          Z.lor 128 (Z.land c 63)]
  else None.

Fixpoint encode_utf8 (s : str) : option (list Z) :=
  match s with
  | [] => Some []
  | c :: s' =>
      match utf8_char c, encode_utf8 s' with
      | Some b, Some bs => Some (b ++ bs)
      | _, _ => None
      end
  end.

End Py.

(* ===================================================================== *)
(** * hashlib.md5 *)
(* ===================================================================== *)

Module MD5.

Definition w32 (x : Z) : Z := Z.land x 4294967295.

Definition add32 (x y : Z) : Z := w32 (x + y).

Definition not32 (x : Z) : Z := Z.lxor x 4294967295.

Definition rotl32 (x s : Z) : Z :=
  w32 (Z.lor (Z.shiftl x s) (Z.shiftr x (32 - s))).

(** Little-endian bytes of a word. *)
Definition le_bytes4 (x : Z) : list Z :=
  [Z.land x 255; Z.land (Z.shiftr x 8) 255;
   Z.land (Z.shiftr x 16) 255; Z.land (Z.shiftr x 24) 255].

Definition le_bytes8 (x : Z) : list Z :=
  le_bytes4 x ++ le_bytes4 (Z.shiftr x 32).

Definition le_word (b : list Z) : Z :=
  match b with
  | [b0; b1; b2; b3] =>
      Z.lor b0 (Z.lor (Z.shiftl b1 8) (Z.lor (Z.shiftl b2 16) (Z.shiftl b3 24)))
  | _ => 0
  end.

Definition shifts : list Z :=
  [7; 12; 17; 22; 7; 12; 17; 22; 7; 12; 17; 22; 7; 12; 17; 22;
   5; 9; 14; 20; 5; 9; 14; 20; 5; 9; 14; 20; 5; 9; 14; 20;
   4; 11; 16; 23; 4; 11; 16; 23; 4; 11; 16; 23; 4; 11; 16; 23;
   6; 10; 15; 21; 6; 10; 15; 21; 6; 10; 15; 21; 6; 10; 15; 21].

(** [floor(2^32 * abs(sin(i + 1)))] for [i] in 0..63. *)
Definition sines : list Z :=
  [0xd76aa478; 0xe8c7b756; 0x242070db; 0xc1bdceee;
   0xf57c0faf; 0x4787c62a; 0xa8304613; 0xfd469501;
   0x698098d8; 0x8b44f7af; 0xffff5bb1; 0x895cd7be;
   0x6b901122; 0xfd987193; 0xa679438e; 0x49b40821;
   0xf61e2562; 0xc040b340; 0x265e5a51; 0xe9b6c7aa;
   0xd62f105d; 0x02441453; 0xd8a1e681; 0xe7d3fbc8;
   0x21e1cde6; 0xc33707d6; 0xf4d50d87; 0x455a14ed;
   0xa9e3e905; 0xfcefa3f8; 0x676f02d9; 0x8d2a4c8a;
   0xfffa3942; 0x8771f681; 0x6d9d6122; 0xfde5380c;
   0xa4beea44; 0x4bdecfa9; 0xf6bb4b60; 0xbebfbc70;
   0x289b7ec6; 0xeaa127fa; 0xd4ef3085; 0x04881d05;
   0xd9d4d039; 0xe6db99e5; 0x1fa27cf8; 0xc4ac5665;
   0xf4292244; 0x432aff97; 0xab9423a7; 0xfc93a039;
   0x655b59c3; 0x8f0ccc92; 0xffeff47d; 0x85845dd1;
   0x6fa87e4f; 0xfe2ce6e0; 0xa3014314; 0x4e0811a1;
   0xf7537e82; 0xbd3af235; 0x2ad7d2bb; 0xeb86d391].

Record state := State { sa : Z; sb : Z; sc : Z; sd : Z }.

Definition init : state :=
  State 0x67452301 0xefcdab89 0x98badcfe 0x10325476.

(** The sixteen little-endian words of a 64-byte block. *)
Fixpoint words (n : nat) (block : list Z) : list Z :=
  match n with
  | O => []
  | S n' => le_word (firstn 4 block) :: words n' (skipn 4 block)
  end.

(** One of the 64 operations. *)
Definition step (m : list Z) (st : state) (i : Z) : state :=
  let '(State a b c d) := st in
  let f :=
    if i <? 16 then Z.lor (Z.land b c) (Z.land (not32 b) d)
    else if i <? 32 then Z.lor (Z.land d b) (Z.land (not32 d) c)
    else if i <? 48 then Z.lxor b (Z.lxor c d)
    else Z.lxor c (Z.lor b (not32 d)) in
  let g :=
    if i <? 16 then i
    else if i <? 32 then (5 * i + 1) mod 16
    else if i <? 48 then (3 * i + 5) mod 16
    else (7 * i) mod 16 in
  let k := nth (Z.to_nat i) sines 0 in
  let s := nth (Z.to_nat i) shifts 0 in
  let x := nth (Z.to_nat g) m 0 in
  let f' := add32 (add32 (add32 f a) k) x in
  State d (add32 b (rotl32 f' s)) b c.

Definition indices : list Z := map Z.of_nat (seq 0 64).

Definition compress (st : state) (block : list Z) : state :=
  let m := words 16 block in
  let '(State a b c d) := fold_left (step m) indices st in
  State (add32 (sa st) a) (add32 (sb st) b)
        (add32 (sc st) c) (add32 (sd st) d).

(** The message followed by 0x80, zeros up to 56 modulo 64, and the length
    in bits as a 64-bit little-endian integer. *)
Definition pad (msg : list Z) : list Z :=
  let n := Z.of_nat (length msg) in
  msg ++ [128] ++ repeat 0 (Z.to_nat ((55 - n) mod 64))
      ++ le_bytes8 (Z.land (8 * n) 18446744073709551615).

Fixpoint blocks (n : nat) (data : list Z) (st : state) : state :=
  match n with
  | O => st
  | S n' => blocks n' (skipn 64 data) (compress st (firstn 64 data))
  end.

(** [hashlib.md5(msg).digest()]. *)
Definition digest (msg : list Z) : list Z :=
  let data := pad msg in
  let '(State a b c d) := blocks (length data / 64) data init in
  le_bytes4 a ++ le_bytes4 b ++ le_bytes4 c ++ le_bytes4 d.

Definition hex_digit (d : Z) : Z := if d <? 10 then 48 + d else 87 + d.

Definition hex_byte (b : Z) : Py.str :=
  [hex_digit (Z.land (Z.shiftr b 4) 15); hex_digit (Z.land b 15)].

(** [hashlib.md5(msg).hexdigest()]. *)
Definition hexdigest (msg : list Z) : Py.str :=
  flat_map hex_byte (digest msg).

(** A character of a lowercase hexadecimal numeral. *)
Definition is_hex (c : Z) : bool :=
  ((48 <=? c) && (c <=? 57)) || ((97 <=? c) && (c <=? 102)).

End MD5.

(** [hashlib.md5(s.encode('utf-8')).hexdigest()[:12]], the expression by
    which all three sources derive an id. [None]: [encode] raised. *)
Definition md5_hex12 (s : Py.str) : option Py.str :=
  match Py.encode_utf8 s with
  | Some bytes => Some (firstn 12 (MD5.hexdigest bytes))
  | None => None
  end.

(* ===================================================================== *)
(** * Library functions the sources call *)
(* ===================================================================== *)

(** Python's [float]: the type, [float(s)] ([None]: ValueError), the
    constant [0.0], truthiness, and the comparisons the sources make. *)
Class PyFloat (F : Type) := {
  float_of_str : Py.str -> option F;
  float_zero : F;
  float_truthy : F -> bool;
  float_ge_3_5 : F -> bool;
  float_ge_3_7 : F -> bool
}.

(** The regular expressions of the sources that capture two groups. *)
Inductive pattern2 :=
| re_map_at       (* r'[@,](-?\d+\.\d+),(-?\d+\.\d+)' *)
| re_script_lat   (* r'"lat":\s*(-?\d+\.\d+).*?"lng":\s*(-?\d+\.\d+)' *)
| re_map_q.       (* r'q=(-?\d+\.\d+),(-?\d+\.\d+)' *)

(** The regular expressions of the sources of which one group is read. *)
Inductive pattern1 :=
| re_latitude     (* r'["\']latitude["\']\s*:\s*(-?\d+\.\d+)', group 1 *)
| re_longitude    (* r'["\']longitude["\']\s*:\s*(-?\d+\.\d+)', group 1 *)
| re_decimal.     (* r'\d+\.\d+', group 0 *)

(** A function that may raise. *)
Inductive outcome (A : Type) :=
| Ret (a : A)
| Raise.
Arguments Raise {A}.

(* ===================================================================== *)
(** * The POI dict of the two standalone scrapers *)
(* ===================================================================== *)

Inductive time_of_day := morning | afternoon | evening | night.

Module POI.

(** The [coordinates] dict, with its keys [lat] and [lon]. *)
Record coords (F : Type) := Coords { lat : option F; lon : option F }.

(** The dict built by [parse_event_card] and [parse_restaurant_card].
    [last_updated_ts], the wall clock, is left out. *)
Record t (F : Type) := Make {
  id : Py.str;
  name : Py.str;
  type : Py.str;
  category_tags : list Py.str;
  neighborhood : Py.str;
  price_range : option Z;
  halal : Py.str;
  cuisine : option (list Py.str);
  interest_tags : list Py.str;
  coordinates : coords F;
  typical_duration_minutes : Z;
  best_time_of_day : option time_of_day;
  short_description : Py.str;
  source_url : Py.str
}.

Definition null_coords {F : Type} : coords F := Coords None None.

(** Both keys null or both populated. *)
Definition paired {F : Type} (c : coords F) : Prop :=
  (lat c = None /\ lon c = None) \/ (lat c <> None /\ lon c <> None).

End POI.

(** [x in l] for a list of strings. *)
Definition str_mem (x : Py.str) (l : list Py.str) : bool :=
  existsb (Py.str_eqb x) l.

(** [list(set(l))]: the distinct elements of [l]; the order Python gives
    them is unspecified, so the theorems speak of membership only. *)
Definition list_set (l : list Py.str) : list Py.str :=
  nodup (list_eq_dec Z.eq_dec) l.

(* ===================================================================== *)
(** * src/data/scrapers/gotokyo_events.py *)
(* ===================================================================== *)

Module GoTokyoEventScraper.

(** What the HTML parser finds on an event detail page: the [href] of
    the anchors that point to Google Maps, and [script.string] of the
    script elements. *)
Record detail_page := DetailPage {
  map_links : list Py.str;
  scripts : list (option Py.str)
}.

(** What the HTML parser finds in an event card. [link] is [None] when
    the card has no anchor, else its [href] (or the empty string);
    the other optional texts are [None] when the element is absent.
    [detail] is what fetching and parsing the detail page gives,
    [None] when that raises. *)
Record card := Card {
  link : option Py.str;
  name_text : Py.str;
  desc_text : option Py.str;
  date_text : option Py.str;
  location_text : option Py.str;
  tag_texts : list Py.str;
  detail : option detail_page
}.

Definition base_url : Py.str := Py.lit "https://www.gotokyo.org".
Definition events_url : Py.str :=
  Py.lit "https://www.gotokyo.org/en/spot/index.html".

Definition generate_poi_id (url : Py.str) : option Py.str := md5_hex12 url.

Section Scraper.
Context {F : Type} {FL : PyFloat F}.
Variable lower : Py.str -> Py.str.
Variable title : Py.str -> Py.str.
Variable urljoin : Py.str -> Py.str -> Py.str.
Variable search2 : pattern2 -> Py.str -> option (Py.str * Py.str).

(** [lat, lon = float(m.group(1)), float(m.group(2))] and the dict. *)
Definition coords_of_match (m : Py.str * Py.str) : outcome (POI.coords F) :=
  match float_of_str (fst m), float_of_str (snd m) with
  | Some a, Some b => Ret (POI.Coords (Some a) (Some b))
  | _, _ => Raise
  end.

Fixpoint scan_links (links : list Py.str) : option (outcome (POI.coords F)) :=
  match links with
  | [] => None
  | href :: rest =>
      match search2 re_map_at href with
      | Some m => Some (coords_of_match m)
      | None => scan_links rest
      end
  end.

Fixpoint scan_scripts (l : list (option Py.str))
  : option (outcome (POI.coords F)) :=
  match l with
  | [] => None
  | None :: rest => scan_scripts rest
  | Some s :: rest =>
      if Py.falsy s then scan_scripts rest
      else match search2 re_script_lat s with
           | Some m => Some (coords_of_match m)
           | None => scan_scripts rest
           end
  end.

(** [extract_coordinates]; every exception inside its [try] ends in the
    final [return {"lat": None, "lon": None}]. *)
Definition extract_coordinates (page : option detail_page) : POI.coords F :=
  match page with
  | None => POI.null_coords
  | Some p =>
      match scan_links (map_links p) with
      | Some (Ret c) => c
      | Some Raise => POI.null_coords
      | None =>
          match scan_scripts (scripts p) with
          | Some (Ret c) => c
          | _ => POI.null_coords
          end
      end
  end.

Definition neighborhood_map : list (Py.str * Py.str) :=
  [(Py.lit "shibuya", Py.lit "Shibuya");
   (Py.lit "shinjuku", Py.lit "Shinjuku");
   (Py.lit "harajuku", Py.lit "Harajuku");
   (Py.lit "asakusa", Py.lit "Asakusa");
   (Py.lit "ginza", Py.lit "Ginza");
   (Py.lit "roppongi", Py.lit "Roppongi");
   (Py.lit "akihabara", Py.lit "Akihabara");
   (Py.lit "ueno", Py.lit "Ueno");
   (Py.lit "tokyo station", Py.lit "Tokyo Station");
   (Py.lit "ikebukuro", Py.lit "Ikebukuro");
   (Py.lit "odaiba", Py.lit "Odaiba");
   (Py.lit "tsukiji", Py.lit "Tsukiji")].

Definition clean_neighborhood (location_text : Py.str) : Py.str :=
  if Py.falsy location_text then Py.lit "Tokyo"
  else
    let location_lower := lower location_text in
    match find (fun kv => Py.contains (fst kv) location_lower)
               neighborhood_map with
    | Some kv => snd kv
    | None => title (Py.strip location_text)
    end.

Definition estimate_duration (name description : Py.str) : Z :=
  let text := lower (name ++ [32] ++ description) in
  if Py.any_in [Py.lit "festival"; Py.lit "matsuri"] text then 180
  else if Py.any_in [Py.lit "exhibition"; Py.lit "museum"] text then 90
  else if Py.any_in [Py.lit "concert"; Py.lit "performance"; Py.lit "show"]
                    text then 120
  else if Py.any_in [Py.lit "market"; Py.lit "fair"] text then 60
  else if Py.any_in [Py.lit "ceremony"; Py.lit "ritual"] text then 45
  else 90.

(** The first half of [create_short_description]: the description cut
    to its first 200 characters. *)
Definition truncate_description (description : Py.str) : Py.str :=
  let desc := Py.strip description in
  if 200 <? Py.len desc then
    let short := Py.slice_to 200 desc in
    let last_period := Py.rfind 46 short in
    if 100 <? last_period then Py.slice_to (last_period + 1) short
    else short ++ Py.lit "..."
  else desc.

Definition create_short_description (description event_date : Py.str)
  : Py.str :=
  let desc := truncate_description description in
  if negb (Py.falsy event_date) && negb (Py.contains event_date desc)
  then Py.strip (desc ++ [32] ++ event_date)
  else desc.

(** The keyword rules of [parse_event_card], applied when the card has
    no explicit tag. *)
Definition infer_category_tags (text_content : Py.str) : list Py.str :=
  let tags := [] in
  let tags :=
    if Py.any_in [Py.lit "festival"; Py.lit "matsuri"] text_content
    then tags ++ [Py.lit "Festival"] else tags in
  let tags :=
    if Py.any_in [Py.lit "museum"; Py.lit "exhibition"; Py.lit "art"]
                 text_content
    then tags ++ [Py.lit "Exhibition"] else tags in
  let tags :=
    if Py.any_in [Py.lit "temple"; Py.lit "shrine"; Py.lit "traditional"]
                 text_content
    then tags ++ [Py.lit "Traditional"] else tags in
  let tags :=
    if Py.any_in [Py.lit "food"; Py.lit "market"; Py.lit "culinary"]
                 text_content
    then tags ++ [Py.lit "Food"] else tags in
  let tags :=
    if Py.any_in [Py.lit "music"; Py.lit "concert"; Py.lit "performance"]
                 text_content
    then tags ++ [Py.lit "Music"] else tags in
  let tags :=
    if Py.any_in [Py.lit "sakura"; Py.lit "cherry"; Py.lit "flower"]
                 text_content
    then tags ++ [Py.lit "Seasonal"] else tags in
  tags.

(** The same rules as the specification words them: a list of pairs of
    a keyword list and the tag to add. *)
Definition keyword_rules : list (list Py.str * Py.str) :=
  [([Py.lit "festival"; Py.lit "matsuri"], Py.lit "Festival");
   ([Py.lit "museum"; Py.lit "exhibition"; Py.lit "art"], Py.lit "Exhibition");
   ([Py.lit "temple"; Py.lit "shrine"; Py.lit "traditional"],
    Py.lit "Traditional");
   ([Py.lit "food"; Py.lit "market"; Py.lit "culinary"], Py.lit "Food");
   ([Py.lit "music"; Py.lit "concert"; Py.lit "performance"], Py.lit "Music");
   ([Py.lit "sakura"; Py.lit "cherry"; Py.lit "flower"], Py.lit "Seasonal")].

(** A rule fires when one of its keywords is a substring of the text. *)
Definition fires (text : Py.str) (rule : list Py.str * Py.str) : bool :=
  Py.any_in (fst rule) text.

(** The explicit tags: the stripped texts that are non-empty and
    shorter than 50 characters. *)
Definition explicit_tags (texts : list Py.str) : list Py.str :=
  filter (fun t => negb (Py.falsy t) && (Py.len t <? 50))
         (map Py.strip texts).

(** The situational tags appended to a copy of [category_tags]. *)
Definition add_interest_tags (category_tags : list Py.str)
           (text : Py.str) : list Py.str :=
  let interest_tags := category_tags in
  let interest_tags :=
    if Py.contains (Py.lit "family") text
    then interest_tags ++ [Py.lit "Family Friendly"] else interest_tags in
  let interest_tags :=
    if Py.any_in [Py.lit "night"; Py.lit "evening"; Py.lit "illumination"]
                 text
    then interest_tags ++ [Py.lit "Nightlife"] else interest_tags in
  let interest_tags :=
    if Py.contains (Py.lit "free") text
    then interest_tags ++ [Py.lit "Free Entry"] else interest_tags in
  interest_tags.

Definition morning_words : list Py.str :=
  [Py.lit "morning"; Py.lit "am"; [0x671D]].
Definition afternoon_words : list Py.str :=
  [Py.lit "afternoon"; Py.lit "pm"; [0x5348; 0x5F8C]].
Definition evening_words : list Py.str :=
  [Py.lit "evening"; Py.lit "night"; [0x591C]; Py.lit "illumination"].

Definition best_time (time_text : Py.str) : option time_of_day :=
  if Py.any_in morning_words time_text then Some morning
  else if Py.any_in afternoon_words time_text then Some afternoon
  else if Py.any_in evening_words time_text then Some evening
  else None.


(** [X if X else ["Event"]] around [list(set(X))]. *)
Definition set_or_event (tags : list Py.str) : list Py.str :=
  match tags with
  | [] => [Py.lit "Event"]
  | _ :: _ => list_set tags
  end.

(** The name, description and date that [parse_event_card] reads from
    a card. *)
Definition card_name (c : card) : Py.str := Py.strip (name_text c).

Definition card_description (c : card) : Py.str :=
  match desc_text c with
  | Some d => Py.strip d
  | None => card_name c
  end.

Definition card_date (c : card) : Py.str :=
  match date_text c with
  | Some d => Py.strip d
  | None => []
  end.

(** [parse_event_card]. [None] is returned when the card has no anchor
    and when an exception is caught, which only [generate_poi_id] can
    raise here. *)
Definition parse_event_card (c : card) : option (POI.t F) :=
  match link c with
  | None => None
  | Some href =>
      let event_url := urljoin base_url href in
      let name := card_name c in
      let description := card_description c in
      let event_date := card_date c in
      let neighborhood :=
        match location_text c with
        | Some l => Py.strip l
        | None => Py.lit "Tokyo"
        end in
      let category_tags := explicit_tags (tag_texts c) in
      let text_content := lower (name ++ [32] ++ description) in
      let category_tags :=
        match category_tags with
        | [] => infer_category_tags text_content
        | _ :: _ => category_tags
        end in
      let interest_tags := add_interest_tags category_tags text_content in
      let coordinates := extract_coordinates (detail c) in
      let time_text :=
        lower (name ++ [32] ++ description ++ [32] ++ event_date) in
      match generate_poi_id event_url with
      | None => None
      | Some poi_id =>
          Some (POI.Make poi_id name (Py.lit "event_venue")
                  (set_or_event category_tags)
                  (clean_neighborhood neighborhood)
                  None (Py.lit "unknown") None
                  (set_or_event interest_tags)
                  coordinates
                  (estimate_duration name description)
                  (best_time time_text)
                  (create_short_description description event_date)
                  event_url)
      end
  end.

(** [scrape_events_page]: the cards found on the page at [url], each
    parsed; [fetch] gives the cards, or [None] when fetching raises. *)
Variable fetch : Py.str -> option (list card).

Fixpoint parse_cards (cards : list card) : list (POI.t F) :=
  match cards with
  | [] => []
  | c :: rest =>
      match parse_event_card c with
      | Some poi => poi :: parse_cards rest
      | None => parse_cards rest
      end
  end.

Definition scrape_events_page (url : Py.str) : list (POI.t F) :=
  match fetch url with
  | Some cards => parse_cards cards
  | None => []
  end.

Definition urls_to_scrape : list Py.str :=
  [events_url;
   Py.lit "https://www.gotokyo.org/en/";
   Py.lit "https://www.gotokyo.org/en/event/index.html";
   Py.lit "https://www.gotokyo.org/en/travel-directory/result/index/genre_detail/8";
   Py.lit "https://www.gotokyo.org/en/calendar/index.html"].

(** The condition under which the main loop keeps an event. *)
Definition keep_event (seen_urls : list Py.str) (event : POI.t F) : bool :=
  negb (str_mem (POI.source_url event) seen_urls)
  && (5 <? Py.len (POI.name event))
  && negb (str_mem (POI.name event)
                   [Py.lit "More details here"; Py.lit "Beyond Tokyo"])
  && negb (existsb (fun suffix => Py.endswith suffix (POI.source_url event))
             [Py.lit "/spot/index.html"; Py.lit "/event/index.html";
              Py.lit "/tourists/spot/suburbs/fromtokyo/index.html"]).

(** The loop state: [all_events] and [seen_urls]. *)
Definition add_event (st : list (POI.t F) * list Py.str) (event : POI.t F)
  : list (POI.t F) * list Py.str :=
  let (all_events, seen_urls) := st in
  if keep_event seen_urls event
  then (all_events ++ [event], POI.source_url event :: seen_urls)
  else st.

(** The part of the condition of the main loop that does not look at
    [seen_urls]: a name longer than 5 characters that is no placeholder,
    and a URL that is no landing page. *)
Definition acceptable (event : POI.t F) : bool :=
  (5 <? Py.len (POI.name event))
  && negb (str_mem (POI.name event)
                   [Py.lit "More details here"; Py.lit "Beyond Tokyo"])
  && negb (existsb (fun suffix => Py.endswith suffix (POI.source_url event))
             [Py.lit "/spot/index.html"; Py.lit "/event/index.html";
              Py.lit "/tourists/spot/suburbs/fromtokyo/index.html"]).

(** First seen wins, as a function of the stream of events: an event is
    kept unless an event with its source URL was kept before. *)
Fixpoint first_seen (seen_urls : list Py.str) (events : list (POI.t F))
  : list (POI.t F) :=
  match events with
  | [] => []
  | event :: rest =>
      if str_mem (POI.source_url event) seen_urls
      then first_seen seen_urls rest
      else event :: first_seen (POI.source_url event :: seen_urls) rest
  end.

(** The invariant of the main loop: the accepted events have distinct
    source URLs, all of them in [seen_urls]. *)
Definition distinct_and_seen (st : list (POI.t F) * list Py.str) : Prop :=
  NoDup (map (@POI.source_url F) (fst st))
  /\ forall e, In e (fst st) -> In (POI.source_url e) (snd st).

Definition scrape_listed (urls : list Py.str)
  : list (POI.t F) * list Py.str :=
  fold_left (fun st url => fold_left add_event (scrape_events_page url) st)
            urls ([], []).

(** The pagination URLs: of the first five links, those not yet seen. *)
Definition additional_urls (pagination_hrefs : list Py.str) : list Py.str :=
  fold_left (fun acc href =>
               if Py.falsy href then acc
               else let full_url := urljoin base_url href in
                    if str_mem full_url (events_url :: acc) then acc
                    else acc ++ [full_url])
            (firstn 5 pagination_hrefs) [].

(** [scrape_all_events]. [pagination] is the list of [href]s of the
    pagination anchors of the events page, [None] when fetching it
    raises. *)
Definition scrape_all_events (pagination : option (list Py.str))
  : list (POI.t F) :=
  let events := fst (scrape_listed urls_to_scrape) in
  match pagination with
  | None => events
  | Some hrefs =>
      events ++ flat_map scrape_events_page (additional_urls hrefs)
  end.

End Scraper.

(** The cell of the [cuisine] column: the joined list when the list is
    truthy, else the value as it was. *)
Inductive cuisine_cell :=
| CuisineJoined (s : Py.str)
| CuisineRaw (c : option (list Py.str)).

(** The row that [save_to_csv] hands to the CSV writer for an event: the
    coordinates in two columns, the tag lists joined with commas.
    [last_updated_ts] is left out, as in the dict. *)
Record csv_row (F : Type) := CsvRow {
  row_id : Py.str;
  row_name : Py.str;
  row_type : Py.str;
  row_category_tags : Py.str;
  row_neighborhood : Py.str;
  row_price_range : option Z;
  row_halal : Py.str;
  row_cuisine : cuisine_cell;
  row_interest_tags : Py.str;
  row_coordinates_lat : option F;
  row_coordinates_lon : option F;
  row_typical_duration_minutes : Z;
  row_best_time_of_day : option time_of_day;
  row_short_description : Py.str;
  row_source_url : Py.str
}.

Definition csv_row_of {F : Type} (event : POI.t F) : csv_row F :=
  let coords := POI.coordinates event in
  CsvRow (POI.id event) (POI.name event) (POI.type event)
         (Py.join [44] (POI.category_tags event))
         (POI.neighborhood event) (POI.price_range event) (POI.halal event)
         (match POI.cuisine event with
          | Some (c :: l) => CuisineJoined (Py.join [44] (c :: l))
          | other => CuisineRaw other
          end)
         (Py.join [44] (POI.interest_tags event))
         (POI.lat coords) (POI.lon coords)
         (POI.typical_duration_minutes event)
         (POI.best_time_of_day event)
         (POI.short_description event) (POI.source_url event).

(** [save_to_csv]: the rows written after the header, [None] when there
    is no event and no file is written. *)
Definition save_to_csv {F : Type} (events : list (POI.t F))
  : option (list (csv_row F)) :=
  match events with
  | [] => None
  | _ :: _ => Some (map csv_row_of events)
  end.

End GoTokyoEventScraper.

(* ===================================================================== *)
(** * src/data/scrapers/tabelog_food.py *)
(* ===================================================================== *)

Module TabelogScraper.

Definition base_url : Py.str := Py.lit "https://tabelog.com".

Definition generate_poi_id (url : Py.str) : option Py.str := md5_hex12 url.

(** [text.split()]: the maximal runs of non-space characters; [cur] is
    the run being read, reversed. *)
Fixpoint split_ws (s cur : Py.str) : list Py.str :=
  match s with
  | [] => match cur with [] => [] | _ :: _ => [rev cur] end
  | c :: s' =>
      if Py.isspace c
      then match cur with
           | [] => split_ws s' []
           | _ :: _ => rev cur :: split_ws s' []
           end
      else split_ws s' (c :: cur)
  end.

(** [clean_text]: [" ".join(text.strip().split())]. *)
Definition clean_text (text : option Py.str) : Py.str :=
  match text with
  | None => []
  | Some t => if Py.falsy t then []
              else Py.join [32] (split_ws (Py.strip t) [])
  end.

(** A character of the class [[¥￥,0-9]]. *)
Definition price_char (c : Z) : bool :=
  (c =? 165) || (c =? 65509) || (c =? 44) || ((48 <=? c) && (c <=? 57)).

(** [re.findall(r'[¥￥,0-9]+', s)]: the maximal runs of price characters,
    from left to right; [cur] is the run being read, reversed. *)
Fixpoint findall_price (s cur : Py.str) : list Py.str :=
  match s with
  | [] => match cur with [] => [] | _ :: _ => [rev cur] end
  | c :: s' =>
      if price_char c then findall_price s' (c :: cur)
      else match cur with
           | [] => findall_price s' []
           | _ :: _ => rev cur :: findall_price s' []
           end
  end.

(** [s.replace(c, '')] for a one-character [c]. *)
Definition remove_char (c : Z) (s : Py.str) : Py.str :=
  filter (fun x => negb (x =? c)) s.

Fixpoint digits_value (acc : Z) (s : Py.str) : option Z :=
  match s with
  | [] => Some acc
  | c :: s' =>
      if (48 <=? c) && (c <=? 57)
      then digits_value (10 * acc + (c - 48)) s'
      else None
  end.

(** [int(s)] for the strings [parse_price] passes to it, which hold ASCII
    digits only; [None] is the ValueError raised for the empty string.
    The bound some interpreters put on the number of digits [int]
    accepts (4300 by default) is not modelled. *)
Definition py_int (s : Py.str) : option Z :=
  match s with
  | [] => None
  | _ :: _ => digits_value 0 s
  end.

(** The [for p in prices] loop of [parse_price]; [None]: [int] raised. *)
Fixpoint max_price (prices : list Py.str) (max_val : Z) : option Z :=
  match prices with
  | [] => Some max_val
  | p :: rest =>
      match py_int (remove_char 44 (remove_char 65509 (remove_char 165 p)))
      with
      | None => None
      | Some val => max_price rest (if max_val <? val then val else max_val)
      end
  end.

Definition parse_price (price_str : Py.str) : option Z :=
  if Py.falsy price_str then None
  else
    match findall_price price_str [] with
    | [] => None
    | prices =>
        match max_price prices 0 with
        | None => None                          (* except: return None *)
        | Some max_val =>
            if max_val =? 0 then None
            else if max_val <? 1000 then Some 1
            else if max_val <? 4000 then Some 2
            else if max_val <? 10000 then Some 3
            else Some 4
        end
    end.

(** What the HTML parser finds on a restaurant detail page. [rows] holds
    the header and data texts of the rows of the information table that
    have both; [map_href] is the [href] of the map anchor, if any;
    [pr_comment] holds the texts of the title and body of the PR comment
    block, if any. *)
Record detail_page := DetailPage {
  rows : list (Py.str * Py.str);
  scripts : list (option Py.str);
  map_href : option Py.str;
  pr_comment : option (option Py.str * option Py.str)
}.

(** What the HTML parser finds in a restaurant list item. [name_tag] is
    the text and [href] of the name anchor; [detail] is what fetching the
    detail page gives, [None] when that fails. *)
Record card := Card {
  name_tag : option (Py.str * Py.str);
  rating_text : option Py.str;
  price_text : option Py.str;
  area_text : option Py.str;
  catch_text : option Py.str;
  detail : option detail_page
}.

(** [s.split('/')[0]]. *)
Fixpoint before_slash (s : Py.str) : Py.str :=
  match s with
  | [] => []
  | c :: s' => if c =? 47 then [] else c :: before_slash s'
  end.

Section Scraper.
Context {F : Type} {FL : PyFloat F}.
Variable lower : Py.str -> Py.str.
Variable urljoin : Py.str -> Py.str -> Py.str.
Variable search1 : pattern1 -> Py.str -> option Py.str.
Variable search2 : pattern2 -> Py.str -> option (Py.str * Py.str).

Definition parse_rating (rating_str : Py.str) : F :=
  match float_of_str rating_str with
  | Some f => f
  | None =>
      match search1 re_decimal rating_str with
      | Some m =>
          match float_of_str m with
          | Some f => f
          | None => float_zero
          end
      | None => float_zero
      end
  end.

(** Strategy 1 of [get_lat_lon]: the first script with both keys. *)
Fixpoint scan_scripts (l : list (option Py.str))
  : option (outcome (POI.coords F)) :=
  match l with
  | [] => None
  | None :: rest => scan_scripts rest
  | Some s :: rest =>
      if Py.falsy s then scan_scripts rest
      else
        match search1 re_latitude s, search1 re_longitude s with
        | Some la, Some lo =>
            match float_of_str la, float_of_str lo with
            | Some a, Some b => Some (Ret (POI.Coords (Some a) (Some b)))
            | _, _ => Some Raise
            end
        | _, _ => scan_scripts rest
        end
  end.

(** [get_lat_lon]; it has no [try] of its own. *)
Definition get_lat_lon (page : detail_page) : outcome (POI.coords F) :=
  match scan_scripts (scripts page) with
  | Some r => r
  | None =>
      match map_href page with
      | Some href =>
          match search2 re_map_q href with
          | Some m =>
              match float_of_str (fst m), float_of_str (snd m) with
              | Some a, Some b => Ret (POI.Coords (Some a) (Some b))
              | _, _ => Raise
              end
          | None => Ret POI.null_coords
          end
      | None => Ret POI.null_coords
      end
  end.

Definition parse_restaurant_card (item : card) (category : Py.str)
  : option (POI.t F) :=
  match name_tag item with
  | None => None
  | Some (text, href) =>
      let name := clean_text (Some text) in
      let detail_url :=
        if Py.startswith (Py.lit "http") href then href
        else urljoin base_url href in
      let rating :=
        match rating_text item with
        | Some t => parse_rating t
        | None => float_zero
        end in
      let price_range :=
        match price_text item with
        | Some t => parse_price t
        | None => None
        end in
      let neighborhood :=
        match area_text item with
        | Some t => clean_text (Some (before_slash t))
        | None => Py.lit "Tokyo"
        end in
      let short_desc :=
        match catch_text item with
        | Some t => clean_text (Some t)
        | None => category ++ Py.lit " restaurant in " ++ neighborhood
        end in
      let tags := [category] in
      let tags :=
        if float_ge_3_5 rating then tags ++ [Py.lit "Popular"] else tags in
      let tags :=
        if float_ge_3_7 rating then tags ++ [Py.lit "Highly Rated"]
        else tags in
      match generate_poi_id detail_url with
      | None => None
      | Some poi_id =>
          Some (POI.Make poi_id name (Py.lit "restaurant")
                  [category] neighborhood price_range
                  (Py.lit "unknown") (Some [category]) tags
                  POI.null_coords 60
                  (match price_range with
                   | Some p => if 2 <? p then Some night else Some afternoon
                   | None => Some afternoon
                   end)
                  short_desc detail_url)
      end
  end.

(** The [details] dict of [parse_detail_page]. *)
Record details := Details {
  d_price_text : option Py.str;
  d_awards : option Py.str;
  d_categories : option Py.str;
  d_remarks : option Py.str;
  d_private_rooms : option Py.str;
  d_address : option Py.str;
  d_coordinates : option (POI.coords F);
  d_generated_description : Py.str
}.

Definition empty_details : details :=
  Details None None None None None None None [].

(** One row of the information table. *)
Definition read_row (d : details) (row : Py.str * Py.str) : details :=
  let h_text := lower (clean_text (Some (fst row))) in
  let d_text := Some (clean_text (Some (snd row))) in
  if Py.contains (Py.lit "average price") h_text then
    Details d_text (d_awards d) (d_categories d) (d_remarks d)
            (d_private_rooms d) (d_address d) (d_coordinates d)
            (d_generated_description d)
  else if Py.contains (Py.lit "awards") h_text then
    Details (d_price_text d) d_text (d_categories d) (d_remarks d)
            (d_private_rooms d) (d_address d) (d_coordinates d)
            (d_generated_description d)
  else if Py.contains (Py.lit "categories") h_text then
    Details (d_price_text d) (d_awards d) d_text (d_remarks d)
            (d_private_rooms d) (d_address d) (d_coordinates d)
            (d_generated_description d)
  else if Py.contains (Py.lit "remarks") h_text then
    Details (d_price_text d) (d_awards d) (d_categories d) d_text
            (d_private_rooms d) (d_address d) (d_coordinates d)
            (d_generated_description d)
  else if Py.contains (Py.lit "private rooms") h_text then
    Details (d_price_text d) (d_awards d) (d_categories d) (d_remarks d)
            d_text (d_address d) (d_coordinates d)
            (d_generated_description d)
  else if Py.contains (Py.lit "address") h_text then
    Details (d_price_text d) (d_awards d) (d_categories d) (d_remarks d)
            (d_private_rooms d) d_text (d_coordinates d)
            (d_generated_description d)
  else d.

(** [details.get(key)] is truthy: present and non-empty. *)
Definition truthy_text (o : option Py.str) : option Py.str :=
  match o with
  | Some (c :: s) => Some (c :: s)
  | _ => None
  end.

(** Priority 1 of the description: the PR comment. *)
Definition pr_description (pr : option (option Py.str * option Py.str))
  : Py.str :=
  match pr with
  | None => []
  | Some (pr_title, pr_body) =>
      let title_text := clean_text pr_title in
      let body_text := clean_text pr_body in
      if negb (Py.falsy title_text) && negb (Py.falsy body_text)
      then title_text ++ [32] ++ body_text
      else if negb (Py.falsy title_text) then title_text
      else body_text
  end.

Definition awards_part (awards_text : Py.str) : Py.str :=
  let awards_text :=
    if 150 <? Py.len awards_text
    then Py.slice_to 147 awards_text ++ Py.lit "..."
    else awards_text in
  Py.lit "Awards: " ++ awards_text.

Definition remarks_part (remarks : Py.str) : Py.str :=
  let remarks :=
    if 100 <? Py.len remarks
    then Py.slice_to 100 remarks ++ Py.lit "..."
    else remarks in
  Py.lit "Remarks: " ++ remarks.

(** Priority 2 of the description: the constructed string. *)
Definition constructed_description (d : details) : Py.str :=
  let desc_parts := [] in
  let desc_parts :=
    match truthy_text (d_awards d) with
    | Some a => desc_parts ++ [awards_part a]
    | None => desc_parts
    end in
  let desc_parts :=
    match truthy_text (d_remarks d) with
    | Some r => desc_parts ++ [remarks_part r]
    | None => desc_parts
    end in
  let desc_parts :=
    match truthy_text (d_private_rooms d) with
    | Some p =>
        if Py.contains (Py.lit "available") (lower p)
        then desc_parts ++ [Py.lit "Private rooms available."]
        else desc_parts
    | None => desc_parts
    end in
  let desc_parts :=
    match truthy_text (d_categories d) with
    | Some c =>
        desc_parts ++ [Py.lit "Specializes in " ++ c ++ Py.lit "."]
    | None => desc_parts
    end in
  Py.join (Py.lit ". ") desc_parts.

(** [parse_detail_page]; [None] is the empty dict it returns when the
    fetch fails or an exception is caught. *)
Definition parse_detail_page (page : option detail_page) : option details :=
  match page with
  | None => None
  | Some p =>
      let d := fold_left read_row (rows p) empty_details in
      match get_lat_lon p with
      | Raise => None
      | Ret coords =>
          let d_coords :=
            match POI.lat coords with
            | Some la => if float_truthy la then Some coords else None
            | None => None
            end in
          let short_desc := pr_description (pr_comment p) in
          let short_desc :=
            if Py.falsy short_desc then constructed_description d
            else short_desc in
          Some (Details (d_price_text d) (d_awards d) (d_categories d)
                  (d_remarks d) (d_private_rooms d) (d_address d)
                  d_coords short_desc)
      end
  end.

(** The update of a POI with the details of its page, in
    [scrape_category]. *)
Definition update_poi (poi : POI.t F) (det : option details) : POI.t F :=
  match det with
  | None => poi
  | Some d =>
      let price_range :=
        match truthy_text (d_price_text d) with
        | Some t =>
            match parse_price t with
            | Some new_price => Some new_price
            | None => POI.price_range poi
            end
        | None => POI.price_range poi
        end in
      let short_description :=
        if negb (Py.falsy (d_generated_description d))
        then d_generated_description d
        else match truthy_text (d_remarks d) with
             | Some r => r
             | None => POI.short_description poi
             end in
      let coordinates :=
        match d_coordinates d with
        | Some c => c
        | None => POI.coordinates poi
        end in
      POI.Make (POI.id poi) (POI.name poi) (POI.type poi)
               (POI.category_tags poi) (POI.neighborhood poi)
               price_range (POI.halal poi) (POI.cuisine poi)
               (POI.interest_tags poi) coordinates
               (POI.typical_duration_minutes poi)
               (POI.best_time_of_day poi)
               short_description (POI.source_url poi)
  end.

(** The [for item in list_items] loop of [scrape_category]. *)
Fixpoint scrape_items (category_name : Py.str) (limit : Z)
         (list_items : list card) (items : list (POI.t F))
  : list (POI.t F) :=
  match list_items with
  | [] => items
  | item :: rest =>
      match parse_restaurant_card item category_name with
      | None => scrape_items category_name limit rest items
      | Some poi =>
          if existsb (fun x => Py.str_eqb (POI.id x) (POI.id poi)) items
          then scrape_items category_name limit rest items
          else
            let poi := update_poi poi (parse_detail_page (detail item)) in
            let items := items ++ [poi] in
            if limit <=? Z.of_nat (length items) then items
            else scrape_items category_name limit rest items
      end
  end.

(** What fetching a list page gives: its list items, and whether its
    pagination has an enabled next arrow. *)
Record listing := Listing {
  list_items : list card;
  has_next : bool
}.

(** The [while] loop of [scrape_category]. [pages] holds what the fetches
    of the successive list pages give, [None] for a fetch that fails or
    whose status is not 200; a list that runs out stands for a fetch that
    fails. *)
Fixpoint scrape_pages (category_name : Py.str) (limit : Z)
         (pages : list (option listing)) (items : list (POI.t F))
  : list (POI.t F) :=
  if limit <=? Z.of_nat (length items) then items
  else
    match pages with
    | [] => items
    | None :: _ => items
    | Some page :: rest =>
        match list_items page with
        | [] => items
        | _ :: _ =>
            let items :=
              scrape_items category_name limit (list_items page) items in
            if has_next page then scrape_pages category_name limit rest items
            else items
        end
    end.

Definition scrape_category (category_name : Py.str)
           (pages : list (option listing)) (limit : Z) : list (POI.t F) :=
  scrape_pages category_name limit pages [].

(** [run]: the categories in the order the shuffle gave them, each with
    the pages its fetches give. *)
Definition run (cat_items : list (Py.str * list (option listing)))
           (max_per_category : Z) : list (POI.t F) :=
  flat_map (fun cat => scrape_category (fst cat) (snd cat) max_per_category)
           cat_items.

End Scraper.

End TabelogScraper.

(** What every restaurant record satisfies, from the card to the batch. *)
Definition restaurant_shape {F : Type} (category : Py.str) (poi : POI.t F)
  : Prop :=
  POI.type poi = Py.lit "restaurant"
  /\ POI.category_tags poi = [category]
  /\ POI.cuisine poi = Some [category]
  /\ POI.halal poi = Py.lit "unknown"
  /\ POI.typical_duration_minutes poi = 60
  /\ TabelogScraper.generate_poi_id (POI.source_url poi) = Some (POI.id poi)
  /\ (forall p, POI.price_range poi = Some p -> 1 <= p <= 4)
  /\ In (POI.interest_tags poi)
        [[category]; [category; Py.lit "Popular"];
         [category; Py.lit "Popular"; Py.lit "Highly Rated"]]
  /\ In (POI.best_time_of_day poi) [Some afternoon; Some night].

(* ===================================================================== *)
(** * src/data/scrapy_scrapers/travel_scrapers/items.py *)
(* ===================================================================== *)

(** The value of a tag field of an item: a string, a list of strings, or
    anything else. *)
Inductive tags_value :=
| TagStr (s : Py.str)
| TagList (l : list Py.str)
| TagOther.

Module POIItem.

(** The item. A field is [None] when it is not set; the loader never
    sets a field to [None], and the pipelines read every field with
    [adapter.get]. [last_updated_ts], the wall clock, is left out. *)
Record t (F : Type) := Make {
  id : option Py.str;
  name : option Py.str;
  type : option Py.str;
  category_tags : option tags_value;
  neighborhood : option Py.str;
  interest_tags : option tags_value;
  price_range : option Z;
  halal : option Py.str;
  cuisine : option (list Py.str);
  coordinates : option (POI.coords F);
  typical_duration_minutes : option Z;
  best_time_of_day : option time_of_day;
  short_description : option Py.str;
  source_url : option Py.str
}.

End POIItem.

(** [TakeFirst], [MapCompose] and [load_item] belong to the itemloaders
    library; they are modelled after its documentation, for the one use the
    spider makes of a loader: one [add_value] per field. *)
Module POIItemLoader.

(** [TakeFirst()], the default output processor: the first value that is
    neither [None] nor the empty string. *)
Fixpoint TakeFirst (values : list Py.str) : option Py.str :=
  match values with
  | [] => None
  | v :: rest => if Py.falsy v then TakeFirst rest else Some v
  end.

(** [MapCompose(f)], an input processor. *)
Definition MapCompose (f : Py.str -> Py.str) (values : list Py.str)
  : list Py.str := map f values.

(** The value [load_item] gives a field for which [add_value] was called
    once, with [values], and whose input processor is [input]. *)
Definition load (input : list Py.str -> list Py.str) (values : list Py.str)
  : option Py.str := TakeFirst (input values).

Definition identity (values : list Py.str) : list Py.str := values.
Definition name_in := MapCompose Py.strip.
Definition neighborhood_in := MapCompose Py.strip.
Definition short_description_in := MapCompose Py.strip.
Definition type_in (lower : Py.str -> Py.str) :=
  MapCompose (fun s => lower (Py.strip s)).

End POIItemLoader.

(* ===================================================================== *)
(** * src/data/scrapy_scrapers/travel_scrapers/spiders/gotokyo_events.py *)
(* ===================================================================== *)

Module GoTokyoEventsSpider.

(** What the selectors find on a detail page: the [href]s of the map
    anchors, the texts of the scripts, and, for each of the four
    description selectors in order, the texts it selects. *)
Record detail_response := DetailResponse {
  map_links : list Py.str;
  scripts : list Py.str;
  detailed_desc : list (list Py.str)
}.

(** What the selectors find in an event card: [a::attr(href)], and for
    each list of selectors, in order, the texts each selector gives.
    [detail] is the response to the request for the detail page, [None]
    when the request fails. *)
Record card := Card {
  link : option Py.str;
  name_candidates : list (list Py.str);
  desc_parts : list (list Py.str);
  date_parts : list (list Py.str);
  location_parts : list (list Py.str);
  tag_parts : list (list Py.str);
  detail : option detail_response
}.

(** [' '.join(parts).strip()] for the first selector that gives texts. *)
Definition first_texts (candidates : list (list Py.str)) : option Py.str :=
  match find (fun l => match l with [] => false | _ :: _ => true end)
             candidates with
  | Some l => Some (Py.strip (Py.join [32] l))
  | None => None
  end.

(** [re.sub(r'\s+', ' ', s)]; [in_space]: the previous character was
    a space character. *)
Fixpoint collapse_spaces (s : Py.str) (in_space : bool) : Py.str :=
  match s with
  | [] => []
  | c :: s' =>
      if Py.isspace c
      then if in_space then collapse_spaces s' true
           else 32 :: collapse_spaces s' true
      else c :: collapse_spaces s' false
  end.

Definition clean_description (description : Py.str) : Py.str :=
  if Py.falsy description then []
  else
    let desc := collapse_spaces (Py.strip description) false in
    if 300 <? Py.len desc then
      let short := Py.slice_to 300 desc in
      let last_period := Py.rfind 46 short in
      if 150 <? last_period then Py.slice_to (last_period + 1) short
      else short ++ Py.lit "..."
    else desc.

Section Spider.
Context {F : Type} {FL : PyFloat F}.
Variable lower : Py.str -> Py.str.
Variable urljoin : Py.str -> Py.str -> Py.str.
Variable search2 : pattern2 -> Py.str -> option (Py.str * Py.str).

Definition coords_of_match (m : Py.str * Py.str) : outcome (POI.coords F) :=
  match float_of_str (fst m), float_of_str (snd m) with
  | Some a, Some b => Ret (POI.Coords (Some a) (Some b))
  | _, _ => Raise
  end.

Fixpoint scan (p : pattern2) (texts : list Py.str)
  : option (outcome (POI.coords F)) :=
  match texts with
  | [] => None
  | s :: rest =>
      match search2 p s with
      | Some m => Some (coords_of_match m)
      | None => scan p rest
      end
  end.

(** [extract_coordinates]: a dict with both keys, or [None]. *)
Definition extract_coordinates (response : detail_response)
  : option (POI.coords F) :=
  match scan re_map_at (map_links response) with
  | Some (Ret c) => Some c
  | Some Raise => None
  | None =>
      match scan re_script_lat
                 (filter (fun s => negb (Py.falsy s)) (scripts response))
      with
      | Some (Ret c) => Some c
      | _ => None
      end
  end.

Definition category_tags_of (name description : Py.str)
           (tag_texts : list Py.str) : list Py.str :=
  let category_tags := GoTokyoEventScraper.explicit_tags tag_texts in
  let category_tags :=
    match category_tags with
    | [] => GoTokyoEventScraper.infer_category_tags
              (lower (name ++ [32] ++ description))
    | _ :: _ => category_tags
    end in
  match category_tags with
  | [] => [Py.lit "Event"]
  | _ :: _ => category_tags
  end.

(** The description and date that [parse_event_card] reads from a
    card whose name is [name]. *)
Definition card_description (element : card) (name : Py.str) : Py.str :=
  match first_texts (desc_parts element) with
  | Some d => if Py.falsy d then name else d
  | None => name
  end.

Definition card_date (element : card) : Py.str :=
  match first_texts (date_parts element) with
  | Some d => d
  | None => []
  end.

(** [parse_event_card]: the item the loader gives, or [None]. *)
Definition parse_event_card (element : card) (response_url : Py.str)
  : option (POIItem.t F) :=
  match link element with
  | None => None
  | Some link_elem =>
      if Py.falsy link_elem then None
      else
        let event_url := urljoin response_url link_elem in
        match md5_hex12 event_url with
        | None => None
        | Some poi_id =>
            match first_texts (name_candidates element) with
            | None => None
            | Some name =>
                if Py.falsy name || (Py.len name <? 3) then None
                else
                  let description := card_description element name in
                  let event_date := card_date element in
                  let neighborhood :=
                    match first_texts (location_parts element) with
                    | Some l => l
                    | None => Py.lit "Tokyo"
                    end in
                  let category_tags :=
                    category_tags_of name description
                      (concat (tag_parts element)) in
                  let text_content :=
                    lower (name ++ [32] ++ description) in
                  let interest_tags :=
                    GoTokyoEventScraper.add_interest_tags
                      category_tags text_content in
                  let time_text :=
                    lower (name ++ [32] ++ description ++ [32]
                                ++ event_date) in
                  Some (POIItem.Make
                          (POIItemLoader.load POIItemLoader.identity [poi_id])
                          (POIItemLoader.load POIItemLoader.name_in [name])
                          (POIItemLoader.load
                             (POIItemLoader.type_in lower)
                             [Py.lit "event_venue"])
                          (option_map TagStr
                             (POIItemLoader.load POIItemLoader.identity
                                category_tags))
                          (POIItemLoader.load
                             POIItemLoader.neighborhood_in [neighborhood])
                          (option_map TagStr
                             (POIItemLoader.load POIItemLoader.identity
                                interest_tags))
                          None
                          (POIItemLoader.load POIItemLoader.identity
                             [Py.lit "unknown"])
                          None None None
                          (GoTokyoEventScraper.best_time time_text)
                          (POIItemLoader.load
                             POIItemLoader.short_description_in
                             [description])
                          (POIItemLoader.load POIItemLoader.identity
                             [event_url]))
            end
        end
  end.

(** The first selector of the detail page that gives more than one
    text, joined. *)
Definition detailed_description (response : detail_response)
  : option Py.str :=
  match find (fun l => (1 <? Z.of_nat (length l))%Z)
             (detailed_desc response) with
  | Some l => Some (Py.strip (Py.join [32] l))
  | None => None
  end.

Definition parse_event_detail (poi_item : POIItem.t F)
           (response : detail_response) : POIItem.t F :=
  let coordinates :=
    match extract_coordinates response with
    | Some c => Some c
    | None => POIItem.coordinates poi_item
    end in
  let old_desc :=
    match POIItem.short_description poi_item with
    | Some d => d
    | None => []
    end in
  let short_description :=
    match detailed_description response with
    | Some d =>
        if Py.len old_desc <? Py.len d then Some (clean_description d)
        else POIItem.short_description poi_item
    | None => POIItem.short_description poi_item
    end in
  POIItem.Make (POIItem.id poi_item) (POIItem.name poi_item)
               (POIItem.type poi_item) (POIItem.category_tags poi_item)
               (POIItem.neighborhood poi_item)
               (POIItem.interest_tags poi_item)
               (POIItem.price_range poi_item) (POIItem.halal poi_item)
               (POIItem.cuisine poi_item) coordinates
               (POIItem.typical_duration_minutes poi_item)
               (POIItem.best_time_of_day poi_item)
               short_description (POIItem.source_url poi_item).

(** What [parse] yields for one card of the page at [response_url]: the
    item itself when its URL is that of the page, else the item that
    [parse_event_detail] yields once the detail page has arrived. *)
Definition parse_card (element : card) (response_url : Py.str)
  : option (POIItem.t F) :=
  match parse_event_card element response_url with
  | None => None
  | Some poi_item =>
      match POIItem.source_url poi_item with
      | Some detail_url =>
          if Py.str_eqb detail_url response_url then Some poi_item
          else match detail element with
               | Some response => Some (parse_event_detail poi_item response)
               | None => None
               end
      | None => Some poi_item
      end
  end.

End Spider.

(** The links [parse] collects to follow: the first three of each
    pagination selector and, on a page of depth 0, the first five of each
    category selector. *)
Definition follow_links (pagination_links category_links : list (list Py.str))
           (depth : Z) : list Py.str :=
  flat_map (firstn 3) pagination_links
  ++ (if depth <? 1 then flat_map (firstn 5) category_links else []).

(** The last loop of [parse]: the links for which a request is yielded;
    [followed] counts them. *)
Fixpoint follow (response_url : Py.str) (links : list Py.str) (followed : Z)
  : list Py.str :=
  match links with
  | [] => []
  | link_href :: rest =>
      if negb (Py.falsy link_href)
         && negb (Py.str_eqb link_href response_url)
         && Py.contains (Py.lit "/en/") link_href
         && (followed <? 15)
      then link_href :: follow response_url rest (followed + 1)
      else follow response_url rest followed
  end.

End GoTokyoEventsSpider.

(* ===================================================================== *)
(** * src/data/scrapy_scrapers/travel_scrapers/pipelines.py *)
(* ===================================================================== *)

(** [s.split(sep)] for a one-character [sep]; [cur]: the part being read,
    reversed. *)
Fixpoint split_on (sep : Z) (s cur : Py.str) : list Py.str :=
  match s with
  | [] => [rev cur]
  | c :: s' =>
      if c =? sep then rev cur :: split_on sep s' []
      else split_on sep s' (c :: cur)
  end.

(** [adapter.get(field)] is truthy, for a string field. *)
Definition truthy_str (o : option Py.str) : bool :=
  match o with
  | Some (_ :: _) => true
  | _ => false
  end.

Module ValidationPipeline.

(** [process_item]; [None] is the [None] it returns for a rejected item. *)
Definition process_item {F : Type} (item : POIItem.t F)
  : option (POIItem.t F) :=
  if negb (truthy_str (POIItem.id item)) then None
  else if negb (truthy_str (POIItem.name item)) then None
  else if negb (truthy_str (POIItem.type item)) then None
  else
    let name :=
      Py.strip (match POIItem.name item with Some n => n | None => [] end) in
    if Py.len name <? 3 then None
    else Some item.

End ValidationPipeline.

Module POINormalizationPipeline.

Definition valid_types : list Py.str :=
  [Py.lit "attraction"; Py.lit "restaurant"; Py.lit "shop";
   Py.lit "event_venue"].

(** [[tag.strip() for tag in tags.split(',') if tag.strip()]]. *)
Definition split_tags (tags : Py.str) : list Py.str :=
  filter (fun t => negb (Py.falsy t)) (map Py.strip (split_on 44 tags [])).

Definition clean_tags (tags : option tags_value) : option tags_value :=
  match tags with
  | None => None
  | Some (TagStr s) => Some (TagList (split_tags s))
  | Some (TagList l) => Some (TagList l)
  | Some TagOther => Some (TagList [])
  end.

Section Pipeline.
Context {F : Type}.
Variable lower : Py.str -> Py.str.

(** The id of an item that has none. *)
Definition generate_id (source_url name : option Py.str)
  : option Py.str :=
  let source_url := match source_url with Some u => u | None => [] end in
  let name := match name with Some n => n | None => Py.lit "unnamed" end in
  md5_hex12 (Py.or_else source_url name).

Definition duration_of (category_tags : option tags_value) : Z :=
  let tags :=
    match category_tags with
    | Some (TagList l) => l
    | _ => []
    end in
  if existsb (fun tag => Py.contains (Py.lit "festival") (lower tag)) tags
  then 180 else 90.

(** [process_item]. [ItemAdapter(None)] raises, so does [encode] on a
    lone surrogate. *)
Definition process_item (item : option (POIItem.t F))
  : outcome (POIItem.t F) :=
  match item with
  | None => Raise
  | Some it =>
      let new_id :=
        if truthy_str (POIItem.id it) then Ret (POIItem.id it)
        else match generate_id (POIItem.source_url it) (POIItem.name it)
             with
             | Some i => Ret (Some i)
             | None => Raise
             end in
      match new_id with
      | Raise => Raise
      | Ret id =>
          let poi_type :=
            Py.strip
              (lower (match POIItem.type it with
                      | Some t => t
                      | None => []
                      end)) in
          let type :=
            if str_mem poi_type valid_types then POIItem.type it
            else Some (Py.lit "event_venue") in
          let category_tags := clean_tags (POIItem.category_tags it) in
          let interest_tags := clean_tags (POIItem.interest_tags it) in
          let cuisine :=
            match POIItem.cuisine it with
            | Some (c :: l) => Some (c :: l)
            | _ => None
            end in
          let neighborhood :=
            if truthy_str (POIItem.neighborhood it)
            then POIItem.neighborhood it else Some (Py.lit "Tokyo") in
          let halal :=
            if truthy_str (POIItem.halal it)
            then POIItem.halal it else Some (Py.lit "unknown") in
          let price_range :=
            match POIItem.price_range it with
            | Some p => if p =? 0 then None else Some p
            | None => None
            end in
          let coordinates :=
            match POIItem.coordinates it with
            | Some c => Some c
            | None => Some POI.null_coords
            end in
          let duration :=
            match POIItem.typical_duration_minutes it with
            | Some d => if d =? 0 then duration_of category_tags else d
            | None => duration_of category_tags
            end in
          Ret (POIItem.Make id (POIItem.name it) type category_tags
                 neighborhood interest_tags price_range halal cuisine
                 coordinates (Some duration)
                 (POIItem.best_time_of_day it)
                 (POIItem.short_description it)
                 (POIItem.source_url it))
      end
  end.

End Pipeline.

End POINormalizationPipeline.

Module FieldOrderPipeline.

(** [process_item] reorders the keys of the item and keeps their values:
    on the record it is the identity. It reads its argument through
    [ItemAdapter] too. *)
Definition process_item {F : Type} (item : POIItem.t F) : POIItem.t F := item.

End FieldOrderPipeline.

Module JSONExportPipeline.

(** [process_item] appends the item to [self.items], the list that
    [close_spider] writes out. *)
Definition process_item {F : Type} (items : list (POIItem.t F))
           (item : POIItem.t F) : list (POIItem.t F) := items ++ [item].

End JSONExportPipeline.

(** [FieldOrderPipeline.process_item] on the item as the dict it is: a
    list of keys and values in insertion order, each key once. *)
Module FieldOrderDict.

Definition field_order : list string :=
  ["id"; "name"; "type"; "category_tags"; "neighborhood";
   "price_range"; "halal"; "cuisine"; "interest_tags";
   "coordinates"; "typical_duration_minutes"; "best_time_of_day";
   "short_description"; "source_url"; "last_updated_ts"]%string.

Section Dict.
Variable V : Type.

(** [adapter[field]], [None] when the field is not set. *)
Fixpoint get (field : string) (d : list (string * V)) : option V :=
  match d with
  | [] => None
  | (k, v) :: rest => if String.eqb k field then Some v else get field rest
  end.

(** [field in d]. *)
Definition has (field : string) (d : list (string * V)) : bool :=
  existsb (fun kv => String.eqb (fst kv) field) d.

(** The first loop: the fields of [field_order] that are set. *)
Definition ordered_item (d : list (string * V)) : list (string * V) :=
  flat_map (fun field =>
              match get field d with
              | Some v => [(field, v)]
              | None => []
              end)
           field_order.

(** Both loops; [adapter.clear()] and [adapter.update(ordered_item)] leave
    the item with the keys of [ordered_item], in its order. *)
Definition process_item (d : list (string * V)) : list (string * V) :=
  let ordered := ordered_item d in
  ordered ++ filter (fun kv => negb (has (fst kv) ordered)) d.

End Dict.

End FieldOrderDict.

(** src/data/scrapy_scrapers/travel_scrapers/settings.py: [ITEM_PIPELINES]
    orders the pipelines by their number: validation (200), normalisation
    (300), field order (350), export (400). The chaining is Scrapy's: each
    [process_item] receives what the one before it returned; when one
    raises, the framework logs the error and the item goes no further. *)
Section ItemPipelines.
Context {F : Type}.
Variable lower : Py.str -> Py.str.

(** The item as it reaches the exporter, if it does. *)
Definition through_pipelines (item : POIItem.t F) : option (POIItem.t F) :=
  match POINormalizationPipeline.process_item lower
          (ValidationPipeline.process_item item) with
  | Ret it => Some (FieldOrderPipeline.process_item it)
  | Raise => None
  end.

(** One scraped item through all the pipelines; [items] is the list of
    the exporter. *)
Definition process_scraped (items : list (POIItem.t F))
           (item : POIItem.t F) : list (POIItem.t F) :=
  match through_pipelines item with
  | Some it => JSONExportPipeline.process_item items it
  | None => items
  end.

(** The exported list after a run in which the spider yields [scraped]. *)
Definition exported (scraped : list (POIItem.t F)) : list (POIItem.t F) :=
  fold_left process_scraped scraped [].

End ItemPipelines.


(* ===================================================================== *)
(** * Concrete inputs for the examples *)
(* ===================================================================== *)

Module Sample.

(** A stand-in for [float] in the examples: a decimal numeral read as a
    number of millionths. *)
Fixpoint fraction (digits : Py.str) (scale acc : Z) : option Z :=
  match digits with
  | [] => Some acc
  | c :: rest =>
      if (48 <=? c) && (c <=? 57)
      then fraction rest (scale / 10) (acc + (c - 48) * (scale / 10))
      else None
  end.

Fixpoint decimal (s : Py.str) (acc : Z) : option Z :=
  match s with
  | [] => Some (acc * 1000000)
  | c :: rest =>
      if c =? 46 then
        match rest with
        | [] => None
        | _ :: _ => fraction rest 1000000 (acc * 1000000)
        end
      else if (48 <=? c) && (c <=? 57) then decimal rest (10 * acc + (c - 48))
      else None
  end.

Definition micro_of_str (s : Py.str) : option Z :=
  match s with
  | [] => None
  | 45 :: (_ :: _) as rest => option_map Z.opp (decimal rest 0)
  | 46 :: _ => None
  | _ => decimal s 0
  end.

#[global] Instance micro : PyFloat Z := {
  float_of_str := micro_of_str;
  float_zero := 0;
  float_truthy := fun x => negb (x =? 0);
  float_ge_3_5 := fun x => 3500000 <=? x;
  float_ge_3_7 := fun x => 3700000 <=? x
}.

(** [urljoin(base, href)] for the hrefs of the examples: an absolute URL
    replaces the base, a path beginning with a slash is appended to a
    base that has no path. *)
Definition urljoin (base href : Py.str) : Py.str :=
  if Py.startswith (Py.lit "http") href then href else base ++ href.

(** [re.search] on the strings of the examples. *)
Definition search2 (p : pattern2) (s : Py.str) : option (Py.str * Py.str) :=
  match p with
  | re_map_at =>
      if Py.str_eqb s (Py.lit "https://www.google.com/maps/@35.6895,139.6917,15z")
      then Some (Py.lit "35.6895", Py.lit "139.6917") else None
  | re_map_q =>
      if Py.str_eqb s (Py.lit "https://maps.google.com/?q=35.6652,139.7706")
      then Some (Py.lit "35.6652", Py.lit "139.7706") else None
  | re_script_lat => None
  end.

Definition search1 (p : pattern1) (s : Py.str) : option Py.str := None.

(** [str.title] is not exercised by the examples. *)
Definition title (s : Py.str) : Py.str := s.

(** The event of the end-to-end scenario of the specification, as a card
    of the standalone scraper, with a map link on its detail page. *)
Definition event_card : GoTokyoEventScraper.card :=
  GoTokyoEventScraper.Card
    (Some (Py.lit "/en/event/sakura-festival.html"))
    (Py.lit "Sakura Festival")
    (Some (Py.lit "A beautiful cherry blossom festival"))
    (Some (Py.lit "April, evening illumination"))
    (Some (Py.lit "Shinjuku"))
    []
    (Some (GoTokyoEventScraper.DetailPage
             [Py.lit "https://www.google.com/maps/@35.6895,139.6917,15z"]
             [])).

(** A card with a name only, in which no category keyword occurs. *)
Definition free_card : GoTokyoEventScraper.card :=
  GoTokyoEventScraper.Card
    (Some (Py.lit "/en/event/free-yoga-class.html"))
    (Py.lit "Free yoga class")
    None None None [] None.

(** The same event as the spider's selectors give it. *)
Definition spider_card : GoTokyoEventsSpider.card :=
  GoTokyoEventsSpider.Card
    (Some (Py.lit "https://example.org/en/event/sakura-festival.html"))
    [[Py.lit "Sakura Festival"]]
    [[Py.lit "A beautiful cherry blossom festival"]]
    [[Py.lit "April, evening illumination"]]
    [[Py.lit "Shinjuku"]]
    []
    (Some (GoTokyoEventsSpider.DetailResponse [] [] [])).

(** A run of the standalone scraper in which the event above is listed on
    the events page and again on its second page, which the pagination
    link of the events page points to. *)
Definition page_2 : Py.str :=
  Py.lit "https://www.gotokyo.org/en/spot/index.html?page=2".

Definition fetch (url : Py.str) : option (list GoTokyoEventScraper.card) :=
  if Py.str_eqb url GoTokyoEventScraper.events_url then Some [event_card]
  else if Py.str_eqb url page_2 then Some [event_card]
  else Some [].

Definition pagination : option (list Py.str) :=
  Some [Py.lit "/en/spot/index.html?page=2"].

(** An item with an id and a name and no type. *)
Definition untyped_item : POIItem.t Z :=
  POIItem.Make (Some (Py.lit "80cfad2c9932")) (Some (Py.lit "Sakura Festival"))
    None None None None None None None None None None None
    (Some (Py.lit "https://example.org/en/event/sakura-festival.html")).

(** The same item with a type that is not one of the four. *)
Definition museum_item : POIItem.t Z :=
  POIItem.Make (Some (Py.lit "80cfad2c9932")) (Some (Py.lit "Sakura Festival"))
    (Some (Py.lit "museum")) None None None None None None None None None None
    (Some (Py.lit "https://example.org/en/event/sakura-festival.html")).

(** A card with two tag elements, one of them blank. *)
Definition tagged_card : GoTokyoEventScraper.card :=
  GoTokyoEventScraper.Card
    (Some (Py.lit "/en/spot/ueno-zoo.html"))
    (Py.lit "Ueno Zoo festival week")
    None None (Some (Py.lit " Ueno "))
    [Py.lit " Animals "; Py.lit "  "] None.

Definition listing_url : Py.str :=
  Py.lit "https://example.org/en/event/index.html".


(** A restaurant list item with a rating and a budget. *)
Definition rated_card : TabelogScraper.card :=
  TabelogScraper.Card
    (Some (Py.lit "Tempura Kondo",
           Py.lit "https://tabelog.com/en/tokyo/A1301/A130101/13001234/"))
    (Some (Py.lit "3.72")) (Some (Py.lit "Dinner 5,000 - 7,999"))
    (Some (Py.lit "Ginza / Tempura")) None None.

End Sample.

(* ===================================================================== *)
(** * Theorems *)
(* ===================================================================== *)

Example md5_empty :
  MD5.hexdigest [] = Py.lit "d41d8cd98f00b204e9800998ecf8427e".
Proof. vm_compute. reflexivity. Qed.

Example md5_abc :
  option_map MD5.hexdigest (Py.encode_utf8 (Py.lit "abc"))
  = Some (Py.lit "900150983cd24fb0d6963f7d28e17f72").
Proof. vm_compute. reflexivity. Qed.

Example md5_two_blocks :
  option_map MD5.hexdigest (Py.encode_utf8 (repeat 97 70))
  = Some (Py.lit "0f5c6c4e740bfcc08c3c26ccb2673d46").
Proof. vm_compute. reflexivity. Qed.

Example md5_cjk :
  option_map MD5.hexdigest (Py.encode_utf8 [0x671D])
  = Some (Py.lit "1cfa3d288d995b0028c8d66565f6f79d").
Proof. vm_compute. reflexivity. Qed.

Example md5_hex12_url :
  md5_hex12 (Py.lit "https://example.org/en/event/sakura-festival.html")
  = Some (Py.lit "80cfad2c9932").
Proof. vm_compute. reflexivity. Qed.

Example micro_of_str_example :
  Sample.micro_of_str (Py.lit "35.6895") = Some 35689500
  /\ Sample.micro_of_str (Py.lit "-0.5") = Some (-500000)
  /\ Sample.micro_of_str (Py.lit "abc") = None.
Proof. vm_compute. repeat split. Qed.

(** ** Strings *)

Lemma startswith_app (p s : Py.str) : Py.startswith p (p ++ s) = true.
Proof.
  induction p as [|c p IH]; simpl; [reflexivity|].
  now rewrite Z.eqb_refl, IH.
Qed.


Lemma len_nonneg (s : Py.str) : 0 <= Py.len s.
Proof. unfold Py.len. lia. Qed.



Lemma slice_to_slice_to (n m : Z) (s : Py.str) :
  0 <= n <= m -> Py.slice_to n (Py.slice_to m s) = Py.slice_to n s.
Proof.
  intros H. unfold Py.slice_to. rewrite firstn_firstn.
  f_equal. lia.
Qed.




(** ** C1: identity assignment *)

Lemma hex_digit_is_hex (x : Z) : MD5.is_hex (MD5.hex_digit (Z.land x 15)) = true.
Proof.
  change 15 with (Z.ones 4). rewrite Z.land_ones by lia.
  pose proof (Z.mod_pos_bound x (2 ^ 4) ltac:(lia)) as Hr.
  set (r := x mod 2 ^ 4) in *. change (2 ^ 4) with 16 in Hr.
  unfold MD5.hex_digit, MD5.is_hex.
  destruct (Z.ltb_spec r 10).
  - apply orb_true_iff. left. apply andb_true_iff. split; apply Z.leb_le; lia.
  - apply orb_true_iff. right. apply andb_true_iff. split; apply Z.leb_le; lia.
Qed.

Lemma hex_byte_is_hex (b : Z) : forallb MD5.is_hex (MD5.hex_byte b) = true.
Proof.
  unfold MD5.hex_byte. simpl. now rewrite !hex_digit_is_hex.
Qed.

Lemma digest_length (msg : list Z) : length (MD5.digest msg) = 16%nat.
Proof.
  unfold MD5.digest.
  destruct (MD5.blocks _ _ _) as [a b c d]. reflexivity.
Qed.

Lemma hexdigest_length (msg : list Z) : length (MD5.hexdigest msg) = 32%nat.
Proof.
  unfold MD5.hexdigest.
  assert (G : forall l, length (flat_map MD5.hex_byte l) = (2 * length l)%nat).
  { induction l as [|b l IH]; simpl; [reflexivity | rewrite IH; lia]. }
  rewrite G, digest_length. reflexivity.
Qed.

Lemma hexdigest_is_hex (msg : list Z) :
  forallb MD5.is_hex (MD5.hexdigest msg) = true.
Proof.
  unfold MD5.hexdigest.
  induction (MD5.digest msg) as [|b l IH]; [reflexivity|].
  cbn [flat_map]. rewrite forallb_app, hex_byte_is_hex, IH. reflexivity.
Qed.

Lemma forallb_firstn {A : Type} (f : A -> bool) (n : nat) (l : list A) :
  forallb f l = true -> forallb f (firstn n l) = true.
Proof.
  revert n. induction l as [|x l IH]; intros [|n] H; simpl in *; try reflexivity.
  apply andb_true_iff in H as [Hx Hl]. now rewrite Hx, IH.
Qed.

(** C1. When the text that is hashed (the URL, or the name when the URL is
    empty) can be encoded, the id the normalisation pipeline assigns is the
    first 12 characters of the hexadecimal MD5 digest of its UTF-8 bytes;
    it has 12 characters, all of them hexadecimal digits; it is a function
    of that text alone, so the same URL gives the same id on every call;
    and for a non-empty URL it is the id that [generate_poi_id] of both
    standalone scrapers gives. *)
Theorem C1_poi_id_is_md5_prefix (u n : Py.str) (bytes : list Z) :
  Py.encode_utf8 (Py.or_else u n) = Some bytes ->
  let id := firstn 12 (MD5.hexdigest bytes) in
  POINormalizationPipeline.generate_id (Some u) (Some n) = Some id
  /\ length id = 12%nat
  /\ forallb MD5.is_hex id = true
  /\ (u <> [] ->
      GoTokyoEventScraper.generate_poi_id u = Some id
      /\ TabelogScraper.generate_poi_id u = Some id
      /\ forall n', POINormalizationPipeline.generate_id (Some u) (Some n')
                    = Some id).
Proof.
  intros Henc id.
  assert (Hid : md5_hex12 (Py.or_else u n) = Some id).
  { unfold md5_hex12. now rewrite Henc. }
  split; [exact Hid|]. split; [|split].
  - unfold id. rewrite length_firstn, hexdigest_length. reflexivity.
  - apply forallb_firstn, hexdigest_is_hex.
  - intros Hu.
    assert (E : forall m, Py.or_else u m = u).
    { intros m. destruct u; [contradiction | reflexivity]. }
    rewrite E in Hid.
    unfold GoTokyoEventScraper.generate_poi_id, TabelogScraper.generate_poi_id.
    repeat split; try exact Hid.
    intros n'. unfold POINormalizationPipeline.generate_id. now rewrite E.
Qed.

Lemma C1_poi_id_witness :
  POINormalizationPipeline.generate_id
    (Some (Py.lit "https://example.org/en/event/sakura-festival.html"))
    (Some (Py.lit "Sakura Festival"))
  = Some (Py.lit "80cfad2c9932").
Proof.
  refine (proj1 (C1_poi_id_is_md5_prefix
            (Py.lit "https://example.org/en/event/sakura-festival.html")
            (Py.lit "Sakura Festival")
            (bytes := Py.lit "https://example.org/en/event/sakura-festival.html")
            _)).
  vm_compute. reflexivity.
Defined.

(** The fallback: an empty URL gives the digest of the name. *)
Example poi_id_of_name :
  POINormalizationPipeline.generate_id (Some []) (Some (Py.lit "abc"))
  = Some (Py.lit "900150983cd2")
  /\ POINormalizationPipeline.generate_id None None
     = md5_hex12 (Py.lit "unnamed").
Proof. split; vm_compute; reflexivity. Qed.

(** ** C2: price tiers *)

(** The six boundary texts and the two null cases, each text being the
    whole price text. *)
Example parse_price_boundaries :
  TabelogScraper.parse_price (Py.lit "999") = Some 1
  /\ TabelogScraper.parse_price (Py.lit "1,000") = Some 2
  /\ TabelogScraper.parse_price (Py.lit "3,999") = Some 2
  /\ TabelogScraper.parse_price (Py.lit "4,000") = Some 3
  /\ TabelogScraper.parse_price (Py.lit "9,999") = Some 3
  /\ TabelogScraper.parse_price (Py.lit "10,000") = Some 4
  /\ TabelogScraper.parse_price (Py.lit "ask the staff") = None
  /\ TabelogScraper.parse_price (Py.lit "0") = None
  /\ TabelogScraper.parse_price [] = None.
Proof. vm_compute. repeat split. Qed.

(** The range of the docstring, with both yen signs: the larger bound
    decides. *)
Example parse_price_range :
  TabelogScraper.parse_price
    (Py.lit "Dinner: " ++ [165] ++ Py.lit "10,000~" ++ [65509] ++ Py.lit "14,999")
  = Some 4
  /\ TabelogScraper.findall_price
       (Py.lit "Dinner: " ++ [165] ++ Py.lit "10,000~" ++ [65509]
               ++ Py.lit "14,999") []
     = [[165] ++ Py.lit "10,000"; [65509] ++ Py.lit "14,999"].
Proof. vm_compute. split; reflexivity. Qed.

(** A text with no price character has no match and gives null. *)
Lemma findall_price_none (s : Py.str) :
  forallb (fun c => negb (TabelogScraper.price_char c)) s = true ->
  TabelogScraper.findall_price s [] = [].
Proof.
  induction s as [|c s IH]; simpl; [reflexivity|].
  intros H. apply andb_true_iff in H as [Hc Hs].
  apply negb_true_iff in Hc. rewrite Hc. auto.
Qed.

Lemma parse_price_no_number (s : Py.str) :
  forallb (fun c => negb (TabelogScraper.price_char c)) s = true ->
  TabelogScraper.parse_price s = None.
Proof.
  intros H. unfold TabelogScraper.parse_price.
  destruct (Py.falsy s); [reflexivity|].
  now rewrite (findall_price_none s H).
Qed.

(** C2. Where the code departs from the claim: a separator or a yen sign
    that stands alone is a match of the pattern too; it holds no digit,
    [int] raises on it, and the price text as a whole gives null although
    it contains the number 1,000, which alone gives tier 2. *)
Theorem C2_parse_price_lone_separator :
  TabelogScraper.findall_price (Py.lit "Lunch, 1,000") []
  = [Py.lit ","; Py.lit "1,000"]
  /\ TabelogScraper.py_int [] = None
  /\ TabelogScraper.parse_price (Py.lit "Lunch, 1,000") = None
  /\ TabelogScraper.parse_price (Py.lit "Lunch 1,000") = Some 2
  /\ TabelogScraper.parse_price ([165] ++ Py.lit " 1,000") = None.
Proof. vm_compute. repeat split. Qed.

(** ** C3: rejection of records without their required fields *)

Section Validation.
Context {F : Type}.
Variable lower : Py.str -> Py.str.




End Validation.



(** ** C4: coordinate pairing *)

Lemma paired_null {F : Type} : POI.paired (@POI.null_coords F).
Proof. left. split; reflexivity. Qed.

Lemma paired_both {F : Type} (a b : F) : POI.paired (POI.Coords (Some a) (Some b)).
Proof. right. split; discriminate. Qed.

Create HintDb coords.
#[local] Hint Resolve paired_null paired_both : coords.

Section Pairing.
Context {F : Type} {FL : PyFloat F}.
Variable lower : Py.str -> Py.str.
Variable title : Py.str -> Py.str.
Variable urljoin : Py.str -> Py.str -> Py.str.
Variable search1 : pattern1 -> Py.str -> option Py.str.
Variable search2 : pattern2 -> Py.str -> option (Py.str * Py.str).

(** *** The standalone event scraper *)

Lemma event_match_paired (m : Py.str * Py.str) (c : POI.coords F) :
  GoTokyoEventScraper.coords_of_match m = Ret c -> POI.paired c.
Proof.
  unfold GoTokyoEventScraper.coords_of_match.
  destruct (float_of_str (fst m)), (float_of_str (snd m));
    intros H; inversion H; auto with coords.
Qed.

Lemma event_links_paired (links : list Py.str) (c : POI.coords F) :
  GoTokyoEventScraper.scan_links search2 links = Some (Ret c) -> POI.paired c.
Proof.
  induction links as [|href rest IH]; simpl; [discriminate|].
  destruct (search2 re_map_at href); [|exact IH].
  intros H. injection H as H. eapply event_match_paired; eauto.
Qed.

Lemma event_scripts_paired (l : list (option Py.str)) (c : POI.coords F) :
  GoTokyoEventScraper.scan_scripts search2 l = Some (Ret c) -> POI.paired c.
Proof.
  induction l as [|[s|] rest IH]; simpl; [discriminate| |exact IH].
  destruct (Py.falsy s); [exact IH|].
  destruct (search2 re_script_lat s); [|exact IH].
  intros H. injection H as H. eapply event_match_paired; eauto.
Qed.

Lemma event_extract_coordinates_paired
      (page : option GoTokyoEventScraper.detail_page) :
  POI.paired (GoTokyoEventScraper.extract_coordinates search2 page).
Proof.
  unfold GoTokyoEventScraper.extract_coordinates.
  destruct page as [p|]; [|auto with coords].
  destruct (GoTokyoEventScraper.scan_links search2 _) as [[c|]|] eqn:E.
  - eapply event_links_paired; eauto.
  - auto with coords.
  - destruct (GoTokyoEventScraper.scan_scripts search2 _) as [[c|]|] eqn:E';
      auto with coords.
    eapply event_scripts_paired; eauto.
Qed.

Lemma event_card_paired (c : GoTokyoEventScraper.card) (poi : POI.t F) :
  GoTokyoEventScraper.parse_event_card lower title urljoin search2 c = Some poi ->
  POI.paired (POI.coordinates poi).
Proof.
  unfold GoTokyoEventScraper.parse_event_card.
  destruct (GoTokyoEventScraper.link c); [|discriminate].
  destruct (GoTokyoEventScraper.generate_poi_id _); [|discriminate].
  intros H. injection H as <-. simpl.
  apply event_extract_coordinates_paired.
Qed.

(** *** The restaurant scraper *)

Lemma restaurant_scripts_paired (l : list (option Py.str)) (c : POI.coords F) :
  TabelogScraper.scan_scripts search1 l = Some (Ret c) -> POI.paired c.
Proof.
  induction l as [|[s|] rest IH]; simpl; [discriminate| |exact IH].
  destruct (Py.falsy s); [exact IH|].
  destruct (search1 re_latitude s) as [la|]; [|exact IH].
  destruct (search1 re_longitude s) as [lo|]; [|exact IH].
  destruct (float_of_str la), (float_of_str lo);
    intros H; inversion H; auto with coords.
Qed.

Lemma get_lat_lon_paired (page : TabelogScraper.detail_page)
      (c : POI.coords F) :
  TabelogScraper.get_lat_lon search1 search2 page = Ret c -> POI.paired c.
Proof.
  unfold TabelogScraper.get_lat_lon.
  destruct (TabelogScraper.scan_scripts search1 _) as [r|] eqn:E.
  - intros ->. eapply restaurant_scripts_paired; eauto.
  - destruct (TabelogScraper.map_href page) as [href|].
    + destruct (search2 re_map_q href) as [m|].
      * destruct (float_of_str (fst m)), (float_of_str (snd m));
          intros H; inversion H; auto with coords.
      * intros H; inversion H; auto with coords.
    + intros H; inversion H; auto with coords.
Qed.

Lemma restaurant_card_paired (item : TabelogScraper.card)
      (category : Py.str) (poi : POI.t F) :
  TabelogScraper.parse_restaurant_card urljoin search1 item category
  = Some poi ->
  POI.paired (POI.coordinates poi).
Proof.
  unfold TabelogScraper.parse_restaurant_card.
  destruct (TabelogScraper.name_tag item) as [[text href]|]; [|discriminate].
  destruct (TabelogScraper.generate_poi_id _); [|discriminate].
  intros H. injection H as <-. simpl. auto with coords.
Qed.

Lemma detail_coordinates_paired (page : option TabelogScraper.detail_page)
      (d : TabelogScraper.details) (c : POI.coords F) :
  TabelogScraper.parse_detail_page lower search1 search2 page = Some d ->
  TabelogScraper.d_coordinates d = Some c ->
  POI.paired c.
Proof.
  unfold TabelogScraper.parse_detail_page.
  destruct page as [p|]; [|discriminate].
  destruct (TabelogScraper.get_lat_lon search1 search2 p) as [co|] eqn:E;
    [|discriminate].
  intros H. injection H as <-. simpl.
  destruct (POI.lat co) as [la|]; [|discriminate].
  destruct (float_truthy la); [|discriminate].
  intros H. injection H as <-. eapply get_lat_lon_paired; eauto.
Qed.

Lemma update_poi_paired (poi : POI.t F)
      (page : option TabelogScraper.detail_page) :
  POI.paired (POI.coordinates poi) ->
  POI.paired
    (POI.coordinates
       (TabelogScraper.update_poi poi
          (TabelogScraper.parse_detail_page lower search1 search2 page))).
Proof.
  intros Hp. unfold TabelogScraper.update_poi.
  destruct (TabelogScraper.parse_detail_page _ _ _ page) as [d|] eqn:E;
    [|exact Hp].
  simpl. destruct (TabelogScraper.d_coordinates d) as [c|] eqn:Ec; [|exact Hp].
  eapply detail_coordinates_paired; eauto.
Qed.

Lemma scrape_items_paired (category : Py.str) (limit : Z)
      (list_items : list TabelogScraper.card) :
  forall items : list (POI.t F),
    Forall (fun p => POI.paired (POI.coordinates p)) items ->
    Forall (fun p => POI.paired (POI.coordinates p))
           (TabelogScraper.scrape_items lower urljoin search1 search2
              category limit list_items items).
Proof.
  induction list_items as [|item rest IH]; intros items Hitems; simpl;
    [exact Hitems|].
  destruct (TabelogScraper.parse_restaurant_card _ _ item category)
    as [poi|] eqn:E; [|now apply IH].
  destruct (existsb _ items); [now apply IH|].
  assert (Hnew : Forall (fun p => POI.paired (POI.coordinates p))
                   (items ++ [TabelogScraper.update_poi poi
                      (TabelogScraper.parse_detail_page lower search1 search2
                         (TabelogScraper.detail item))])).
  { apply Forall_app. split; [exact Hitems|].
    constructor; [|constructor].
    apply update_poi_paired. eapply restaurant_card_paired; eauto. }
  destruct (limit <=? _); [exact Hnew | now apply IH].
Qed.

(** *** The spider and the pipelines *)

Lemma spider_scan_paired (p : pattern2) (texts : list Py.str)
      (c : POI.coords F) :
  GoTokyoEventsSpider.scan search2 p texts = Some (Ret c) -> POI.paired c.
Proof.
  induction texts as [|s rest IH]; simpl; [discriminate|].
  destruct (search2 p s) as [m|]; [|exact IH].
  unfold GoTokyoEventsSpider.coords_of_match.
  destruct (float_of_str (fst m)), (float_of_str (snd m));
    intros H; inversion H; auto with coords.
Qed.

Lemma spider_extract_coordinates_paired
      (response : GoTokyoEventsSpider.detail_response) (c : POI.coords F) :
  GoTokyoEventsSpider.extract_coordinates search2 response = Some c ->
  POI.paired c.
Proof.
  unfold GoTokyoEventsSpider.extract_coordinates.
  destruct (GoTokyoEventsSpider.scan search2 re_map_at _) as [[c'|]|] eqn:E.
  - intros H. injection H as <-. eapply spider_scan_paired; eauto.
  - discriminate.
  - destruct (GoTokyoEventsSpider.scan search2 re_script_lat _)
      as [[c'|]|] eqn:E'; try discriminate.
    intros H. injection H as <-. eapply spider_scan_paired; eauto.
Qed.

(** An item's coordinates, when set, are paired. *)
Lemma spider_card_paired (element : GoTokyoEventsSpider.card)
      (url : Py.str) (item : POIItem.t F) (c : POI.coords F) :
  GoTokyoEventsSpider.parse_card lower urljoin search2 element url = Some item ->
  POIItem.coordinates item = Some c ->
  POI.paired c.
Proof.
  unfold GoTokyoEventsSpider.parse_card.
  destruct (GoTokyoEventsSpider.parse_event_card _ _ element url)
    as [poi_item|] eqn:E; [|discriminate].
  assert (Hnone : POIItem.coordinates poi_item = None).
  { revert E. unfold GoTokyoEventsSpider.parse_event_card.
    destruct (GoTokyoEventsSpider.link element) as [l|]; [|discriminate].
    destruct (Py.falsy l); [discriminate|].
    destruct (md5_hex12 _); [|discriminate].
    destruct (GoTokyoEventsSpider.first_texts _); [|discriminate].
    destruct (_ || _); [discriminate|].
    intros H. injection H as <-. reflexivity. }
  assert (Hdetail : forall response,
             POIItem.coordinates
               (GoTokyoEventsSpider.parse_event_detail search2 poi_item response)
             = Some c -> POI.paired c).
  { intros response. unfold GoTokyoEventsSpider.parse_event_detail. simpl.
    destruct (GoTokyoEventsSpider.extract_coordinates search2 response)
      as [c'|] eqn:Ec.
    - intros H. injection H as <-.
      eapply spider_extract_coordinates_paired; eauto.
    - rewrite Hnone. discriminate. }
  destruct (POIItem.source_url poi_item) as [detail_url|].
  - destruct (Py.str_eqb detail_url url).
    + intros H. injection H as <-. rewrite Hnone. discriminate.
    + destruct (GoTokyoEventsSpider.detail element) as [response|];
        [|discriminate].
      intros H. injection H as <-. apply Hdetail.
  - intros H. injection H as <-. rewrite Hnone. discriminate.
Qed.

Lemma pipelines_coordinates (item it : POIItem.t F) :
  through_pipelines lower item = Some it ->
  POIItem.coordinates it
  = Some (match POIItem.coordinates item with
          | Some c => c
          | None => POI.null_coords
          end).
Proof.
  unfold through_pipelines, FieldOrderPipeline.process_item.
  destruct (ValidationPipeline.process_item item) as [it0|] eqn:Ev;
    [|discriminate].
  assert (it0 = item) as ->.
  { revert Ev. unfold ValidationPipeline.process_item.
    repeat (destruct (negb _); [discriminate|]).
    destruct (_ <? _); [discriminate|]. now intros H; injection H. }
  unfold POINormalizationPipeline.process_item.
  destruct (truthy_str (POIItem.id item)).
  - intros H. injection H as <-. simpl.
    now destruct (POIItem.coordinates item).
  - destruct (POINormalizationPipeline.generate_id _ _); [|discriminate].
    intros H. injection H as <-. simpl.
    now destruct (POIItem.coordinates item).
Qed.

End Pairing.

(** C4. In every record the coordinates are both null or both populated:
    in the dict of the standalone event scraper, whichever of the map link,
    the embedded script or the default gave them; in the restaurant dicts,
    from the list card through the update from the detail page; and in the
    items of the spider once through the pipelines, whose default is the
    pair of nulls. *)
Theorem C4_coordinates_paired
        {F : Type} {FL : PyFloat F}
        (lower title : Py.str -> Py.str)
        (urljoin : Py.str -> Py.str -> Py.str)
        (search1 : pattern1 -> Py.str -> option Py.str)
        (search2 : pattern2 -> Py.str -> option (Py.str * Py.str)) :
  (forall page,
      POI.paired (GoTokyoEventScraper.extract_coordinates search2 page))
  /\ (forall c poi,
        GoTokyoEventScraper.parse_event_card lower title urljoin search2 c
        = Some poi ->
        POI.paired (POI.coordinates poi))
  /\ (forall page c,
        TabelogScraper.get_lat_lon search1 search2 page = Ret c ->
        POI.paired c)
  /\ (forall category limit list_items items,
        Forall (fun p => POI.paired (POI.coordinates p)) items ->
        Forall (fun p => POI.paired (POI.coordinates p))
               (TabelogScraper.scrape_items lower urljoin search1 search2
                  category limit list_items items))
  /\ (forall element url item it,
        GoTokyoEventsSpider.parse_card lower urljoin search2 element url
        = Some item ->
        through_pipelines lower item = Some it ->
        exists c, POIItem.coordinates it = Some c /\ POI.paired c).
Proof.
  split; [|split; [|split; [|split]]].
  - apply event_extract_coordinates_paired.
  - intros c poi. apply event_card_paired.
  - intros page c. apply get_lat_lon_paired.
  - intros. now apply scrape_items_paired.
  - intros element url item it Hcard Hpipe.
    rewrite (pipelines_coordinates _ _ Hpipe).
    eexists. split; [reflexivity|].
    destruct (POIItem.coordinates item) as [c|] eqn:Ec; [|apply paired_null].
    eapply spider_card_paired; eauto.
Qed.

Lemma C4_coordinates_paired_witness :
  exists poi,
    GoTokyoEventScraper.parse_event_card
      Py.ascii_lower Sample.title Sample.urljoin Sample.search2
      Sample.event_card = Some poi
    /\ POI.coordinates poi = POI.Coords (Some 35689500) (Some 139691700)
    /\ POI.paired (POI.coordinates poi).
Proof.
  eexists. split; [vm_compute; reflexivity|]. split; [reflexivity|].
  refine (proj1 (proj2 (C4_coordinates_paired
            Py.ascii_lower Sample.title Sample.urljoin Sample.search1
            Sample.search2)) Sample.event_card _ _).
  vm_compute. reflexivity.
Defined.

(** ** C5: tag inference *)

(** The chain of conditionals of the code is the rule table of the
    specification: each rule that fires gives its tag, in order. *)
Lemma infer_category_tags_rules (text : Py.str) :
  GoTokyoEventScraper.infer_category_tags text
  = map snd (filter (GoTokyoEventScraper.fires text)
                    GoTokyoEventScraper.keyword_rules).
Proof.
  unfold GoTokyoEventScraper.infer_category_tags,
         GoTokyoEventScraper.keyword_rules, GoTokyoEventScraper.fires.
  cbn [filter fst snd map].
  repeat match goal with
         | |- context [Py.any_in ?w text] =>
             destruct (Py.any_in w text)
         end; reflexivity.
Qed.

Lemma infer_category_tags_In (text tag : Py.str) :
  In tag (GoTokyoEventScraper.infer_category_tags text)
  <-> exists words,
        In (words, tag) GoTokyoEventScraper.keyword_rules
        /\ Py.any_in words text = true.
Proof.
  rewrite infer_category_tags_rules, in_map_iff. split.
  - intros ([words tag'] & <- & H). apply filter_In in H as [Hin Hf].
    exists words. split; assumption.
  - intros (words & Hin & Hf). exists (words, tag). split; [reflexivity|].
    apply filter_In. split; assumption.
Qed.

Lemma set_or_event_In (tags : list Py.str) (tag : Py.str) :
  tags <> [] ->
  (In tag (GoTokyoEventScraper.set_or_event tags) <-> In tag tags).
Proof.
  intros H. destruct tags as [|t tags]; [contradiction|].
  unfold GoTokyoEventScraper.set_or_event, list_set. apply nodup_In.
Qed.

Lemma set_or_event_NoDup (tags : list Py.str) :
  NoDup (GoTokyoEventScraper.set_or_event tags).
Proof.
  destruct tags as [|t tags].
  - constructor; [intros [] | constructor].
  - apply NoDup_nodup.
Qed.

(** In the standalone scraper the claim holds: with no explicit tag, a tag
    is in [category_tags] exactly when a rule that gives it fires, without
    duplicates, and [category_tags] is the sentinel alone when none does. *)
Lemma event_card_inferred_tags
      {F : Type} {FL : PyFloat F} (lower title : Py.str -> Py.str)
      (urljoin : Py.str -> Py.str -> Py.str)
      (search2 : pattern2 -> Py.str -> option (Py.str * Py.str))
      (c : GoTokyoEventScraper.card) (poi : POI.t F) :
  GoTokyoEventScraper.parse_event_card lower title urljoin search2 c = Some poi ->
  GoTokyoEventScraper.explicit_tags (GoTokyoEventScraper.tag_texts c) = [] ->
  let text :=
    lower (GoTokyoEventScraper.card_name c ++ [32]
             ++ GoTokyoEventScraper.card_description c) in
  (forall words tag,
      In (words, tag) GoTokyoEventScraper.keyword_rules ->
      Py.any_in words text = true -> In tag (POI.category_tags poi))
  /\ ((forall words tag,
         In (words, tag) GoTokyoEventScraper.keyword_rules ->
         Py.any_in words text = false) ->
      POI.category_tags poi = [Py.lit "Event"])
  /\ NoDup (POI.category_tags poi).
Proof.
  unfold GoTokyoEventScraper.parse_event_card.
  destruct (GoTokyoEventScraper.link c); [|discriminate].
  destruct (GoTokyoEventScraper.generate_poi_id _); [|discriminate].
  cbv zeta. intros H Hexp. injection H as <-. cbn [POI.category_tags].
  rewrite Hexp.
  cbn [app].
  generalize (lower (GoTokyoEventScraper.card_name c
                       ++ 32 :: GoTokyoEventScraper.card_description c)).
  intros text. split; [|split].
  - intros words tag Hin Hf.
    assert (Hi : In tag (GoTokyoEventScraper.infer_category_tags text)).
    { apply infer_category_tags_In. eauto. }
    apply set_or_event_In; [|exact Hi].
    intros E. rewrite E in Hi. contradiction.
  - intros Hnone.
    destruct (GoTokyoEventScraper.infer_category_tags text) as [|t l] eqn:E;
      [reflexivity|].
    assert (Hi : In t (GoTokyoEventScraper.infer_category_tags text)).
    { rewrite E. now left. }
    apply infer_category_tags_In in Hi as (words & Hin & Hf).
    rewrite (Hnone words t Hin) in Hf. discriminate.
  - apply set_or_event_NoDup.
Qed.

(** C5. Where the code departs from the claim: for the event of the
    end-to-end scenario the spider computes both tags, the item loader,
    whose output processor is [TakeFirst], keeps the first of them, and the
    item reaches the exporter with "Festival" alone; the standalone scraper
    gives both for the same event. *)
Theorem C5_loader_keeps_first_tag :
  GoTokyoEventsSpider.category_tags_of Py.ascii_lower
    (Py.lit "Sakura Festival") (Py.lit "A beautiful cherry blossom festival") []
  = [Py.lit "Festival"; Py.lit "Seasonal"]
  /\ POIItemLoader.load POIItemLoader.identity
       [Py.lit "Festival"; Py.lit "Seasonal"]
     = Some (Py.lit "Festival")
  /\ (exists item it : POIItem.t Z,
        GoTokyoEventsSpider.parse_card Py.ascii_lower Sample.urljoin
          Sample.search2 Sample.spider_card Sample.listing_url = Some item
        /\ through_pipelines Py.ascii_lower item = Some it
        /\ POIItem.category_tags it = Some (TagList [Py.lit "Festival"]))
  /\ (exists poi : POI.t Z,
        GoTokyoEventScraper.parse_event_card Py.ascii_lower Sample.title
          Sample.urljoin Sample.search2 Sample.event_card = Some poi
        /\ In (Py.lit "Festival") (POI.category_tags poi)
        /\ In (Py.lit "Seasonal") (POI.category_tags poi)).
Proof.
  split; [vm_compute; reflexivity|].
  split; [vm_compute; reflexivity|].
  split.
  - eexists. eexists.
    split; [vm_compute; reflexivity|].
    split; [vm_compute; reflexivity|].
    vm_compute. reflexivity.
  - eexists. split; [vm_compute; reflexivity|].
    split; vm_compute; tauto.
Qed.

(** ** C6: interest tags *)

Lemma add_interest_tags_superset (category_tags : list Py.str) (text : Py.str) :
  incl category_tags
       (GoTokyoEventScraper.add_interest_tags category_tags text).
Proof.
  unfold GoTokyoEventScraper.add_interest_tags.
  destruct (Py.contains _ text), (Py.any_in _ text), (Py.contains _ text);
    intros t Ht; repeat (apply in_or_app; left); exact Ht.
Qed.

(** The spider puts the sentinel in [category_tags] before it copies them:
    there [interest_tags] holds every category tag. *)
Lemma spider_interest_tags_superset (lower : Py.str -> Py.str)
      (name description text : Py.str) (tag_texts : list Py.str) :
  incl (GoTokyoEventsSpider.category_tags_of lower name description tag_texts)
       (GoTokyoEventScraper.add_interest_tags
          (GoTokyoEventsSpider.category_tags_of lower name description tag_texts)
          text).
Proof. apply add_interest_tags_superset. Qed.

(** C6. Where the code departs from the claim: in the standalone scraper
    the sentinel is put in [category_tags] only when the dict is built,
    after [interest_tags] was copied from the empty list; a card in which
    no category rule fires but a situational one does gets the category
    "Event" and the interest tags without it. *)
Theorem C6_sentinel_missing_from_interest_tags :
  exists poi : POI.t Z,
    GoTokyoEventScraper.parse_event_card Py.ascii_lower Sample.title
      Sample.urljoin Sample.search2 Sample.free_card = Some poi
    /\ POI.category_tags poi = [Py.lit "Event"]
    /\ POI.interest_tags poi = [Py.lit "Free Entry"]
    /\ ~ incl (POI.category_tags poi) (POI.interest_tags poi).
Proof.
  eexists. split; [vm_compute; reflexivity|].
  split; [reflexivity|]. split; [reflexivity|].
  intros H. specialize (H (Py.lit "Event") (or_introl eq_refl)).
  vm_compute in H. destruct H as [H|[]]. discriminate H.
Qed.

(** ** C7: best time of day *)



(** The keywords are matched as substrings, the non-Latin ones included. *)
Example best_time_examples :
  GoTokyoEventScraper.best_time
    (Py.ascii_lower (Py.lit "Morning market and night parade"))
  = Some morning
  /\ GoTokyoEventScraper.best_time
       (Py.ascii_lower (Py.lit "Afternoon tea, evening drinks"))
     = Some afternoon
  /\ GoTokyoEventScraper.best_time
       (Py.ascii_lower (Py.lit "Winter Illumination")) = Some evening
  /\ GoTokyoEventScraper.best_time [0x671D; 0x5E02] = Some morning
  /\ GoTokyoEventScraper.best_time [0x5348; 0x5F8C; 0x591C] = Some afternoon
  /\ GoTokyoEventScraper.best_time [0x591C; 0x685C] = Some evening
  /\ GoTokyoEventScraper.best_time (Py.ascii_lower (Py.lit "Ueno Zoo")) = None
  /\ GoTokyoEventScraper.best_time (Py.ascii_lower (Py.lit "Family day"))
     = Some morning.
Proof. vm_compute. repeat split. Qed.






(** ** C8: the bound on the description *)










Example truncate_description_example :
  GoTokyoEventScraper.truncate_description
    (repeat 97 150 ++ [46] ++ repeat 98 100)
  = repeat 97 150 ++ [46]
  /\ GoTokyoEventScraper.create_short_description
       (repeat 97 201) (Py.lit "May 3")
     = repeat 97 200 ++ Py.lit "... May 3".
Proof. vm_compute. split; reflexivity. Qed.

(** ** C9: the default type *)

Lemma validation_accepts {F : Type} (item it : POIItem.t F) :
  ValidationPipeline.process_item item = Some it ->
  it = item
  /\ truthy_str (POIItem.id item) = true
  /\ truthy_str (POIItem.type item) = true.
Proof.
  unfold ValidationPipeline.process_item.
  destruct (truthy_str (POIItem.id item)); [|discriminate].
  destruct (truthy_str (POIItem.name item)); [|discriminate].
  destruct (truthy_str (POIItem.type item)); [|discriminate].
  simpl. destruct (_ <? _); [discriminate|].
  intros H. injection H as <-. repeat split.
Qed.

Lemma pipelines_type {F : Type} (lower : Py.str -> Py.str)
      (item : POIItem.t F) :
  ValidationPipeline.process_item item = Some item ->
  exists it,
    through_pipelines lower item = Some it
    /\ POIItem.type it
       = if str_mem
              (Py.strip (lower (match POIItem.type item with
                                | Some t => t
                                | None => []
                                end)))
              POINormalizationPipeline.valid_types
         then POIItem.type item
         else Some (Py.lit "event_venue").
Proof.
  intros Hv. destruct (validation_accepts _ Hv) as (_ & Hid & _).
  unfold through_pipelines. rewrite Hv.
  unfold POINormalizationPipeline.process_item. rewrite Hid.
  eexists. split; reflexivity.
Qed.




(** ** C10: deduplication across pages *)

Lemma str_eqb_eq (a b : Py.str) : Py.str_eqb a b = true <-> a = b.
Proof.
  unfold Py.str_eqb. destruct (list_eq_dec Z.eq_dec a b); split;
    intros; congruence.
Qed.

Lemma str_mem_In (x : Py.str) (l : list Py.str) :
  str_mem x l = true <-> In x l.
Proof.
  unfold str_mem. rewrite existsb_exists. split.
  - intros (y & Hy & E). apply str_eqb_eq in E. now subst.
  - intros H. exists x. split; [exact H | now apply str_eqb_eq].
Qed.

Section Deduplication.
Context {F : Type} {FL : PyFloat F}.
Variable lower : Py.str -> Py.str.
Variable title : Py.str -> Py.str.
Variable urljoin : Py.str -> Py.str -> Py.str.
Variable search2 : pattern2 -> Py.str -> option (Py.str * Py.str).
Variable fetch : Py.str -> option (list GoTokyoEventScraper.card).

Lemma add_event_invariant (st : list (POI.t F) * list Py.str)
      (event : POI.t F) :
  GoTokyoEventScraper.distinct_and_seen st ->
  GoTokyoEventScraper.distinct_and_seen (GoTokyoEventScraper.add_event st event).
Proof.
  destruct st as [all_events seen_urls]. intros [Hnd Hseen]. simpl in Hnd, Hseen.
  unfold GoTokyoEventScraper.add_event.
  destruct (GoTokyoEventScraper.keep_event seen_urls event) eqn:Ek;
    [|split; assumption].
  unfold GoTokyoEventScraper.keep_event in Ek.
  repeat (apply andb_true_iff in Ek as [Ek ?]).
  apply negb_true_iff in Ek.
  assert (Hnew : ~ In (POI.source_url event) seen_urls).
  { intros Hin. apply str_mem_In in Hin. congruence. }
  split; simpl.
  - rewrite map_app. simpl.
    apply NoDup_app; [exact Hnd | constructor; [intros [] | constructor] |].
    intros u Hu [E | []]. apply in_map_iff in Hu as (e & Hurl & He).
    apply Hnew. rewrite E, <- Hurl. auto.
  - intros e He. apply in_app_or in He as [He | [<- | []]].
    + right. auto.
    + now left.
Qed.

Lemma scrape_listed_invariant (urls : list Py.str) :
  GoTokyoEventScraper.distinct_and_seen
    (GoTokyoEventScraper.scrape_listed lower title urljoin search2 fetch urls).
Proof.
  unfold GoTokyoEventScraper.scrape_listed.
  assert (G : forall us st,
             GoTokyoEventScraper.distinct_and_seen st ->
             GoTokyoEventScraper.distinct_and_seen
               (fold_left
                  (fun st url =>
                     fold_left (@GoTokyoEventScraper.add_event F)
                       (GoTokyoEventScraper.scrape_events_page
                          lower title urljoin search2 fetch url) st)
                  us st)).
  { induction us as [|u us IH]; intros st Hst; simpl; [exact Hst|].
    apply IH.
    generalize (GoTokyoEventScraper.scrape_events_page
                  lower title urljoin search2 fetch u).
    intros events. revert st Hst.
    induction events as [|e events IHe]; intros st Hst; simpl; [exact Hst|].
    apply IHe. now apply add_event_invariant. }
  apply G. split; simpl; [constructor | intros e []].
Qed.

(** What the claim asks is true of the main loop: without additional
    pages, no two records of the batch share a source URL. *)
Lemma scrape_all_events_distinct_without_pagination :
  NoDup (map (@POI.source_url F)
           (GoTokyoEventScraper.scrape_all_events
              lower title urljoin search2 fetch None)).
Proof.
  unfold GoTokyoEventScraper.scrape_all_events.
  apply (scrape_listed_invariant GoTokyoEventScraper.urls_to_scrape).
Qed.

(** The id of an event record is the id of its source URL. *)
Lemma event_card_id (c : GoTokyoEventScraper.card) (poi : POI.t F) :
  GoTokyoEventScraper.parse_event_card lower title urljoin search2 c = Some poi ->
  GoTokyoEventScraper.generate_poi_id (POI.source_url poi) = Some (POI.id poi).
Proof.
  unfold GoTokyoEventScraper.parse_event_card.
  destruct (GoTokyoEventScraper.link c); [|discriminate].
  destruct (GoTokyoEventScraper.generate_poi_id _) eqn:E; [|discriminate].
  intros H. injection H as <-. exact E.
Qed.

End Deduplication.

(** C10. Where the code departs from the claim: the events of the
    additional pages are appended to the batch as they come, without the
    test on [seen_urls] that the main loop makes. An event listed on the
    events page and again on its second page is twice in the batch: two
    records at different positions with the same id and source URL. *)
Theorem C10_pagination_duplicates :
  exists e : POI.t Z,
    GoTokyoEventScraper.parse_event_card Py.ascii_lower Sample.title
      Sample.urljoin Sample.search2 Sample.event_card = Some e
    /\ GoTokyoEventScraper.additional_urls Sample.urljoin
         [Py.lit "/en/spot/index.html?page=2"] = [Sample.page_2]
    /\ GoTokyoEventScraper.scrape_all_events Py.ascii_lower Sample.title
         Sample.urljoin Sample.search2 Sample.fetch Sample.pagination
       = [e; e]
    /\ GoTokyoEventScraper.scrape_all_events Py.ascii_lower Sample.title
         Sample.urljoin Sample.search2 Sample.fetch None
       = [e]
    /\ ~ NoDup (map (@POI.id Z)
                  (GoTokyoEventScraper.scrape_all_events Py.ascii_lower
                     Sample.title Sample.urljoin Sample.search2 Sample.fetch
                     Sample.pagination)).
Proof.
  eexists. split; [vm_compute; reflexivity|].
  split; [vm_compute; reflexivity|].
  split; [vm_compute; reflexivity|].
  split; [vm_compute; reflexivity|].
  intros H. vm_compute in H.
  inversion H as [|x l Hnotin _]. apply Hnotin. now left.
Qed.

(* ===================================================================== *)
(** * Further properties of the code *)
(* ===================================================================== *)

(** ** [strip] *)

Lemma lstrip_before_nonspace (y d : Py.str) (c : Z) :
  Py.isspace c = false ->
  Py.lstrip (y ++ c :: d) = Py.lstrip y ++ c :: d.
Proof.
  intros Hc. induction y as [|x y IH]; simpl.
  - now rewrite Hc.
  - destruct (Py.isspace x); [exact IH | reflexivity].
Qed.

Lemma lstrip_head (s : Py.str) :
  Py.lstrip s = []
  \/ exists c t, Py.lstrip s = c :: t /\ Py.isspace c = false.
Proof.
  induction s as [|x s IH]; simpl; [now left|].
  destruct (Py.isspace x) eqn:E; [exact IH|].
  right. exists x, s. split; [reflexivity | exact E].
Qed.

Lemma lstrip_nonspace (c : Z) (t : Py.str) :
  Py.isspace c = false -> Py.lstrip (c :: t) = c :: t.
Proof. intros H. simpl. now rewrite H. Qed.

Lemma rstrip_nonspace (y : Py.str) (c : Z) :
  Py.isspace c = false -> Py.rstrip (y ++ [c]) = y ++ [c].
Proof.
  intros H. unfold Py.rstrip. rewrite rev_app_distr. simpl.
  rewrite H. simpl. now rewrite rev_involutive.
Qed.

(** A stripped string is empty or begins and ends with a character that is
    no space. *)
Lemma strip_ends (s : Py.str) :
  Py.strip s = []
  \/ exists c t y e,
       Py.strip s = c :: t /\ Py.isspace c = false
       /\ Py.strip s = y ++ [e] /\ Py.isspace e = false.
Proof.
  unfold Py.strip, Py.rstrip.
  destruct (lstrip_head s) as [E | (c & t & E & Hc)].
  - rewrite E. now left.
  - rewrite E. simpl rev.
    rewrite (@lstrip_before_nonspace (rev t) [] c Hc).
    rewrite rev_app_distr. simpl.
    destruct (lstrip_head (rev t)) as [E' | (e & u & E' & He)].
    + rewrite E'. right. exists c, [], [], c. simpl. auto.
    + rewrite E'. right. exists c, (rev (e :: u)), (c :: rev u), e.
      simpl. auto.
Qed.

Lemma strip_fixed (c e : Z) (t y : Py.str) :
  Py.isspace c = false -> Py.isspace e = false ->
  c :: t = y ++ [e] ->
  Py.strip (c :: t) = c :: t.
Proof.
  intros Hc He E. unfold Py.strip.
  rewrite (@lstrip_nonspace c t Hc), E. now apply rstrip_nonspace.
Qed.

(** [strip] is idempotent. *)
Lemma strip_idempotent (s : Py.str) : Py.strip (Py.strip s) = Py.strip s.
Proof.
  destruct (strip_ends s) as [E | (c & t & y & e & E & Hc & E' & He)].
  - rewrite E. reflexivity.
  - rewrite E. apply (@strip_fixed c e t y Hc He). now rewrite <- E.
Qed.

Lemma contains_suffix (p x : Py.str) : Py.contains p (x ++ p) = true.
Proof.
  induction x as [|a x IH]; simpl.
  - destruct p as [|b p]; [reflexivity|].
    simpl. rewrite Z.eqb_refl. simpl.
    pose proof (startswith_app p []) as H. rewrite app_nil_r in H.
    now rewrite H.
  - rewrite IH. apply orb_true_r.
Qed.

(** ** The price tier *)

(** X1. A price tier, when there is one, is 1, 2, 3 or 4. *)
Theorem parse_price_tier_range (price_str : Py.str) (tier : Z) :
  TabelogScraper.parse_price price_str = Some tier -> 1 <= tier <= 4.
Proof.
  unfold TabelogScraper.parse_price.
  destruct (Py.falsy price_str); [discriminate|].
  destruct (TabelogScraper.findall_price price_str []); [discriminate|].
  destruct (TabelogScraper.max_price _ 0) as [m|]; [|discriminate].
  destruct (m =? 0); [discriminate|].
  destruct (m <? 1000); [intros H; injection H as <-; lia|].
  destruct (m <? 4000); [intros H; injection H as <-; lia|].
  destruct (m <? 10000); intros H; injection H as <-; lia.
Qed.

Lemma parse_price_tier_range_witness : 1 <= 3 <= 4.
Proof.
  refine (@parse_price_tier_range (Py.lit "Dinner 5,000 - 7,999") 3 _).
  vm_compute. reflexivity.
Defined.

(** ** The event card of the standalone scraper *)

(** The fields of the dict in terms of the card. *)
Lemma parse_event_card_fields
      {F : Type} {FL : PyFloat F} (lower title : Py.str -> Py.str)
      (urljoin : Py.str -> Py.str -> Py.str)
      (search2 : pattern2 -> Py.str -> option (Py.str * Py.str))
      (c : GoTokyoEventScraper.card) (poi : POI.t F) :
  GoTokyoEventScraper.parse_event_card lower title urljoin search2 c = Some poi ->
  let name := GoTokyoEventScraper.card_name c in
  let description := GoTokyoEventScraper.card_description c in
  let text := lower (name ++ [32] ++ description) in
  let tags :=
    match GoTokyoEventScraper.explicit_tags (GoTokyoEventScraper.tag_texts c)
    with
    | [] => GoTokyoEventScraper.infer_category_tags text
    | t :: l => t :: l
    end in
  POI.name poi = name
  /\ POI.category_tags poi = GoTokyoEventScraper.set_or_event tags
  /\ POI.interest_tags poi
     = GoTokyoEventScraper.set_or_event
         (GoTokyoEventScraper.add_interest_tags tags text)
  /\ POI.typical_duration_minutes poi
     = GoTokyoEventScraper.estimate_duration lower name description
  /\ POI.short_description poi
     = GoTokyoEventScraper.create_short_description description
         (GoTokyoEventScraper.card_date c).
Proof.
  unfold GoTokyoEventScraper.parse_event_card.
  destruct (GoTokyoEventScraper.link c); [|discriminate].
  destruct (GoTokyoEventScraper.generate_poi_id _); [|discriminate].
  intros H. injection H as <-. cbn [POI.name POI.category_tags
    POI.interest_tags POI.typical_duration_minutes POI.short_description].
  repeat split;
    destruct (GoTokyoEventScraper.explicit_tags _); reflexivity.
Qed.

Lemma set_or_event_nonempty (tags : list Py.str) :
  GoTokyoEventScraper.set_or_event tags <> [].
Proof.
  destruct tags as [|t tags]; [discriminate|].
  intros E.
  assert (H : In t (GoTokyoEventScraper.set_or_event (t :: tags))).
  { apply set_or_event_In; [discriminate | now left]. }
  rewrite E in H. contradiction.
Qed.

Lemma add_interest_tags_In (tags : list Py.str) (text tag : Py.str) :
  In tag (GoTokyoEventScraper.add_interest_tags tags text) ->
  In tag tags
  \/ In tag [Py.lit "Family Friendly"; Py.lit "Nightlife"; Py.lit "Free Entry"].
Proof.
  unfold GoTokyoEventScraper.add_interest_tags.
  destruct (Py.contains _ text), (Py.any_in _ text), (Py.contains _ text);
    intros H; repeat (apply in_app_or in H as [H | H]);
    try (now left);
    right; destruct H as [<- | []]; simpl; tauto.
Qed.

Lemma estimate_duration_values (lower : Py.str -> Py.str)
      (name description : Py.str) :
  In (GoTokyoEventScraper.estimate_duration lower name description)
     [45; 60; 90; 120; 180].
Proof.
  unfold GoTokyoEventScraper.estimate_duration.
  repeat match goal with
         | |- context [if ?b then _ else _] => destruct b
         end; simpl; tauto.
Qed.

(** X2. The duration of an event is one of 45, 60, 90, 120 and 180
    minutes; and for a card without explicit tags the record carries the
    tag "Festival" exactly when its duration is 180: the tag rule and the
    duration rule read the same keywords in the same text. *)
Theorem festival_tag_iff_three_hours
        {F : Type} {FL : PyFloat F} (lower title : Py.str -> Py.str)
        (urljoin : Py.str -> Py.str -> Py.str)
        (search2 : pattern2 -> Py.str -> option (Py.str * Py.str))
        (c : GoTokyoEventScraper.card) (poi : POI.t F) :
  GoTokyoEventScraper.parse_event_card lower title urljoin search2 c = Some poi ->
  In (POI.typical_duration_minutes poi) [45; 60; 90; 120; 180]
  /\ (GoTokyoEventScraper.explicit_tags (GoTokyoEventScraper.tag_texts c) = [] ->
      (In (Py.lit "Festival") (POI.category_tags poi)
       <-> POI.typical_duration_minutes poi = 180)).
Proof.
  intros H.
  destruct (parse_event_card_fields _ _ _ _ _ H) as (_ & Hcat & _ & Hdur & _).
  cbv zeta in Hcat. rewrite Hdur.
  split; [exact (estimate_duration_values lower _ _)|].
  intros Hexp. rewrite Hcat, Hexp.
  unfold GoTokyoEventScraper.estimate_duration.
  set (text := lower _).
  assert (Hfest : In (Py.lit "Festival")
                     (GoTokyoEventScraper.infer_category_tags text)
                  <-> Py.any_in [Py.lit "festival"; Py.lit "matsuri"] text
                      = true).
  { rewrite infer_category_tags_In. split.
    - intros (words & Hin & Hf).
      simpl in Hin. destruct Hin as [Hin | Hin].
      + apply (f_equal fst) in Hin. simpl in Hin. subst words. exact Hf.
      + repeat (destruct Hin as [Hin | Hin];
                [apply (f_equal snd) in Hin; vm_compute in Hin;
                 discriminate Hin|]).
        contradiction.
    - intros Hf. eexists. split; [left; reflexivity | exact Hf]. }
  destruct (GoTokyoEventScraper.infer_category_tags text) as [|t l] eqn:E.
  - assert (Hno : Py.any_in [Py.lit "festival"; Py.lit "matsuri"] text = false).
    { destruct (Py.any_in _ text); [|reflexivity].
      destruct (proj2 Hfest eq_refl). }
    rewrite Hno. split.
    + intros [Hev | []]. vm_compute in Hev. discriminate Hev.
    + repeat match goal with
             | |- context [if ?b then _ else _] => destruct b
             end; discriminate.
  - rewrite set_or_event_In by discriminate. rewrite Hfest.
    destruct (Py.any_in [Py.lit "festival"; Py.lit "matsuri"] text).
    + split; reflexivity.
    + split; [discriminate|].
      repeat match goal with
             | |- context [if ?b then _ else _] => destruct b
             end; discriminate.
Qed.

Lemma festival_tag_iff_three_hours_witness :
  exists poi : POI.t Z,
    GoTokyoEventScraper.parse_event_card Py.ascii_lower Sample.title
      Sample.urljoin Sample.search2 Sample.event_card = Some poi
    /\ POI.typical_duration_minutes poi = 180
    /\ In (Py.lit "Festival") (POI.category_tags poi).
Proof.
  eexists. split; [vm_compute; reflexivity|]. split; [reflexivity|].
  refine (proj2 (proj2 (@festival_tag_iff_three_hours Z _ Py.ascii_lower
                          Sample.title Sample.urljoin Sample.search2
                          Sample.event_card _ _) _) _);
    vm_compute; reflexivity.
Defined.

(** X3. The category tags and the interest tags of an event record are
    never empty and hold no tag twice. *)
Theorem event_tags_nonempty_distinct
        {F : Type} {FL : PyFloat F} (lower title : Py.str -> Py.str)
        (urljoin : Py.str -> Py.str -> Py.str)
        (search2 : pattern2 -> Py.str -> option (Py.str * Py.str))
        (c : GoTokyoEventScraper.card) (poi : POI.t F) :
  GoTokyoEventScraper.parse_event_card lower title urljoin search2 c = Some poi ->
  POI.category_tags poi <> [] /\ NoDup (POI.category_tags poi)
  /\ POI.interest_tags poi <> [] /\ NoDup (POI.interest_tags poi).
Proof.
  intros H.
  destruct (parse_event_card_fields _ _ _ _ _ H) as (_ & Hcat & Hint & _).
  cbv zeta in Hcat, Hint. rewrite Hcat, Hint.
  repeat split; try apply set_or_event_nonempty; apply set_or_event_NoDup.
Qed.

Lemma event_tags_nonempty_distinct_witness :
  exists poi : POI.t Z,
    GoTokyoEventScraper.parse_event_card Py.ascii_lower Sample.title
      Sample.urljoin Sample.search2 Sample.free_card = Some poi
    /\ POI.category_tags poi <> [].
Proof.
  eexists. split; [vm_compute; reflexivity|].
  refine (proj1 (@event_tags_nonempty_distinct Z _ Py.ascii_lower
                   Sample.title Sample.urljoin Sample.search2
                   Sample.free_card _ _)).
  vm_compute. reflexivity.
Defined.

(** X4. An interest tag of an event record is one of its category tags or
    one of the three situational tags; and unless the category tags are
    the sentinel alone, every category tag is an interest tag. *)
Theorem event_interest_tags_bounds
        {F : Type} {FL : PyFloat F} (lower title : Py.str -> Py.str)
        (urljoin : Py.str -> Py.str -> Py.str)
        (search2 : pattern2 -> Py.str -> option (Py.str * Py.str))
        (c : GoTokyoEventScraper.card) (poi : POI.t F) :
  GoTokyoEventScraper.parse_event_card lower title urljoin search2 c = Some poi ->
  (forall tag,
      In tag (POI.interest_tags poi) ->
      In tag (POI.category_tags poi)
      \/ In tag [Py.lit "Family Friendly"; Py.lit "Nightlife";
                 Py.lit "Free Entry"])
  /\ (POI.category_tags poi <> [Py.lit "Event"] ->
      incl (POI.category_tags poi) (POI.interest_tags poi)).
Proof.
  intros H.
  destruct (parse_event_card_fields _ _ _ _ _ H) as (_ & Hcat & Hint & _).
  cbv zeta in Hcat, Hint. rewrite Hcat, Hint.
  set (text := lower _) in *.
  set (tags := match GoTokyoEventScraper.explicit_tags _ with
               | [] => _ | t :: l => _ end) in *.
  clearbody tags text. clear Hcat Hint H.
  pose proof (@add_interest_tags_superset tags text) as Hsup.
  split.
  - intros tag Hin.
    destruct (GoTokyoEventScraper.add_interest_tags tags text) as [|x l] eqn:E.
    + destruct tags as [|t tags']; [now left|].
      specialize (Hsup t (or_introl eq_refl)). contradiction.
    + assert (Hne : GoTokyoEventScraper.add_interest_tags tags text <> [])
        by (rewrite E; discriminate).
      rewrite <- E in Hin. apply (set_or_event_In _ Hne) in Hin.
      apply add_interest_tags_In in Hin as [Hin | Hin]; [|now right].
      left. apply set_or_event_In; [|exact Hin].
      intros ->. contradiction.
  - intros Hne tag Hin.
    destruct tags as [|t tags']; [contradiction Hne; reflexivity|].
    apply (@set_or_event_In (t :: tags') tag ltac:(discriminate)) in Hin.
    apply set_or_event_In.
    + intros E. specialize (Hsup t (or_introl eq_refl)).
      rewrite E in Hsup. contradiction.
    + apply Hsup, Hin.
Qed.

Lemma event_interest_tags_bounds_witness :
  exists poi : POI.t Z,
    GoTokyoEventScraper.parse_event_card Py.ascii_lower Sample.title
      Sample.urljoin Sample.search2 Sample.event_card = Some poi
    /\ incl (POI.category_tags poi) (POI.interest_tags poi).
Proof.
  eexists. split; [vm_compute; reflexivity|].
  refine (proj2 (@event_interest_tags_bounds Z _ Py.ascii_lower
                   Sample.title Sample.urljoin Sample.search2
                   Sample.event_card _ _) _).
  - vm_compute. reflexivity.
  - vm_compute. discriminate.
Defined.

(** X5. When a card has explicit tags the keyword rules are not consulted:
    the category tags are exactly the stripped texts of its tag elements
    that are non-empty and shorter than 50 characters. *)
Theorem explicit_tags_override_rules
        {F : Type} {FL : PyFloat F} (lower title : Py.str -> Py.str)
        (urljoin : Py.str -> Py.str -> Py.str)
        (search2 : pattern2 -> Py.str -> option (Py.str * Py.str))
        (c : GoTokyoEventScraper.card) (poi : POI.t F) :
  GoTokyoEventScraper.parse_event_card lower title urljoin search2 c = Some poi ->
  GoTokyoEventScraper.explicit_tags (GoTokyoEventScraper.tag_texts c) <> [] ->
  forall tag,
    In tag (POI.category_tags poi)
    <-> exists raw,
          In raw (GoTokyoEventScraper.tag_texts c)
          /\ tag = Py.strip raw /\ tag <> [] /\ Py.len tag < 50.
Proof.
  intros H Hexp tag.
  destruct (parse_event_card_fields _ _ _ _ _ H) as (_ & Hcat & _).
  cbv zeta in Hcat. rewrite Hcat.
  destruct (GoTokyoEventScraper.explicit_tags _) as [|t l] eqn:E;
    [contradiction|].
  rewrite set_or_event_In by discriminate. rewrite <- E.
  unfold GoTokyoEventScraper.explicit_tags.
  rewrite filter_In, in_map_iff. split.
  - intros [(raw & <- & Hraw) Hok].
    apply andb_true_iff in Hok as [Hne Hlen].
    exists raw. repeat split; try assumption.
    + intros E0. rewrite E0 in Hne. discriminate.
    + now apply Z.ltb_lt.
  - intros (raw & Hraw & -> & Hne & Hlen). split; [eauto|].
    apply andb_true_iff. split.
    + destruct (Py.strip raw); [contradiction | reflexivity].
    + now apply Z.ltb_lt.
Qed.

Lemma explicit_tags_override_rules_witness :
  exists poi : POI.t Z,
    GoTokyoEventScraper.parse_event_card Py.ascii_lower Sample.title
      Sample.urljoin Sample.search2 Sample.tagged_card = Some poi
    /\ POI.category_tags poi = [Py.lit "Animals"]
    /\ In (Py.lit "Animals") (POI.category_tags poi).
Proof.
  eexists. split; [vm_compute; reflexivity|]. split; [reflexivity|].
  refine (proj2 (@explicit_tags_override_rules Z _ Py.ascii_lower
                   Sample.title Sample.urljoin Sample.search2
                   Sample.tagged_card _ _ _ (Py.lit "Animals")) _).
  - vm_compute. reflexivity.
  - vm_compute. discriminate.
  - exists (Py.lit " Animals "). vm_compute.
    repeat split; try discriminate. now left.
Defined.

(** ** The short description *)

Lemma strip_keeps_stripped_suffix (x date : Py.str) :
  date <> [] -> Py.strip date = date ->
  exists y, Py.strip (x ++ date) = y ++ date.
Proof.
  intros Hne Hfix.
  destruct (strip_ends date) as [E | (c & t & y & e & E & Hc & E' & He)];
    rewrite Hfix in E; [contradiction|].
  rewrite Hfix in E'.
  exists (Py.lstrip x). unfold Py.strip.
  assert (Hl : Py.lstrip (x ++ date) = Py.lstrip x ++ date).
  { rewrite E. now apply lstrip_before_nonspace. }
  rewrite Hl, E', app_assoc. now apply rstrip_nonspace.
Qed.

(** X6. When an event has a date, the short description contains it:
    either the cut description held it already, or it is appended. *)
Theorem short_description_contains_date (description raw_date : Py.str) :
  Py.strip raw_date <> [] ->
  Py.contains (Py.strip raw_date)
    (GoTokyoEventScraper.create_short_description description
       (Py.strip raw_date)) = true.
Proof.
  intros Hne. unfold GoTokyoEventScraper.create_short_description.
  set (t := GoTokyoEventScraper.truncate_description description).
  destruct (Py.contains (Py.strip raw_date) t) eqn:Ec.
  - now rewrite andb_false_r.
  - destruct (Py.strip raw_date) as [|c d] eqn:Ed; [contradiction|].
    cbn [Py.falsy negb andb].
    destruct (@strip_keeps_stripped_suffix (t ++ [32]) (c :: d))
      as [y Hy]; [discriminate | rewrite <- Ed; apply strip_idempotent |].
    rewrite <- app_assoc in Hy. cbn [app] in Hy |- *. rewrite Hy.
    apply contains_suffix.
Qed.

Lemma short_description_contains_date_witness :
  Py.contains (Py.strip (Py.lit " April 5 "))
    (GoTokyoEventScraper.create_short_description
       (Py.lit "Cherry blossoms along the river.")
       (Py.strip (Py.lit " April 5 "))) = true.
Proof.
  refine (@short_description_contains_date
            (Py.lit "Cherry blossoms along the river.") (Py.lit " April 5 ") _).
  vm_compute. discriminate.
Defined.

(** X7. The cut never invents text: what [create_short_description] keeps
    of a description is a prefix of the stripped description, or its first
    200 characters and the ellipsis; likewise [clean_description] with 300
    characters of the text with its spaces collapsed. *)
Theorem cut_description_is_prefix (description : Py.str) :
  (let s := Py.strip description in
   let t := GoTokyoEventScraper.truncate_description description in
   (exists n, t = firstn n s) \/ t = firstn 200 s ++ Py.lit "...")
  /\ (let s := GoTokyoEventsSpider.collapse_spaces
                 (Py.strip description) false in
      let r := GoTokyoEventsSpider.clean_description description in
      (exists n, r = firstn n s) \/ r = firstn 300 s ++ Py.lit "...").
Proof.
  split; cbv zeta.
  - unfold GoTokyoEventScraper.truncate_description.
    destruct (200 <? _).
    + destruct (100 <? _) eqn:E.
      * left. unfold Py.slice_to. rewrite firstn_firstn. eauto.
      * right. reflexivity.
    + left. exists (length (Py.strip description)). now rewrite firstn_all.
  - unfold GoTokyoEventsSpider.clean_description.
    destruct description as [|c d].
    + left. exists 0%nat. reflexivity.
    + cbn [Py.falsy].
      destruct (300 <? _).
      * destruct (150 <? _) eqn:E.
        -- left. unfold Py.slice_to. rewrite firstn_firstn. eauto.
        -- right. reflexivity.
      * left. eexists. now rewrite firstn_all.
Qed.

(** ** The main loop of [scrape_all_events] *)

Section MainLoop.
Context {F : Type}.

Lemma keep_event_split (seen_urls : list Py.str) (event : POI.t F) :
  GoTokyoEventScraper.keep_event seen_urls event
  = negb (str_mem (POI.source_url event) seen_urls)
    && GoTokyoEventScraper.acceptable event.
Proof.
  unfold GoTokyoEventScraper.keep_event, GoTokyoEventScraper.acceptable.
  now rewrite !andb_assoc.
Qed.

Lemma add_events_first_seen (events : list (POI.t F)) :
  forall all_events seen_urls,
    fst (fold_left (@GoTokyoEventScraper.add_event F) events
                   (all_events, seen_urls))
    = all_events
        ++ GoTokyoEventScraper.first_seen seen_urls
             (filter (@GoTokyoEventScraper.acceptable F) events).
Proof.
  induction events as [|e events IH]; intros all_events seen_urls; simpl.
  - now rewrite app_nil_r.
  - rewrite keep_event_split.
    destruct (GoTokyoEventScraper.acceptable e); simpl.
    + destruct (str_mem (POI.source_url e) seen_urls); simpl.
      * apply IH.
      * rewrite IH, <- app_assoc. reflexivity.
    + rewrite andb_false_r. apply IH.
Qed.


Lemma first_seen_complete (events : list (POI.t F)) :
  forall seen_urls e,
    In e events ->
    In (POI.source_url e) seen_urls
    \/ exists e', In e' (GoTokyoEventScraper.first_seen seen_urls events)
                  /\ POI.source_url e' = POI.source_url e.
Proof.
  induction events as [|x events IH]; intros seen_urls e; simpl; [tauto|].
  destruct (str_mem (POI.source_url x) seen_urls) eqn:Em.
  - intros [<- | Hin]; [left; now apply str_mem_In | now apply IH].
  - intros [<- | Hin]; [right; exists x; split; [now left | reflexivity]|].
    destruct (IH (POI.source_url x :: seen_urls) e Hin)
      as [[E | Hs] | (e' & He' & E)].
    + right. exists x. split; [now left | exact E].
    + now left.
    + right. exists e'. split; [now right | exact E].
Qed.

End MainLoop.

Lemma nested_fold_flat_map {A B S : Type} (f : S -> B -> S) (g : A -> list B)
      (l : list A) :
  forall st,
    fold_left (fun st a => fold_left f (g a) st) l st
    = fold_left f (flat_map g l) st.
Proof.
  induction l as [|a l IH]; intros st; simpl; [reflexivity|].
  now rewrite fold_left_app, IH.
Qed.

(** The main loop as a function of the stream of the events of the listed
    pages. *)
Lemma scrape_listed_stream
      {F : Type} {FL : PyFloat F} (lower title : Py.str -> Py.str)
      (urljoin : Py.str -> Py.str -> Py.str)
      (search2 : pattern2 -> Py.str -> option (Py.str * Py.str))
      (fetch : Py.str -> option (list GoTokyoEventScraper.card))
      (urls : list Py.str) :
  fst (GoTokyoEventScraper.scrape_listed lower title urljoin search2 fetch urls)
  = GoTokyoEventScraper.first_seen []
      (filter (@GoTokyoEventScraper.acceptable F)
         (flat_map (GoTokyoEventScraper.scrape_events_page
                      lower title urljoin search2 fetch) urls)).
Proof.
  unfold GoTokyoEventScraper.scrape_listed.
  rewrite nested_fold_flat_map. apply (add_events_first_seen _ [] []).
Qed.

(** X8. The main loop is "first seen wins": over the stream of the events
    of the listed pages, in order, it keeps those that pass the quality
    conditions, each source URL once, at its first occurrence; so no
    source URL of an event that passes them is lost. *)
Theorem scrape_listed_is_first_seen
        {F : Type} {FL : PyFloat F} (lower title : Py.str -> Py.str)
        (urljoin : Py.str -> Py.str -> Py.str)
        (search2 : pattern2 -> Py.str -> option (Py.str * Py.str))
        (fetch : Py.str -> option (list GoTokyoEventScraper.card))
        (urls : list Py.str) :
  let stream := flat_map (GoTokyoEventScraper.scrape_events_page
                            lower title urljoin search2 fetch) urls in
  let kept := fst (GoTokyoEventScraper.scrape_listed
                     lower title urljoin search2 fetch urls) in
  kept = GoTokyoEventScraper.first_seen []
           (filter (@GoTokyoEventScraper.acceptable F) stream)
  /\ (forall e, In e stream -> GoTokyoEventScraper.acceptable e = true ->
                exists e', In e' kept
                           /\ POI.source_url e' = POI.source_url e).
Proof.
  cbv zeta. rewrite scrape_listed_stream. split; [reflexivity|].
  intros e Hin Hacc.
  destruct (@first_seen_complete F
              (filter (@GoTokyoEventScraper.acceptable F)
                 (flat_map (GoTokyoEventScraper.scrape_events_page
                              lower title urljoin search2 fetch) urls))
              [] e) as [[] | H]; [|exact H].
  apply filter_In. now split.
Qed.


(** X10. At most five additional pages are scraped, no page twice, and
    never the events page again. *)
Theorem additional_urls_bounds (urljoin : Py.str -> Py.str -> Py.str)
        (pagination_hrefs : list Py.str) :
  (length (GoTokyoEventScraper.additional_urls urljoin pagination_hrefs) <= 5)%nat
  /\ NoDup (GoTokyoEventScraper.additional_urls urljoin pagination_hrefs)
  /\ ~ In GoTokyoEventScraper.events_url
          (GoTokyoEventScraper.additional_urls urljoin pagination_hrefs).
Proof.
  unfold GoTokyoEventScraper.additional_urls.
  assert (G : forall hrefs acc,
             NoDup acc -> ~ In GoTokyoEventScraper.events_url acc ->
             let r := fold_left
                        (fun acc href =>
                           if Py.falsy href then acc
                           else if str_mem
                                     (urljoin GoTokyoEventScraper.base_url href)
                                     (GoTokyoEventScraper.events_url :: acc)
                                then acc
                                else acc ++ [urljoin GoTokyoEventScraper.base_url
                                               href])
                        hrefs acc in
             (length r <= length acc + length hrefs)%nat
             /\ NoDup r /\ ~ In GoTokyoEventScraper.events_url r).
  { induction hrefs as [|h hrefs IH]; intros acc Hnd Hev; cbn [fold_left length].
    - split; [lia | split; assumption].
    - destruct (Py.falsy h).
      + destruct (IH acc Hnd Hev) as (Hl & Hn & He).
        split; [etransitivity; [exact Hl | lia] | split; assumption].
      + destruct (str_mem (urljoin GoTokyoEventScraper.base_url h)
                          (GoTokyoEventScraper.events_url :: acc)) eqn:Em.
        * destruct (IH acc Hnd Hev) as (Hl & Hn & He).
          split; [etransitivity; [exact Hl | lia] | split; assumption].
        * assert (Hnot : ~ In (urljoin GoTokyoEventScraper.base_url h)
                           (GoTokyoEventScraper.events_url :: acc)).
          { intros Hin. apply str_mem_In in Hin. congruence. }
          destruct (IH (acc ++ [urljoin GoTokyoEventScraper.base_url h]))
            as (Hl & Hn & He).
          -- apply NoDup_app; [assumption | constructor; [intros []|constructor]|].
             intros a Ha [<- | []]. apply Hnot. now right.
          -- intros Hin. apply in_app_or in Hin as [Hin | [Hin | []]];
               [now apply Hev | apply Hnot; left; now symmetry].
          -- rewrite length_app in Hl. cbn [length] in Hl.
             split; [etransitivity; [exact Hl | lia] | split; assumption]. }
  destruct (G (firstn 5 pagination_hrefs) [] (NoDup_nil _) (fun H => H))
    as (Hl & Hn & He).
  split; [|split; assumption].
  rewrite length_firstn in Hl. cbn [length] in Hl.
  etransitivity; [exact Hl | lia].
Qed.


(** ** The restaurant scraper: enrichment and the category loop *)

Section Category.
Context {F : Type} {FL : PyFloat F}.
Variable lower : Py.str -> Py.str.
Variable urljoin : Py.str -> Py.str -> Py.str.
Variable search1 : pattern1 -> Py.str -> option Py.str.
Variable search2 : pattern2 -> Py.str -> option (Py.str * Py.str).

Lemma update_poi_id (poi : POI.t F) (det : option (TabelogScraper.details (F := F))) :
  POI.id (TabelogScraper.update_poi poi det) = POI.id poi.
Proof. destruct det; reflexivity. Qed.

(** The loop over the items of a list page only appends; it stops at the
    limit; and it keeps the ids distinct. *)
Lemma scrape_items_spec (category_name : Py.str) (limit : Z)
      (list_items : list TabelogScraper.card) :
  forall items : list (POI.t F),
    let r := TabelogScraper.scrape_items lower urljoin search1 search2
               category_name limit list_items items in
    (exists added, r = items ++ added)
    /\ (Z.of_nat (length items) < limit -> Z.of_nat (length r) <= limit)
    /\ (NoDup (map (@POI.id F) items) -> NoDup (map (@POI.id F) r)).
Proof.
  induction list_items as [|item rest IH]; intros items; cbv zeta;
    cbn [TabelogScraper.scrape_items].
  - split; [exists []; now rewrite app_nil_r | split; [lia | auto]].
  - destruct (TabelogScraper.parse_restaurant_card urljoin search1 item
                category_name) as [poi|]; [|apply IH].
    destruct (existsb _ items) eqn:Ex; [apply IH|].
    set (poi' := TabelogScraper.update_poi poi _).
    assert (Hnd : NoDup (map (@POI.id F) items) ->
                  NoDup (map (@POI.id F) (items ++ [poi']))).
    { intros H. rewrite map_app. simpl.
      apply NoDup_app; [exact H | constructor; [intros []|constructor] |].
      intros i Hi [E | []]. apply in_map_iff in Hi as (x & Hx & Hin).
      assert (Hex : existsb (fun x => Py.str_eqb (POI.id x) (POI.id poi)) items
                    = true).
      { apply existsb_exists. exists x. split; [exact Hin|].
        apply str_eqb_eq. rewrite Hx, <- E. apply update_poi_id. }
      congruence. }
    destruct (limit <=? Z.of_nat (length (items ++ [poi']))) eqn:El.
    + split; [eauto | split; [|exact Hnd]].
      intros Hlen. rewrite length_app. cbn [length].
      apply Z.leb_le in El. lia.
    + destruct (IH (items ++ [poi'])) as ((added & Ha) & Hb & Hc).
      cbv zeta in Ha, Hb, Hc. split; [|split].
      * exists (poi' :: added). rewrite Ha, <- app_assoc. reflexivity.
      * intros _. apply Hb. apply Z.leb_gt in El. lia.
      * intros H. apply Hc, Hnd, H.
Qed.

Lemma scrape_pages_spec (category_name : Py.str) (limit : Z)
      (pages : list (option (TabelogScraper.listing))) :
  forall items : list (POI.t F),
    let r := TabelogScraper.scrape_pages lower urljoin search1 search2
               category_name limit pages items in
    (Z.of_nat (length items) <= limit -> Z.of_nat (length r) <= limit)
    /\ (NoDup (map (@POI.id F) items) -> NoDup (map (@POI.id F) r)).
Proof.
  induction pages as [|[page|] rest IH]; intros items; cbv zeta;
    cbn [TabelogScraper.scrape_pages];
    destruct (limit <=? Z.of_nat (length items)) eqn:El; auto.
  destruct (TabelogScraper.list_items page) as [|i l] eqn:Ei; [auto|].
  destruct (@scrape_items_spec category_name limit (i :: l) items)
    as (_ & Hb & Hc). cbv zeta in Hb, Hc.
  apply Z.leb_gt in El.
  destruct (TabelogScraper.has_next page); [|split; auto].
  destruct (IH (TabelogScraper.scrape_items lower urljoin search1 search2
                  category_name limit (i :: l) items)) as (Hb' & Hc').
  cbv zeta in Hb', Hc'. split; auto.
Qed.

End Category.

(** X11. A category gives at most [limit] restaurants, and no two of them
    with the same id, however many list pages there are and whatever they
    hold. *)
Theorem scrape_category_bounded_distinct
        {F : Type} {FL : PyFloat F} (lower : Py.str -> Py.str)
        (urljoin : Py.str -> Py.str -> Py.str)
        (search1 : pattern1 -> Py.str -> option Py.str)
        (search2 : pattern2 -> Py.str -> option (Py.str * Py.str))
        (category_name : Py.str)
        (pages : list (option TabelogScraper.listing)) (limit : Z) :
  let r := TabelogScraper.scrape_category (F := F) lower urljoin search1
             search2 category_name pages limit in
  Z.of_nat (length r) <= Z.max 0 limit
  /\ NoDup (map (@POI.id F) r).
Proof.
  cbv zeta. unfold TabelogScraper.scrape_category.
  destruct (@scrape_pages_spec F FL lower urljoin search1 search2
              category_name limit pages []) as (Hb & Hc).
  cbv zeta in Hb, Hc. split; [|apply Hc; constructor].
  destruct (Z.le_gt_cases 0 limit) as [Hl | Hl].
  - specialize (Hb Hl). lia.
  - destruct pages as [|[p|] rest]; cbn [TabelogScraper.scrape_pages];
      destruct (limit <=? Z.of_nat (@length (POI.t F) [])) eqn:E;
      try (simpl; lia);
      apply Z.leb_gt in E; simpl in E; lia.
Qed.

(** X12. Reading the detail page never erases what the list page gave: the
    id, name, type, tags and source URL are kept, a price tier is only
    replaced by a price tier, a description only by a non-empty text, and
    coordinates only by coordinates whose latitude is truthy. *)
Theorem update_poi_keeps_populated_fields
        {F : Type} {FL : PyFloat F} (lower : Py.str -> Py.str)
        (search1 : pattern1 -> Py.str -> option Py.str)
        (search2 : pattern2 -> Py.str -> option (Py.str * Py.str))
        (poi : POI.t F) (page : option TabelogScraper.detail_page) :
  let r := TabelogScraper.update_poi poi
             (TabelogScraper.parse_detail_page lower search1 search2 page) in
  POI.id r = POI.id poi /\ POI.name r = POI.name poi
  /\ POI.type r = POI.type poi /\ POI.source_url r = POI.source_url poi
  /\ POI.category_tags r = POI.category_tags poi
  /\ POI.interest_tags r = POI.interest_tags poi
  /\ (POI.price_range poi <> None -> POI.price_range r <> None)
  /\ (POI.short_description poi <> [] -> POI.short_description r <> [])
  /\ (POI.coordinates r = POI.coordinates poi
      \/ exists la, POI.lat (POI.coordinates r) = Some la
                    /\ float_truthy la = true).
Proof.
  cbv zeta.
  destruct (TabelogScraper.parse_detail_page lower search1 search2 page)
    as [d|] eqn:Ed; cbn [TabelogScraper.update_poi].
  2: { repeat split; auto. }
  cbn [POI.id POI.name POI.type POI.source_url POI.category_tags
       POI.interest_tags POI.price_range POI.short_description
       POI.coordinates].
  repeat split.
  - destruct (TabelogScraper.truthy_text _); [|auto].
    destruct (TabelogScraper.parse_price _); [discriminate | auto].
  - destruct (Py.falsy (TabelogScraper.d_generated_description d)) eqn:Eg;
      cbn [negb].
    + unfold TabelogScraper.truthy_text.
      destruct (TabelogScraper.d_remarks d) as [[|c r]|]; auto. discriminate.
    + intros _ E. rewrite E in Eg. discriminate.
  - destruct (TabelogScraper.d_coordinates d) as [c|] eqn:Ec; [|now left].
    right. revert Ed. unfold TabelogScraper.parse_detail_page.
    destruct page as [p|]; [|discriminate].
    destruct (TabelogScraper.get_lat_lon search1 search2 p) as [co|];
      [|discriminate].
    intros H. injection H as <-. cbn [TabelogScraper.d_coordinates] in Ec.
    destruct (POI.lat co) as [la|] eqn:El; [|discriminate].
    destruct (float_truthy la) eqn:Et; [|discriminate].
    injection Ec as <-. eauto.
Qed.

(** ** [clean_text] *)

(** A word: not empty and without space characters. *)
Lemma split_ws_words (s : Py.str) :
  forall cur,
    forallb (fun c => negb (Py.isspace c)) cur = true ->
    Forall (fun w => w <> [] /\ forallb (fun c => negb (Py.isspace c)) w = true)
           (TabelogScraper.split_ws s cur).
Proof.
  assert (Hrev : forall cur,
             forallb (fun c => negb (Py.isspace c)) cur = true ->
             forallb (fun c => negb (Py.isspace c)) (rev cur) = true).
  { intros cur H. apply forallb_forall. intros x Hx.
    apply in_rev in Hx. revert x Hx. now apply forallb_forall. }
  assert (Hne : forall (c : Z) cur, rev (c :: cur) <> []).
  { intros c cur E. apply (f_equal (@length Z)) in E.
    rewrite length_rev in E. discriminate. }
  induction s as [|c s IH]; intros cur Hcur; simpl.
  - destruct cur as [|x cur]; constructor; [|constructor].
    split; [apply Hne | now apply Hrev].
  - destruct (Py.isspace c) eqn:Ec.
    + destruct cur as [|x cur]; [now apply IH|].
      constructor; [|now apply IH].
      split; [apply Hne | now apply Hrev].
    + apply IH. simpl. now rewrite Ec.
Qed.

Lemma split_ws_app_word (w s : Py.str) :
  forallb (fun c => negb (Py.isspace c)) w = true ->
  forall cur,
    TabelogScraper.split_ws (w ++ s) cur
    = TabelogScraper.split_ws s (rev w ++ cur).
Proof.
  induction w as [|c w IH]; intros Hw cur; [reflexivity|].
  simpl in Hw. apply andb_true_iff in Hw as [Hc Hw].
  apply negb_true_iff in Hc. simpl. rewrite Hc, (IH Hw).
  now rewrite <- app_assoc.
Qed.

Lemma split_ws_join (words : list Py.str) :
  Forall (fun w => w <> [] /\ forallb (fun c => negb (Py.isspace c)) w = true)
         words ->
  TabelogScraper.split_ws (Py.join [32] words) [] = words.
Proof.
  induction 1 as [|w words [Hne Hw] Hwords IH]; [reflexivity|].
  assert (Hrev : rev w <> []).
  { intros E. apply (f_equal (@rev Z)) in E. rewrite rev_involutive in E.
    contradiction. }
  destruct words as [|w2 rest].
  - cbn [Py.join]. rewrite <- (app_nil_r w) at 1.
    rewrite (@split_ws_app_word w [] Hw), app_nil_r.
    cbn [TabelogScraper.split_ws].
    destruct (rev w) eqn:E; [contradiction|].
    now rewrite <- E, rev_involutive.
  - change (Py.join [32] (w :: w2 :: rest))
      with (w ++ [32] ++ Py.join [32] (w2 :: rest)).
    rewrite (@split_ws_app_word w _ Hw), app_nil_r.
    cbn [app TabelogScraper.split_ws].
    change (Py.isspace 32) with true. cbv iota.
    destruct (rev w) eqn:E; [contradiction|].
    now rewrite <- E, rev_involutive, IH.
Qed.

Lemma join_words_stripped (words : list Py.str) :
  Forall (fun w => w <> [] /\ forallb (fun c => negb (Py.isspace c)) w = true)
         words ->
  Py.strip (Py.join [32] words) = Py.join [32] words.
Proof.
  intros H. destruct words as [|w words]; [reflexivity|].
  assert (Hlast : exists y e, Py.join [32] (w :: words) = y ++ [e]
                              /\ Py.isspace e = false).
  { clear - H. revert w H. induction words as [|w2 rest IH]; intros w H.
    - inversion H as [|? ? [Hne Hw] _]; subst. cbn [Py.join].
      destruct (exists_last Hne) as (y & e & ->). exists y, e.
      split; [reflexivity|].
      rewrite forallb_app in Hw. apply andb_true_iff in Hw as [_ Hw].
      simpl in Hw. rewrite andb_true_r in Hw. now apply negb_true_iff.
    - inversion H as [|? ? _ H']; subst.
      destruct (IH w2 H') as (y & e & Hy & He).
      exists (w ++ [32] ++ y), e. split; [|exact He].
      cbn [Py.join] in *. rewrite Hy. now rewrite <- !app_assoc. }
  assert (Hfirst : exists c t, Py.join [32] (w :: words) = c :: t
                               /\ Py.isspace c = false).
  { inversion H as [|? ? [Hne Hw] _]; subst.
    destruct w as [|c w]; [contradiction|].
    simpl in Hw. apply andb_true_iff in Hw as [Hc _].
    apply negb_true_iff in Hc.
    destruct words; cbn [Py.join]; eexists; eexists; split;
      try exact Hc; reflexivity. }
  destruct Hlast as (y & e & Hy & He).
  destruct Hfirst as (c & t & Ht & Hc).
  rewrite Ht. apply (@strip_fixed c e t y Hc He). now rewrite <- Ht.
Qed.

(** X13. [clean_text] gives a text in normal form: stripped, its words
    separated by single spaces; cleaning it again changes nothing. *)
Theorem clean_text_normal_form (text : option Py.str) :
  let r := TabelogScraper.clean_text text in
  TabelogScraper.clean_text (Some r) = r
  /\ Py.strip r = r
  /\ Py.join [32] (TabelogScraper.split_ws r []) = r.
Proof.
  cbv zeta.
  assert (Hr : exists words,
             Forall (fun w => w <> []
                              /\ forallb (fun c => negb (Py.isspace c)) w = true)
                    words
             /\ TabelogScraper.clean_text text = Py.join [32] words).
  { unfold TabelogScraper.clean_text.
    destruct text as [t|]; [|exists []; split; [constructor | reflexivity]].
    destruct (Py.falsy t); [exists []; split; [constructor | reflexivity]|].
    eexists. split; [|reflexivity]. now apply split_ws_words. }
  destruct Hr as (words & Hw & ->).
  assert (Hs : Py.strip (Py.join [32] words) = Py.join [32] words)
    by now apply join_words_stripped.
  assert (Hj : TabelogScraper.split_ws (Py.join [32] words) [] = words)
    by now apply split_ws_join.
  split; [|split; [exact Hs | now rewrite Hj]].
  unfold TabelogScraper.clean_text.
  destruct (Py.falsy (Py.join [32] words)) eqn:Ef.
  - destruct (Py.join [32] words); [reflexivity | discriminate].
  - now rewrite Hs, Hj.
Qed.

Example clean_text_example :
  TabelogScraper.clean_text
    (Some ([32; 10] ++ Py.lit "Sushi   Dai" ++ [9; 12288] ++ Py.lit "Tsukiji "))
  = Py.lit "Sushi Dai Tsukiji".
Proof. vm_compute. reflexivity. Qed.

(** ** The pipelines *)

Lemma md5_hex12_length (s id : Py.str) :
  md5_hex12 s = Some id -> length id = 12%nat.
Proof.
  unfold md5_hex12. destruct (Py.encode_utf8 s) as [bytes|]; [|discriminate].
  intros H.
  assert (E : id = firstn 12 (MD5.hexdigest bytes)) by congruence.
  now rewrite E, length_firstn, hexdigest_length.
Qed.

Lemma truthy_str_length (o : option Py.str) (s : Py.str) :
  o = Some s -> (0 < length s)%nat -> truthy_str o = true.
Proof. intros -> H. destruct s; [simpl in H; lia | reflexivity]. Qed.

Section Normalisation.
Context {F : Type}.
Variable lower : Py.str -> Py.str.

(** What the normalisation pipeline makes of an item. *)
Lemma normalised_fields (item it : POIItem.t F) :
  POINormalizationPipeline.process_item lower (Some item) = Ret it ->
  truthy_str (POIItem.id it) = true
  /\ (truthy_str (POIItem.id item) = true -> POIItem.id it = POIItem.id item)
  /\ POIItem.name it = POIItem.name item
  /\ POIItem.type it
     = (if str_mem
             (Py.strip (lower (match POIItem.type item with
                               | Some t => t
                               | None => []
                               end)))
             POINormalizationPipeline.valid_types
        then POIItem.type item
        else Some (Py.lit "event_venue"))
  /\ POIItem.category_tags it
     = POINormalizationPipeline.clean_tags (POIItem.category_tags item)
  /\ POIItem.interest_tags it
     = POINormalizationPipeline.clean_tags (POIItem.interest_tags item)
  /\ truthy_str (POIItem.neighborhood it) = true
  /\ truthy_str (POIItem.halal it) = true
  /\ POIItem.price_range it <> Some 0
  /\ POIItem.cuisine it <> Some []
  /\ (exists c, POIItem.coordinates it = Some c)
  /\ (exists d, POIItem.typical_duration_minutes it = Some d /\ d <> 0
                /\ (POIItem.typical_duration_minutes item = Some d
                    \/ d = 90 \/ d = 180)).
Proof.
  unfold POINormalizationPipeline.process_item.
  destruct (truthy_str (POIItem.id item)) eqn:Eid.
  2: destruct (POINormalizationPipeline.generate_id _ _) as [i|] eqn:Eg;
       [|discriminate].
  all: intros H; injection H as <-;
    cbn [POIItem.id POIItem.name POIItem.type POIItem.category_tags
         POIItem.interest_tags POIItem.neighborhood POIItem.halal
         POIItem.price_range POIItem.cuisine POIItem.coordinates
         POIItem.typical_duration_minutes].
  all: split; [first [exact Eid
                     | apply (@truthy_str_length _ i eq_refl);
                       unfold POINormalizationPipeline.generate_id in Eg;
                       rewrite (md5_hex12_length _ Eg); lia]|].
  all: split; [first [reflexivity | discriminate]|].
  all: split; [reflexivity|]. all: split; [reflexivity|].
  all: split; [reflexivity|]. all: split; [reflexivity|].
  all: split; [now destruct (truthy_str (POIItem.neighborhood item)) eqn:E|].
  all: split; [now destruct (truthy_str (POIItem.halal item)) eqn:E|].
  all: split; [destruct (POIItem.price_range item) as [p|];
               [destruct (Z.eqb_spec p 0); congruence | discriminate]|].
  all: split; [destruct (POIItem.cuisine item) as [[|c l]|]; discriminate|].
  all: split; [destruct (POIItem.coordinates item); eauto|].
  all: assert (Hd : forall tags,
                  POINormalizationPipeline.duration_of lower tags <> 0
                  /\ (POINormalizationPipeline.duration_of lower tags = 90
                      \/ POINormalizationPipeline.duration_of lower tags = 180))
    by (intros tags; unfold POINormalizationPipeline.duration_of;
        destruct (existsb _ _); split; try discriminate; auto).
  all: destruct (POIItem.typical_duration_minutes item) as [d|];
    [destruct (Z.eqb_spec d 0)|];
    eexists; (split; [reflexivity|]);
    first [split; [assumption | now left]
          | split; [apply Hd | right; apply Hd]].
Qed.

Lemma through_pipelines_inv (item it : POIItem.t F) :
  through_pipelines lower item = Some it ->
  ValidationPipeline.process_item item = Some item
  /\ POINormalizationPipeline.process_item lower (Some item) = Ret it.
Proof.
  unfold through_pipelines, FieldOrderPipeline.process_item.
  destruct (ValidationPipeline.process_item item) as [it0|] eqn:Ev;
    [|discriminate].
  destruct (validation_accepts _ Ev) as (-> & _).
  destruct (POINormalizationPipeline.process_item lower (Some item));
    [|discriminate].
  intros H. injection H as <-. auto.
Qed.

(** The exported list is the list of the items that get through, in the
    order in which they were scraped. *)
Lemma exported_flat_map (scraped : list (POIItem.t F)) :
  exported lower scraped
  = flat_map (fun item : POIItem.t F =>
                match through_pipelines lower item with
                | Some it => [it]
                | None => @nil (POIItem.t F)
                end) scraped.
Proof.
  unfold exported.
  assert (G : forall l acc,
             fold_left (process_scraped lower) l acc
             = acc ++ flat_map (fun item : POIItem.t F =>
                                  match through_pipelines lower item with
                                  | Some it => [it]
                                  | None => @nil (POIItem.t F)
                                  end) l).
  { induction l as [|x l IH]; intros acc; simpl; [now rewrite app_nil_r|].
    rewrite IH. unfold process_scraped, JSONExportPipeline.process_item.
    destruct (through_pipelines lower x);
      [now rewrite <- app_assoc | reflexivity]. }
  apply (G scraped []).
Qed.

End Normalisation.

Lemma validation_iff {F : Type} (item : POIItem.t F) :
  ValidationPipeline.process_item item = Some item
  <-> truthy_str (POIItem.id item) = true
      /\ truthy_str (POIItem.name item) = true
      /\ truthy_str (POIItem.type item) = true
      /\ 3 <= Py.len (Py.strip (match POIItem.name item with
                                 | Some n => n
                                 | None => []
                                 end)).
Proof.
  unfold ValidationPipeline.process_item.
  destruct (truthy_str (POIItem.id item)),
           (truthy_str (POIItem.name item)),
           (truthy_str (POIItem.type item)); simpl;
    try (split; [discriminate | intros (? & ? & ? & ?); discriminate]).
  destruct (Z.ltb_spec (Py.len (Py.strip match POIItem.name item with
                                          | Some n => n
                                          | None => []
                                          end)) 3).
  - split; [discriminate | intros (_ & _ & _ & ?); lia].
  - split; auto.
Qed.

(** X14. Every exported item would pass validation again, and has its
    defaults in place: a non-empty neighborhood and halal value, a pair of
    coordinates, a duration that is not 0, no price of 0, no empty cuisine
    list, and tag fields that are no strings. *)
Theorem exported_items_are_complete
        {F : Type} (lower : Py.str -> Py.str)
        (scraped : list (POIItem.t F)) (it : POIItem.t F) :
  In it (exported lower scraped) ->
  ValidationPipeline.process_item it = Some it
  /\ truthy_str (POIItem.neighborhood it) = true
  /\ truthy_str (POIItem.halal it) = true
  /\ (exists c, POIItem.coordinates it = Some c)
  /\ (exists d, POIItem.typical_duration_minutes it = Some d /\ d <> 0)
  /\ POIItem.price_range it <> Some 0
  /\ POIItem.cuisine it <> Some []
  /\ (forall s, POIItem.category_tags it <> Some (TagStr s))
  /\ (forall s, POIItem.interest_tags it <> Some (TagStr s)).
Proof.
  rewrite exported_flat_map. intros Hin.
  apply in_flat_map in Hin as (item & _ & Hit).
  destruct (through_pipelines lower item) as [it'|] eqn:Et; [|contradiction].
  destruct Hit as [-> | []].
  destruct (through_pipelines_inv _ _ Et) as (Hv & Hn).
  destruct (normalised_fields _ _ Hn)
    as (Hid & _ & Hname & Hty & Hcat & Hint & Hnb & Hh & Hp & Hcu & Hco & Hd).
  apply validation_iff in Hv as (_ & Hvn & Hvt & Hlen).
  assert (Hclean : forall tags s,
             POINormalizationPipeline.clean_tags tags <> Some (TagStr s)).
  { intros [[s'|l|]|] s; discriminate. }
  repeat split; try assumption.
  - apply validation_iff. rewrite Hname. repeat split; try assumption.
    rewrite Hty. destruct (str_mem _ _); [exact Hvt | reflexivity].
  - destruct Hd as (d & Hd & Hz & _). eauto.
  - rewrite Hcat. apply Hclean.
  - rewrite Hint. apply Hclean.
Qed.

Lemma exported_items_are_complete_witness :
  exists it,
    In it (exported Py.ascii_lower [Sample.untyped_item; Sample.museum_item])
    /\ ValidationPipeline.process_item it = Some it.
Proof.
  eexists. split; [vm_compute; left; reflexivity|].
  refine (proj1 (@exported_items_are_complete Z Py.ascii_lower
                   [Sample.untyped_item; Sample.museum_item] _ _)).
  vm_compute. left. reflexivity.
Defined.

(** X15. The export treats each item on its own: the exported list of a
    run is the concatenation of the exported lists of its parts, in
    scraping order, and never longer than what was scraped. *)
Theorem exported_is_compositional
        {F : Type} (lower : Py.str -> Py.str)
        (first_part second_part : list (POIItem.t F)) :
  exported lower (first_part ++ second_part)
  = exported lower first_part ++ exported lower second_part
  /\ (length (exported lower first_part) <= length first_part)%nat.
Proof.
  rewrite !exported_flat_map, flat_map_app. split; [reflexivity|].
  induction first_part as [|x l IH]; simpl; [lia|].
  rewrite length_app. destruct (through_pipelines lower x); simpl; lia.
Qed.

(** X16. Normalising a normalised item changes nothing, provided
    lowercasing leaves "event_venue" as it is. *)
Theorem normalisation_is_idempotent
        {F : Type} (lower : Py.str -> Py.str) (item it : POIItem.t F) :
  lower (Py.lit "event_venue") = Py.lit "event_venue" ->
  POINormalizationPipeline.process_item lower (Some item) = Ret it ->
  POINormalizationPipeline.process_item lower (Some it) = Ret it.
Proof.
  intros Hlow Hn.
  destruct (normalised_fields _ _ Hn)
    as (Hid & _ & _ & Hty & Hcat & Hint & Hnb & Hh & Hp & Hcu & (c & Hco)
        & (d & Hd & Hz & _)).
  assert (Hclean : forall tags,
             POINormalizationPipeline.clean_tags
               (POINormalizationPipeline.clean_tags tags)
             = POINormalizationPipeline.clean_tags tags).
  { intros [[s|l|]|]; reflexivity. }
  assert (Htype :
            (if str_mem
                  (Py.strip (lower (match POIItem.type it with
                                    | Some t => t
                                    | None => []
                                    end)))
                  POINormalizationPipeline.valid_types
             then POIItem.type it
             else Some (Py.lit "event_venue")) = POIItem.type it).
  { rewrite Hty.
    destruct (str_mem _ POINormalizationPipeline.valid_types) eqn:Em.
    - now rewrite Em.
    - rewrite Hlow. reflexivity. }
  destruct it as [id name type cat nb int pr halal cui coord dur bt sd url].
  cbn [POIItem.id POIItem.name POIItem.type POIItem.category_tags
       POIItem.interest_tags POIItem.neighborhood POIItem.halal
       POIItem.price_range POIItem.cuisine POIItem.coordinates
       POIItem.typical_duration_minutes] in *.
  unfold POINormalizationPipeline.process_item.
  cbn [POIItem.id POIItem.name POIItem.type POIItem.category_tags
       POIItem.interest_tags POIItem.neighborhood POIItem.halal
       POIItem.price_range POIItem.cuisine POIItem.coordinates
       POIItem.typical_duration_minutes POIItem.best_time_of_day
       POIItem.short_description POIItem.source_url].
  rewrite Hid, Htype, Hnb, Hh, Hco, Hd.
  rewrite Hcat at 1. rewrite Hint at 1. rewrite !Hclean, <- Hcat, <- Hint.
  destruct (Z.eqb_spec d 0) as [|_]; [contradiction|].
  f_equal. f_equal.
  - destruct pr as [p|]; [|reflexivity].
    destruct (Z.eqb_spec p 0); [congruence | reflexivity].
  - destruct cui as [[|x l]|]; try reflexivity. contradiction.
Qed.

Lemma normalisation_is_idempotent_witness :
  exists it,
    POINormalizationPipeline.process_item Py.ascii_lower
      (Some Sample.museum_item) = Ret it
    /\ POINormalizationPipeline.process_item Py.ascii_lower (Some it) = Ret it.
Proof.
  eexists. split; [vm_compute; reflexivity|].
  refine (@normalisation_is_idempotent Z Py.ascii_lower Sample.museum_item
            _ _ _); vm_compute; reflexivity.
Defined.

(** ** The spider and the pipelines together *)

Lemma first_texts_stripped (candidates : list (list Py.str)) (text : Py.str) :
  GoTokyoEventsSpider.first_texts candidates = Some text ->
  Py.strip text = text.
Proof.
  unfold GoTokyoEventsSpider.first_texts.
  destruct (find _ candidates); [|discriminate].
  intros H. injection H as <-. apply strip_idempotent.
Qed.

(** X17. An item the spider builds from a card always passes validation,
    and leaves the pipelines with its id and with the type "event_venue",
    provided lowercasing leaves "event_venue" as it is. *)
Theorem spider_items_pass_validation
        {F : Type} (lower : Py.str -> Py.str)
        (urljoin : Py.str -> Py.str -> Py.str)
        (element : GoTokyoEventsSpider.card) (url : Py.str)
        (item : POIItem.t F) :
  lower (Py.lit "event_venue") = Py.lit "event_venue" ->
  GoTokyoEventsSpider.parse_event_card lower urljoin element url = Some item ->
  ValidationPipeline.process_item item = Some item
  /\ exists it,
       through_pipelines lower item = Some it
       /\ POIItem.id it = POIItem.id item
       /\ POIItem.type it = Some (Py.lit "event_venue").
Proof.
  intros Hlow Hcard.
  assert (Hfields :
            truthy_str (POIItem.id item) = true
            /\ POIItem.type item = Some (Py.lit "event_venue")
            /\ exists name, POIItem.name item = Some name
                            /\ Py.strip name = name /\ 3 <= Py.len name).
  { revert Hcard. unfold GoTokyoEventsSpider.parse_event_card.
    destruct (GoTokyoEventsSpider.link element) as [l|]; [|discriminate].
    destruct (Py.falsy l); [discriminate|].
    destruct (md5_hex12 _) as [poi_id|] eqn:Eid; [|discriminate].
    destruct (GoTokyoEventsSpider.first_texts _) as [name|] eqn:En;
      [|discriminate].
    destruct (Py.falsy name) eqn:Ef; [discriminate|].
    destruct (Z.ltb_spec (Py.len name) 3) as [|Hlen]; [discriminate|].
    cbn [orb]. intros H. injection H as <-.
    cbn [POIItem.id POIItem.name POIItem.type].
    pose proof (first_texts_stripped _ En) as Hs.
    pose proof (md5_hex12_length _ Eid) as Hl.
    unfold POIItemLoader.load, POIItemLoader.identity, POIItemLoader.name_in,
      POIItemLoader.type_in, POIItemLoader.MapCompose.
    cbn [map POIItemLoader.TakeFirst].
    rewrite Hs, Ef.
    change (Py.strip (Py.lit "event_venue")) with (Py.lit "event_venue").
    rewrite Hlow.
    destruct poi_id as [|x poi_id]; [discriminate Hl|].
    split; [reflexivity|]. split; [reflexivity|]. eauto. }
  destruct Hfields as (Hid & Hty & name & Hname & Hs & Hlen).
  assert (Hv : ValidationPipeline.process_item item = Some item).
  { apply validation_iff. rewrite Hname, Hty, Hs.
    repeat split; try assumption.
    destruct name; [unfold Py.len in Hlen; simpl in Hlen; lia | reflexivity]. }
  split; [exact Hv|].
  destruct (pipelines_type lower Hv) as (it & Hit & Htype).
  exists it. split; [exact Hit|].
  destruct (through_pipelines_inv _ _ Hit) as (_ & Hn).
  destruct (normalised_fields _ _ Hn) as (_ & Hsame & _).
  split; [now apply Hsame|].
  rewrite Htype, Hty, Hlow.
  reflexivity.
Qed.

Lemma spider_items_pass_validation_witness :
  exists item : POIItem.t Z,
    GoTokyoEventsSpider.parse_event_card Py.ascii_lower Sample.urljoin
      Sample.spider_card Sample.listing_url = Some item
    /\ ValidationPipeline.process_item item = Some item.
Proof.
  eexists. split; [vm_compute; reflexivity|].
  refine (proj1 (@spider_items_pass_validation Z Py.ascii_lower Sample.urljoin
                   Sample.spider_card Sample.listing_url _ _ _));
    vm_compute; reflexivity.
Defined.

(** ** Tags as strings *)


Lemma split_on_app_part (sep : Z) (w s : Py.str) :
  ~ In sep w ->
  forall cur, split_on sep (w ++ s) cur = split_on sep s (rev w ++ cur).
Proof.
  induction w as [|c w IH]; intros Hw cur; [reflexivity|].
  simpl. destruct (Z.eqb_spec c sep) as [->|_].
  - exfalso. apply Hw. now left.
  - rewrite IH by (intros H; apply Hw; now right).
    now rewrite <- app_assoc.
Qed.

Lemma split_on_join (sep : Z) (parts : list Py.str) :
  parts <> [] ->
  Forall (fun p => ~ In sep p) parts ->
  split_on sep (Py.join [sep] parts) [] = parts.
Proof.
  intros Hne H. induction H as [|p parts Hp Hparts IH]; [contradiction|].
  destruct parts as [|q rest].
  - cbn [Py.join]. rewrite <- (app_nil_r p) at 1.
    rewrite (@split_on_app_part sep p [] Hp), app_nil_r. simpl.
    now rewrite rev_involutive.
  - change (Py.join [sep] (p :: q :: rest))
      with (p ++ [sep] ++ Py.join [sep] (q :: rest)).
    rewrite (@split_on_app_part sep p _ Hp), app_nil_r.
    cbn [app split_on]. rewrite Z.eqb_refl, rev_involutive.
    rewrite IH by discriminate. reflexivity.
Qed.

(** X19. The comma-joined tag cell that [save_to_csv] writes is read back
    by the normalisation pipeline as the list that was written, when the
    tags are stripped, non-empty and hold no comma. *)
Theorem csv_tags_round_trip {F : Type} (event : POI.t F) :
  Forall (fun t => t <> [] /\ Py.strip t = t /\ ~ In 44 t)
         (POI.category_tags event) ->
  POINormalizationPipeline.clean_tags
    (Some (TagStr (GoTokyoEventScraper.row_category_tags
                     (GoTokyoEventScraper.csv_row_of event))))
  = Some (TagList (POI.category_tags event)).
Proof.
  intros H. cbn [GoTokyoEventScraper.csv_row_of
                 GoTokyoEventScraper.row_category_tags
                 POINormalizationPipeline.clean_tags].
  do 2 f_equal. unfold POINormalizationPipeline.split_tags.
  destruct (POI.category_tags event) as [|t tags] eqn:E; [reflexivity|].
  rewrite split_on_join;
    [|discriminate | eapply Forall_impl; [|exact H]; simpl; tauto].
  assert (Hmap : map Py.strip (t :: tags) = t :: tags).
  { clear E. induction H as [|x l (_ & Hx & _) _ IH]; [reflexivity|].
    simpl. now rewrite Hx, IH. }
  rewrite Hmap.
  clear E Hmap. induction H as [|x l (Hx & _) _ IH]; [reflexivity|].
  simpl. destruct x; [contradiction|]. simpl. now rewrite IH.
Qed.

Lemma csv_tags_round_trip_witness :
  exists poi : POI.t Z,
    GoTokyoEventScraper.parse_event_card Py.ascii_lower Sample.title
      Sample.urljoin Sample.search2 Sample.tagged_card = Some poi
    /\ POINormalizationPipeline.clean_tags
         (Some (TagStr (GoTokyoEventScraper.row_category_tags
                          (GoTokyoEventScraper.csv_row_of poi))))
       = Some (TagList (POI.category_tags poi)).
Proof.
  eexists. split; [vm_compute; reflexivity|].
  refine (@csv_tags_round_trip Z _ _).
  constructor; [|constructor].
  split; [discriminate|]. split; [vm_compute; reflexivity|].
  vm_compute. intuition discriminate.
Defined.

(** A tag with a comma does not survive the round trip. *)
Example csv_tags_comma_is_lossy :
  POINormalizationPipeline.clean_tags
    (Some (TagStr (Py.join [44] [Py.lit "Art, Design"; Py.lit "Free"])))
  = Some (TagList [Py.lit "Art"; Py.lit "Design"; Py.lit "Free"]).
Proof. vm_compute. reflexivity. Qed.

(** ** The field order *)

Section FieldOrder.
Variable V : Type.
Implicit Types (d : list (string * V)) (k : string) (v : V).

Lemma get_In d k v : FieldOrderDict.get k d = Some v -> In (k, v) d.
Proof.
  induction d as [|[k' v'] d IH]; simpl; [discriminate|].
  destruct (String.eqb_spec k' k) as [->|_].
  - intros H. injection H as ->. now left.
  - intros H. right. now apply IH.
Qed.

Lemma In_get d k v :
  NoDup (map fst d) -> In (k, v) d -> FieldOrderDict.get k d = Some v.
Proof.
  induction d as [|[k' v'] d IH]; simpl; [contradiction|].
  intros Hnd Hin. inversion Hnd as [|? ? Hnot Hnd']; subst.
  destruct (String.eqb_spec k' k) as [->|Hne].
  - destruct Hin as [E | Hin]; [congruence|].
    exfalso. apply Hnot. apply in_map_iff. now exists (k, v).
  - destruct Hin as [E | Hin]; [congruence | now apply IH].
Qed.

Lemma has_In d k : FieldOrderDict.has k d = true <-> In k (map fst d).
Proof.
  unfold FieldOrderDict.has. rewrite existsb_exists, in_map_iff. split.
  - intros (kv & Hin & E). apply String.eqb_eq in E. eauto.
  - intros (kv & E & Hin). exists kv. split; [exact Hin|].
    now apply String.eqb_eq.
Qed.

Lemma has_get d k :
  FieldOrderDict.has k d = true <-> exists v, FieldOrderDict.get k d = Some v.
Proof.
  induction d as [|[k' v'] d IH]; simpl.
  - split; [discriminate | intros (v & H); discriminate].
  - destruct (String.eqb_spec k' k) as [->|_]; simpl; [|exact IH].
    split; eauto.
Qed.

(** The first loop over an arbitrary list of fields. *)
Lemma ordered_In (fields : list string) d k v :
  In (k, v)
     (flat_map (fun field => match FieldOrderDict.get field d with
                             | Some v => [(field, v)]
                             | None => []
                             end) fields)
  <-> In k fields /\ FieldOrderDict.get k d = Some v.
Proof.
  rewrite in_flat_map. split.
  - intros (f & Hf & Hin).
    destruct (FieldOrderDict.get f d) as [v'|] eqn:E; [|contradiction].
    destruct Hin as [H | []]. injection H as -> ->. auto.
  - intros [Hk Hg]. exists k. split; [exact Hk|]. rewrite Hg. now left.
Qed.

Lemma ordered_keys (fields : list string) d :
  map fst
      (flat_map (fun field => match FieldOrderDict.get field d with
                              | Some v => [(field, v)]
                              | None => []
                              end) fields)
  = filter (fun field => FieldOrderDict.has field d) fields.
Proof.
  induction fields as [|f fields IH]; simpl; [reflexivity|].
  rewrite map_app, IH.
  destruct (FieldOrderDict.get f d) as [v|] eqn:E.
  - assert (H : FieldOrderDict.has f d = true) by (apply has_get; eauto).
    now rewrite H.
  - destruct (FieldOrderDict.has f d) eqn:H; [|reflexivity].
    apply has_get in H as (v & Hv). congruence.
Qed.

Lemma field_order_NoDup : NoDup FieldOrderDict.field_order.
Proof.
  assert (E : nodup string_dec FieldOrderDict.field_order
              = FieldOrderDict.field_order) by (vm_compute; reflexivity).
  rewrite <- E. apply NoDup_nodup.
Qed.

Lemma filter_partition {A : Type} (f : A -> bool) (l : list A) :
  Permutation l (filter f l ++ filter (fun x => negb (f x)) l).
Proof.
  induction l as [|x l IH]; simpl; [constructor|].
  destruct (f x); simpl.
  - now constructor.
  - now apply Permutation_cons_app.
Qed.

Lemma NoDup_of_keys d : NoDup (map fst d) -> NoDup d.
Proof. apply NoDup_map_inv. Qed.

(** The second loop keeps the items whose key is not in [field_order]. *)
Lemma rest_filter d :
  filter (fun kv => negb (FieldOrderDict.has (fst kv)
                            (FieldOrderDict.ordered_item d))) d
  = filter (fun kv => negb (existsb (String.eqb (fst kv))
                              FieldOrderDict.field_order)) d.
Proof.
  apply filter_ext_in. intros [k v] Hin. cbn [fst]. f_equal.
  apply eq_true_iff_eq. rewrite has_In.
  unfold FieldOrderDict.ordered_item. rewrite ordered_keys, filter_In.
  rewrite existsb_exists. split.
  - intros [Hk _]. exists k. split; [exact Hk | apply String.eqb_refl].
  - intros (x & Hx & E). apply String.eqb_eq in E. subst x.
    split; [exact Hx|]. apply has_In, in_map_iff. now exists (k, v).
Qed.

End FieldOrder.

Lemma filter_twice {A : Type} (f : A -> bool) (l : list A) :
  filter f (filter f l) = filter f l.
Proof.
  induction l as [|x l IH]; simpl; [reflexivity|].
  destruct (f x) eqn:E; simpl; [rewrite E|]; now rewrite ?IH.
Qed.

Lemma filter_nothing {A : Type} (f : A -> bool) (l : list A) :
  (forall x, In x l -> f x = false) -> filter f l = [].
Proof.
  induction l as [|x l IH]; intros H; simpl; [reflexivity|].
  rewrite (H x (or_introl eq_refl)). apply IH. intros y Hy. apply H. now right.
Qed.

Lemma map_fst_filter {A B : Type} (f : A -> bool) (l : list (A * B)) :
  map fst (filter (fun kv => f (fst kv)) l) = filter f (map fst l).
Proof.
  induction l as [|[a b] l IH]; simpl; [reflexivity|].
  destruct (f a); simpl; now rewrite IH.
Qed.

(** X20. The field-order pipeline loses nothing and adds nothing: for an
    item whose keys are distinct, the result holds the same keys with the
    same values, the fields of the canonical order first and in that
    order, the others after them in their former order; and ordering an
    ordered item changes nothing. *)
Theorem field_order_keeps_the_item (V : Type) (d : list (string * V)) :
  NoDup (map fst d) ->
  Permutation d (FieldOrderDict.process_item d)
  /\ (forall k, FieldOrderDict.get k (FieldOrderDict.process_item d)
                = FieldOrderDict.get k d)
  /\ map fst (FieldOrderDict.process_item d)
     = filter (fun field => FieldOrderDict.has field d)
              FieldOrderDict.field_order
       ++ filter (fun k => negb (existsb (String.eqb k)
                                   FieldOrderDict.field_order))
                 (map fst d)
  /\ FieldOrderDict.process_item (FieldOrderDict.process_item d)
     = FieldOrderDict.process_item d.
Proof.
  intros Hnd.
  pose proof (@NoDup_of_keys _ _ Hnd) as Hndd.
  set (in_order := fun kv : string * V =>
                     existsb (String.eqb (fst kv)) FieldOrderDict.field_order).
  assert (Hkeys : map fst (FieldOrderDict.ordered_item d)
                  = filter (fun field => FieldOrderDict.has field d)
                           FieldOrderDict.field_order)
    by apply ordered_keys.
  assert (Hord_nd : NoDup (FieldOrderDict.ordered_item d)).
  { apply (@NoDup_of_keys V). rewrite Hkeys.
    apply NoDup_filter, field_order_NoDup. }
  assert (Hord : Permutation (FieldOrderDict.ordered_item d)
                             (filter in_order d)).
  { apply NoDup_Permutation; [exact Hord_nd | now apply NoDup_filter|].
    intros [k v]. unfold FieldOrderDict.ordered_item.
    rewrite ordered_In, filter_In. unfold in_order. cbn [fst].
    rewrite existsb_exists. split.
    - intros [Hk Hg]. split; [now apply (@get_In V)|].
      exists k. split; [exact Hk | apply String.eqb_refl].
    - intros [Hin (x & Hx & E)]. apply String.eqb_eq in E. subst x.
      split; [exact Hx | now apply (@In_get V)]. }
  assert (Hperm : Permutation d (FieldOrderDict.process_item d)).
  { unfold FieldOrderDict.process_item. cbv zeta. rewrite rest_filter.
    etransitivity; [apply (filter_partition in_order)|].
    apply Permutation_app; [now symmetry | apply Permutation_refl]. }
  assert (Hget : forall k, FieldOrderDict.get k (FieldOrderDict.process_item d)
                           = FieldOrderDict.get k d).
  { intros k.
    assert (Hnd' : NoDup (map fst (FieldOrderDict.process_item d))).
    { eapply Permutation_NoDup; [apply Permutation_map, Hperm | exact Hnd]. }
    destruct (FieldOrderDict.get k d) as [v|] eqn:E.
    - apply (@In_get V); [exact Hnd'|].
      eapply Permutation_in; [exact Hperm | now apply (@get_In V)].
    - destruct (FieldOrderDict.get k (FieldOrderDict.process_item d))
        as [v|] eqn:E'; [|reflexivity].
      apply (@get_In V) in E'.
      apply (Permutation_in _ (Permutation_sym Hperm)) in E'.
      apply (@In_get V _ _ _ Hnd) in E'. congruence. }
  split; [exact Hperm|]. split; [exact Hget|]. split.
  - unfold FieldOrderDict.process_item. cbv zeta.
    rewrite map_app, Hkeys, rest_filter. f_equal.
    apply (map_fst_filter
             (fun k => negb (existsb (String.eqb k)
                               FieldOrderDict.field_order))).
  - unfold FieldOrderDict.process_item at 1. cbv zeta.
    assert (Hsame : FieldOrderDict.ordered_item (FieldOrderDict.process_item d)
                    = FieldOrderDict.ordered_item d).
    { unfold FieldOrderDict.ordered_item. apply flat_map_ext.
      intros f. now rewrite Hget. }
    rewrite Hsame. unfold FieldOrderDict.process_item. cbv zeta.
    rewrite filter_app, filter_twice. f_equal.
    rewrite filter_nothing; [reflexivity|].
    intros [k v] Hin. cbn [fst]. apply negb_false_iff, has_In.
    apply in_map_iff. now exists (k, v).
Qed.

Lemma field_order_keeps_the_item_witness :
  FieldOrderDict.process_item
    [("source_url", 1); ("name", 2); ("extra", 3); ("id", 4)]%string
  = [("id", 4); ("name", 2); ("source_url", 1); ("extra", 3)]%string
  /\ Permutation
       [("source_url", 1); ("name", 2); ("extra", 3); ("id", 4)]%string
       (FieldOrderDict.process_item
          [("source_url", 1); ("name", 2); ("extra", 3); ("id", 4)]%string).
Proof.
  split; [vm_compute; reflexivity|].
  refine (proj1 (@field_order_keeps_the_item Z
                   [("source_url", 1); ("name", 2); ("extra", 3); ("id", 4)]%string
                   _)).
  simpl. repeat constructor; simpl; intuition discriminate.
Defined.

(** ** The links the spider follows *)

(** X21. From one page the spider follows at most 15 links; each of them
    is non-empty, differs from the URL of the page and contains "/en/";
    and a page of depth 1 or more offers its pagination links only, at
    most three per selector. *)
Theorem followed_links_bounds (response_url : Py.str)
        (pagination_links category_links : list (list Py.str)) (depth : Z) :
  let collected :=
    GoTokyoEventsSpider.follow_links pagination_links category_links depth in
  let followed := GoTokyoEventsSpider.follow response_url collected 0 in
  (length followed <= 15)%nat
  /\ (forall link, In link followed ->
        link <> [] /\ link <> response_url
        /\ Py.contains (Py.lit "/en/") link = true /\ In link collected)
  /\ (1 <= depth ->
      (length collected <= 3 * length pagination_links)%nat).
Proof.
  cbv zeta.
  assert (G : forall links n,
             0 <= n ->
             (Z.of_nat (length (GoTokyoEventsSpider.follow response_url links n))
              <= Z.max 0 (15 - n))
             /\ forall link,
                 In link (GoTokyoEventsSpider.follow response_url links n) ->
                 link <> [] /\ link <> response_url
                 /\ Py.contains (Py.lit "/en/") link = true /\ In link links).
  { induction links as [|l links IH]; intros n Hn;
      cbn [GoTokyoEventsSpider.follow].
    - split; [simpl; lia | intros ? []].
    - destruct (negb (Py.falsy l)) eqn:E1; cbn [andb];
        [destruct (negb (Py.str_eqb l response_url)) eqn:E2; cbn [andb];
         [destruct (Py.contains (Py.lit "/en/") l) eqn:E3; cbn [andb];
          [destruct (Z.ltb_spec n 15) as [Hlt|Hge]|]|]|].
      + destruct (IH (n + 1) ltac:(lia)) as (Hl & Hp).
        split; [cbn [length]; lia|].
        intros link [<- | Hin].
        * repeat split; [|  | exact E3 | now left].
          -- intros E. rewrite E in E1. discriminate.
          -- intros E. apply negb_true_iff in E2.
             apply str_eqb_eq in E. congruence.
        * destruct (Hp link Hin) as (? & ? & ? & ?). repeat split; auto.
          now right.
      + destruct (IH n Hn) as (Hl & Hp). split; [exact Hl|].
        intros link Hin. destruct (Hp link Hin) as (? & ? & ? & ?).
        repeat split; auto. now right.
      + destruct (IH n Hn) as (Hl & Hp). split; [exact Hl|].
        intros link Hin. destruct (Hp link Hin) as (? & ? & ? & ?).
        repeat split; auto. now right.
      + destruct (IH n Hn) as (Hl & Hp). split; [exact Hl|].
        intros link Hin. destruct (Hp link Hin) as (? & ? & ? & ?).
        repeat split; auto. now right.
      + destruct (IH n Hn) as (Hl & Hp). split; [exact Hl|].
        intros link Hin. destruct (Hp link Hin) as (? & ? & ? & ?).
        repeat split; auto. now right. }
  destruct (G (GoTokyoEventsSpider.follow_links pagination_links
                 category_links depth) 0 ltac:(lia)) as (Hl & Hp).
  split; [lia|]. split; [exact Hp|].
  intros Hd. unfold GoTokyoEventsSpider.follow_links.
  destruct (Z.ltb_spec depth 1); [lia|]. rewrite app_nil_r. clear Hl Hp.
  induction pagination_links as [|p ps IH]; cbn [flat_map length]; [lia|].
  rewrite length_app. pose proof (firstn_le_length 3%nat p). lia.
Qed.

(** ** The records of the restaurant scraper *)

Lemma parse_price_tiers (price_str : Py.str) :
  match TabelogScraper.parse_price price_str with
  | Some tier => 1 <= tier <= 4
  | None => True
  end.
Proof.
  unfold TabelogScraper.parse_price.
  destruct (Py.falsy price_str); [exact I|].
  destruct (TabelogScraper.findall_price price_str []); [exact I|].
  destruct (TabelogScraper.max_price _ 0) as [m|]; [|exact I].
  destruct (m =? 0); [exact I|].
  destruct (m <? 1000); [lia|].
  destruct (m <? 4000); [lia|].
  destruct (m <? 10000); lia.
Qed.

Lemma parse_restaurant_card_shape
      {F : Type} {FL : PyFloat F} (urljoin : Py.str -> Py.str -> Py.str)
      (search1 : pattern1 -> Py.str -> option Py.str)
      (item : TabelogScraper.card) (category : Py.str) (poi : POI.t F) :
  (forall rating : F,
      float_ge_3_7 rating = true -> float_ge_3_5 rating = true) ->
  TabelogScraper.parse_restaurant_card urljoin search1 item category = Some poi ->
  restaurant_shape category poi.
Proof.
  intros ge_3_7_ge_3_5.
  unfold TabelogScraper.parse_restaurant_card.
  destruct (TabelogScraper.name_tag item) as [[text href]|]; [|discriminate].
  destruct (TabelogScraper.generate_poi_id _) as [poi_id|] eqn:Eid;
    [|discriminate].
  intros H. injection H as <-. unfold restaurant_shape.
  cbn [POI.type POI.category_tags POI.cuisine POI.halal
       POI.typical_duration_minutes POI.source_url POI.id POI.price_range
       POI.interest_tags POI.best_time_of_day].
  split; [reflexivity|]. split; [reflexivity|]. split; [reflexivity|].
  split; [reflexivity|]. split; [reflexivity|]. split; [exact Eid|].
  split; [|split].
  - intros p Hp. destruct (TabelogScraper.price_text item) as [t|];
      [|discriminate].
    pose proof (parse_price_tiers t) as Ht. rewrite Hp in Ht. exact Ht.
  - match goal with
    | |- context [float_ge_3_7 ?r] =>
        pose proof (ge_3_7_ge_3_5 r) as Hm;
        destruct (float_ge_3_7 r); [rewrite (Hm eq_refl)|];
        [|destruct (float_ge_3_5 r)]
    end; simpl; tauto.
  - destruct (match TabelogScraper.price_text item with
              | Some t => TabelogScraper.parse_price t
              | None => None
              end) as [p|]; [destruct (2 <? p)|]; simpl; tauto.
Qed.

Lemma update_poi_shape {F : Type} (category : Py.str) (poi : POI.t F)
      (det : option (TabelogScraper.details (F := F))) :
  restaurant_shape category poi ->
  restaurant_shape category (TabelogScraper.update_poi poi det).
Proof.
  destruct det as [d|]; [|trivial].
  unfold restaurant_shape.
  intros (H1 & H2 & H3 & H4 & H5 & H6 & H7 & H8 & H9).
  cbn [TabelogScraper.update_poi POI.type POI.category_tags POI.cuisine
       POI.halal POI.typical_duration_minutes POI.source_url POI.id
       POI.price_range POI.interest_tags POI.best_time_of_day].
  split; [exact H1|]. split; [exact H2|]. split; [exact H3|].
  split; [exact H4|]. split; [exact H5|]. split; [exact H6|].
  split; [|split; [exact H8 | exact H9]].
  intros p. destruct (TabelogScraper.truthy_text _) as [t|]; [|apply H7].
  pose proof (parse_price_tiers t) as Ht.
  destruct (TabelogScraper.parse_price t) as [q|]; [|apply H7].
  intros E. injection E as <-. exact Ht.
Qed.

Section Restaurants.
Context {F : Type} {FL : PyFloat F}.
Variable lower : Py.str -> Py.str.
Variable urljoin : Py.str -> Py.str -> Py.str.
Variable search1 : pattern1 -> Py.str -> option Py.str.
Variable search2 : pattern2 -> Py.str -> option (Py.str * Py.str).

(** What holds of every enriched card holds of every record of the
    loops. *)
Variable P : Py.str -> POI.t F -> Prop.
Hypothesis P_enriched :
  forall item category poi,
    TabelogScraper.parse_restaurant_card urljoin search1 item category
    = Some poi ->
    P category
      (TabelogScraper.update_poi poi
         (TabelogScraper.parse_detail_page lower search1 search2
            (TabelogScraper.detail item))).

Lemma scrape_items_Forall (category_name : Py.str) (limit : Z)
      (list_items : list TabelogScraper.card) :
  forall items : list (POI.t F),
    Forall (P category_name) items ->
    Forall (P category_name)
           (TabelogScraper.scrape_items lower urljoin search1 search2
              category_name limit list_items items).
Proof.
  induction list_items as [|item rest IH]; intros items Hitems;
    cbn [TabelogScraper.scrape_items]; [exact Hitems|].
  destruct (TabelogScraper.parse_restaurant_card urljoin search1 item
              category_name) as [poi|] eqn:Ep; [|now apply IH].
  destruct (existsb _ items); [now apply IH|].
  assert (Hnew : Forall (P category_name)
                   (items ++ [TabelogScraper.update_poi poi
                                (TabelogScraper.parse_detail_page lower search1
                                   search2 (TabelogScraper.detail item))])).
  { apply Forall_app. split; [exact Hitems|]. constructor; [|constructor].
    now apply P_enriched. }
  destruct (limit <=? _); [exact Hnew | now apply IH].
Qed.

Lemma scrape_pages_Forall (category_name : Py.str) (limit : Z)
      (pages : list (option TabelogScraper.listing)) :
  forall items : list (POI.t F),
    Forall (P category_name) items ->
    Forall (P category_name)
           (TabelogScraper.scrape_pages lower urljoin search1 search2
              category_name limit pages items).
Proof.
  induction pages as [|[page|] rest IH]; intros items Hitems;
    cbn [TabelogScraper.scrape_pages];
    destruct (limit <=? Z.of_nat (length items)); try exact Hitems.
  destruct (TabelogScraper.list_items page) as [|i l] eqn:Ei; [exact Hitems|].
  destruct (TabelogScraper.has_next page).
  - apply IH. now apply scrape_items_Forall.
  - now apply scrape_items_Forall.
Qed.

Lemma scrape_category_Forall (category_name : Py.str) (limit : Z)
      (pages : list (option TabelogScraper.listing)) (poi : POI.t F) :
  In poi (TabelogScraper.scrape_category lower urljoin search1 search2
            category_name pages limit) ->
  P category_name poi.
Proof.
  intros Hin.
  pose proof (@scrape_pages_Forall category_name limit pages []
                (Forall_nil _)) as Hall.
  rewrite Forall_forall in Hall. exact (Hall poi Hin).
Qed.

End Restaurants.

(** X22. Every restaurant of a category keeps the shape its card gave it,
    whatever the detail page holds: the type "restaurant", the category as
    its only category tag and cuisine, halal "unknown", 60 minutes, an id
    that is the digest of its source URL, a price tier from 1 to 4 when
    there is one, afternoon or night as best time; and, when a rating of
    3.7 or more is one of 3.5 or more, "Highly Rated" only after
    "Popular". *)
Theorem category_restaurants_shape
        {F : Type} {FL : PyFloat F} (lower : Py.str -> Py.str)
        (urljoin : Py.str -> Py.str -> Py.str)
        (search1 : pattern1 -> Py.str -> option Py.str)
        (search2 : pattern2 -> Py.str -> option (Py.str * Py.str))
        (category_name : Py.str)
        (pages : list (option TabelogScraper.listing)) (limit : Z)
        (poi : POI.t F) :
  (forall rating : F,
      float_ge_3_7 rating = true -> float_ge_3_5 rating = true) ->
  In poi (TabelogScraper.scrape_category lower urljoin search1 search2
            category_name pages limit) ->
  POI.type poi = Py.lit "restaurant"
  /\ POI.category_tags poi = [category_name]
  /\ POI.cuisine poi = Some [category_name]
  /\ POI.halal poi = Py.lit "unknown"
  /\ POI.typical_duration_minutes poi = 60
  /\ TabelogScraper.generate_poi_id (POI.source_url poi) = Some (POI.id poi)
  /\ (forall p, POI.price_range poi = Some p -> 1 <= p <= 4)
  /\ In (POI.interest_tags poi)
        [[category_name]; [category_name; Py.lit "Popular"];
         [category_name; Py.lit "Popular"; Py.lit "Highly Rated"]]
  /\ In (POI.best_time_of_day poi) [Some afternoon; Some night].
Proof.
  intros Hge Hin.
  apply (@scrape_category_Forall F FL lower urljoin search1 search2
           (@restaurant_shape F)) with (pages := pages) (limit := limit);
    [|exact Hin].
  intros item category p Hp. apply update_poi_shape.
  exact (@parse_restaurant_card_shape F FL urljoin search1 item category p
           Hge Hp).
Qed.

Lemma category_restaurants_shape_witness :
  exists poi : POI.t Z,
    In poi (TabelogScraper.scrape_category Py.ascii_lower Sample.urljoin
              Sample.search1 Sample.search2 (Py.lit "Tempura")
              [Some (TabelogScraper.Listing [Sample.rated_card] false)] 10)
    /\ POI.interest_tags poi
       = [Py.lit "Tempura"; Py.lit "Popular"; Py.lit "Highly Rated"]
    /\ POI.price_range poi = Some 3
    /\ POI.type poi = Py.lit "restaurant".
Proof.
  eexists. split; [vm_compute; left; reflexivity|].
  split; [reflexivity|]. split; [reflexivity|].
  refine (proj1 (@category_restaurants_shape Z _ Py.ascii_lower Sample.urljoin
                   Sample.search1 Sample.search2 (Py.lit "Tempura")
                   [Some (TabelogScraper.Listing [Sample.rated_card] false)]
                   10 _ _ _)).
  - intros rating H. apply Z.leb_le in H. apply Z.leb_le. lia.
  - vm_compute. left. reflexivity.
Defined.

(** X23. A run gives at most [max_per_category] restaurants for each
    category, and each of its restaurants comes from the scrape of one of
    the categories, whose name is its only category tag and the first of
    its interest tags. *)
Theorem run_bounded_by_categories
        {F : Type} {FL : PyFloat F} (lower : Py.str -> Py.str)
        (urljoin : Py.str -> Py.str -> Py.str)
        (search1 : pattern1 -> Py.str -> option Py.str)
        (search2 : pattern2 -> Py.str -> option (Py.str * Py.str))
        (cat_items : list (Py.str * list (option TabelogScraper.listing)))
        (max_per_category : Z) :
  let all_pois := TabelogScraper.run (F := F) lower urljoin search1 search2
                    cat_items max_per_category in
  Z.of_nat (length all_pois)
  <= Z.of_nat (length cat_items) * Z.max 0 max_per_category
  /\ forall poi,
       In poi all_pois ->
       exists cat,
         In cat cat_items
         /\ In poi (TabelogScraper.scrape_category lower urljoin search1
                      search2 (fst cat) (snd cat) max_per_category)
         /\ POI.category_tags poi = [fst cat]
         /\ exists tags, POI.interest_tags poi = fst cat :: tags.
Proof.
  cbv zeta. unfold TabelogScraper.run. split.
  - induction cat_items as [|cat rest IH]; [simpl; lia|].
    cbn [flat_map]. rewrite length_app.
    assert (Hone : Z.of_nat (length (TabelogScraper.scrape_category (F := F)
                                       lower urljoin search1 search2
                                       (fst cat) (snd cat) max_per_category))
                   <= Z.max 0 max_per_category).
    { unfold TabelogScraper.scrape_category.
      destruct (@scrape_pages_spec F FL lower urljoin search1 search2
                  (fst cat) max_per_category (snd cat) []) as (Hb & _).
      cbv zeta in Hb.
      destruct (Z.le_gt_cases 0 max_per_category) as [Hl | Hl].
      - specialize (Hb Hl). lia.
      - destruct (snd cat) as [|[p|] r]; cbn [TabelogScraper.scrape_pages];
          destruct (max_per_category <=? Z.of_nat (@length (POI.t F) []))
                   eqn:E;
          try (simpl; lia);
          apply Z.leb_gt in E; simpl in E; lia. }
    cbn [length]. lia.
  - intros poi Hin. apply in_flat_map in Hin as (cat & Hcat & Hpoi).
    exists cat. split; [exact Hcat|]. split; [exact Hpoi|].
    apply (@scrape_category_Forall F FL lower urljoin search1 search2
             (fun category p =>
                POI.category_tags p = [category]
                /\ exists tags, POI.interest_tags p = category :: tags))
      with (pages := snd cat) (limit := max_per_category); [|exact Hpoi].
    intros item category p.
    unfold TabelogScraper.parse_restaurant_card.
    destruct (TabelogScraper.name_tag item) as [[text href]|]; [|discriminate].
    destruct (TabelogScraper.generate_poi_id _); [|discriminate].
    intros H. injection H as <-.
    destruct (TabelogScraper.parse_detail_page _ _ _ _);
      cbn [TabelogScraper.update_poi POI.category_tags POI.interest_tags];
      (split; [reflexivity|]);
      match goal with
      | |- context [float_ge_3_7 ?r] =>
          destruct (float_ge_3_5 r), (float_ge_3_7 r)
      end; cbn [app]; eauto.
Qed.
